(** * Fitness Dashboard: the persistence and session layer

    A shallow embedding of [modules/database.py] (class [DatabaseManager])
    and of the two plan-deletion helpers of [pages/workouts.py] and
    [pages/diet.py], together with the properties the specification states
    about them.  Further on come the session state and the form handlers
    of [modules/auth.py], the profile form of [pages/profile.py] and the
    response handling of [modules/ai_integration.py] (class
    [GeminiClient]), with properties read off the code.

    Conventions of the embedding.
    - A table is the list of its rows in rowid order; a connection's
      working copy of the database is a record of tables.
    - A method body runs in a state-and-exception monad over the working
      copy.  [with_connection] is Python's [with self.get_connection() as
      conn:] block: commit when the body returns, roll back when it raises.
      The enclosing [try ... except Exception] turns the exception into the
      method's failure value.
    - [secrets.token_hex], [secrets.token_urlsafe] and [datetime.now()] are
      inputs of the operation that draws them.
    - [hashlib.sha256(..).hexdigest()] is a parameter.
    - Numeric columns carry exact integers; the rounding of REAL columns is
      outside the model.  A column stores the value bound to it: SQLite's
      type affinity is not modelled.  Python strings are strings that
      [.encode()] accepts.
    - No connection turns foreign-key enforcement on, so a DELETE never
      raises and an INSERT is checked against the constraints of its own
      table only.
    - [st.session_state] is a record of the keys the code uses; a form
      handler is the block under its submit button and returns the
      notices it shows together with the new state.  A number input holds
      an exact integer.
    - A string is the sequence of its characters, each an [ascii]: indices
      and lengths count characters. *)

From Stdlib Require Import ZArith List String Ascii Bool Lia QArith Sorted Permutation.
From stdpp Require Import base option list strings gmap.

Local Open Scope string_scope.
Local Open Scope Z_scope.
Local Open Scope list_scope.

(** ** Python values bound to SQL parameters and SQLite column values *)

(** What a column holds.  [VNull] is SQL NULL and Python [None]. *)
Inductive sqlval : Type :=
  | VNull
  | VInt (z : Z)
  | VText (s : string).

Global Instance sqlval_eq_dec : EqDecision sqlval.
Proof. solve_decision. Defined.

(** Exceptions the modelled code can meet. *)
Inductive exn : Type :=
  | ValueError
  | TypeError
  | IntegrityError.

(** ** Credential store: [hash_password] and [verify_password] *)

(** [str.split(sep)] for a one-character separator: the pieces between
    consecutive separators, so one more piece than there are separators. *)
Fixpoint split_on (sep : ascii) (s : string) : list string :=
  match s with
  | EmptyString => [EmptyString]
  | String c s' =>
      if Ascii.eqb c sep then EmptyString :: split_on sep s'
      else match split_on sep s' with
           | [] => [String c EmptyString]
           | p :: ps => String c p :: ps
           end
  end.

(** [a, b = parts]: unpacking into two names raises [ValueError] unless
    there are exactly two parts. *)
Definition unpack2 (parts : list string) : exn + (string * string) :=
  match parts with
  | [a; b] => inr (a, b)
  | _ => inl ValueError
  end.

Definition colon : ascii := ":"%char.

(** Number of occurrences of a character. *)
Fixpoint occurrences (c : ascii) (s : string) : nat :=
  match s with
  | EmptyString => O
  | String d s' => (if Ascii.eqb d c then 1 else 0)%nat + occurrences c s'
  end.

Definition is_hex_char (c : ascii) : bool :=
  existsb (Ascii.eqb c) (list_ascii_of_string "0123456789abcdef").

Fixpoint is_hex (s : string) : bool :=
  match s with
  | EmptyString => true
  | String c s' => is_hex_char c && is_hex s'
  end.

(** [secrets.token_hex(nbytes)] returns [2 * nbytes] hexadecimal digits. *)
Definition is_token_hex (nbytes : nat) (s : string) : bool :=
  (String.length s =? 2 * nbytes)%nat && is_hex s.

Section Credentials.

(** [sha256_hexdigest s] is [hashlib.sha256(s.encode()).hexdigest()]. *)
Variable sha256_hexdigest : string -> string.

(** [hash_password], with the salt [secrets.token_hex(16)] drew. *)
Definition hash_password (salt : string) (password : string) : string :=
  salt +:+ ":" +:+ sha256_hexdigest (password +:+ salt).

(** [verify_password]; the [except ValueError] branch returns [False]. *)
Definition verify_password (password stored_hash : string) : bool :=
  match unpack2 (split_on colon stored_hash) with
  | inr (salt, password_hash) =>
      String.eqb (sha256_hexdigest (password +:+ salt)) password_hash
  | inl _ => false
  end.

End Credentials.

(** ** Relational schema: one record per table row *)

(** Table [users], as [_create_default_schema] declares it. *)
Record UserRow : Type := mkUser {
  u_id : Z;
  u_username : string;
  u_email : string;
  u_password_hash : string;
  u_first_name : sqlval;
  u_last_name : sqlval;
  u_age : sqlval;
  u_gender : sqlval;
  u_height_cm : sqlval;
  u_weight_kg : sqlval;
  u_activity_level : sqlval;
  u_fitness_goals : sqlval;
  u_injuries : sqlval;
  u_experience_level : sqlval;
  u_created_at : Z
}.

(** Table [user_sessions]; [s_expires_at] is a Python [datetime], in
    microseconds. *)
Record SessionRow : Type := mkSession {
  s_id : Z;
  s_user_id : Z;
  s_session_token : string;
  s_expires_at : Z
}.

Record WorkoutPlanRow : Type := mkWorkoutPlan {
  wp_id : Z;
  wp_user_id : Z;
  wp_name : sqlval;
  wp_description : sqlval;
  wp_duration_weeks : sqlval;
  wp_ai_generated : sqlval;
  wp_gemini_prompt : sqlval;
  wp_created_at : Z
}.

Record WorkoutDayRow : Type := mkWorkoutDay {
  wd_id : Z;
  wd_workout_plan_id : Z;
  wd_day_number : sqlval;
  wd_day_name : sqlval;
  wd_focus_area : sqlval
}.

(** Table [exercises], the shared catalog. *)
Record ExerciseRow : Type := mkExercise {
  e_id : Z;
  e_name : sqlval;
  e_category : sqlval;
  e_muscle_groups : sqlval;
  e_equipment : sqlval;
  e_difficulty_level : sqlval;
  e_instructions : sqlval
}.

(** Table [workout_exercises]: the link of a day to a catalog row. *)
Record WorkoutExerciseRow : Type := mkWorkoutExercise {
  we_id : Z;
  we_workout_day_id : Z;
  we_exercise_id : Z;
  we_sets : sqlval;
  we_reps : sqlval;
  we_weight_kg : sqlval;
  we_rest_seconds : sqlval;
  we_notes : sqlval
}.

Record WorkoutLogRow : Type := mkWorkoutLog {
  wl_id : Z;
  wl_user_id : Z;
  wl_workout_day_id : Z;
  wl_plan_name : sqlval;
  wl_completed_at : Z;
  wl_duration_minutes : sqlval;
  wl_notes : sqlval
}.

Record ExerciseLogRow : Type := mkExerciseLog {
  el_id : Z;
  el_workout_log_id : Z;
  el_exercise_id : Z;
  el_sets_completed : sqlval;
  el_reps_completed : sqlval;
  el_weight_used_kg : sqlval;
  el_perceived_exertion : sqlval;
  el_notes : sqlval
}.

Record DietPlanRow : Type := mkDietPlan {
  dp_id : Z;
  dp_user_id : Z;
  dp_name : sqlval;
  dp_calorie_target : sqlval;
  dp_protein_target_g : sqlval;
  dp_carb_target_g : sqlval;
  dp_fat_target_g : sqlval;
  dp_dietary_restrictions : sqlval;
  dp_ai_generated : sqlval;
  dp_gemini_prompt : sqlval;
  dp_created_at : Z
}.

Record MealPlanRow : Type := mkMealPlan {
  mp_id : Z;
  mp_diet_plan_id : Z;
  mp_day_number : sqlval;
  mp_meal_type : sqlval;
  mp_recipe_name : sqlval;
  mp_ingredients : sqlval;
  mp_instructions : sqlval;
  mp_calories_per_serving : sqlval;
  mp_protein_g : sqlval;
  mp_carbs_g : sqlval;
  mp_fat_g : sqlval;
  mp_servings : sqlval
}.

Record ShoppingListRow : Type := mkShoppingList {
  sl_id : Z;
  sl_user_id : Z;
  sl_diet_plan_id : Z;
  sl_item_name : sqlval;
  sl_quantity : sqlval;
  sl_unit : sqlval;
  sl_category : sqlval
}.

(** Table [meal_logs]; [ml_logged_at] is SQLite's [CURRENT_TIMESTAMP], in
    seconds. *)
Record MealLogRow : Type := mkMealLog {
  ml_id : Z;
  ml_user_id : Z;
  ml_meal_type : sqlval;
  ml_food_items : sqlval;
  ml_calories_consumed : sqlval;
  ml_protein_g : sqlval;
  ml_carbs_g : sqlval;
  ml_fat_g : sqlval;
  ml_logged_at : Z
}.

(** The database: every table the modelled operations read or write. *)
Record DB : Type := mkDB {
  users : list UserRow;
  user_sessions : list SessionRow;
  workout_plans : list WorkoutPlanRow;
  workout_days : list WorkoutDayRow;
  exercises : list ExerciseRow;
  workout_exercises : list WorkoutExerciseRow;
  workout_logs : list WorkoutLogRow;
  exercise_logs : list ExerciseLogRow;
  diet_plans : list DietPlanRow;
  meal_plans : list MealPlanRow;
  shopping_lists : list ShoppingListRow;
  meal_logs : list MealLogRow
}.

Definition empty_db : DB := mkDB [] [] [] [] [] [] [] [] [] [] [] [].

Definition set_users (f : list UserRow -> list UserRow) (d : DB) : DB :=
  mkDB (f (users d)) (user_sessions d) (workout_plans d) (workout_days d)
       (exercises d) (workout_exercises d) (workout_logs d) (exercise_logs d)
       (diet_plans d) (meal_plans d) (shopping_lists d) (meal_logs d).

Definition set_user_sessions (f : list SessionRow -> list SessionRow) (d : DB) : DB :=
  mkDB (users d) (f (user_sessions d)) (workout_plans d) (workout_days d)
       (exercises d) (workout_exercises d) (workout_logs d) (exercise_logs d)
       (diet_plans d) (meal_plans d) (shopping_lists d) (meal_logs d).

Definition set_workout_plans (f : list WorkoutPlanRow -> list WorkoutPlanRow) (d : DB) : DB :=
  mkDB (users d) (user_sessions d) (f (workout_plans d)) (workout_days d)
       (exercises d) (workout_exercises d) (workout_logs d) (exercise_logs d)
       (diet_plans d) (meal_plans d) (shopping_lists d) (meal_logs d).

Definition set_workout_days (f : list WorkoutDayRow -> list WorkoutDayRow) (d : DB) : DB :=
  mkDB (users d) (user_sessions d) (workout_plans d) (f (workout_days d))
       (exercises d) (workout_exercises d) (workout_logs d) (exercise_logs d)
       (diet_plans d) (meal_plans d) (shopping_lists d) (meal_logs d).

Definition set_exercises (f : list ExerciseRow -> list ExerciseRow) (d : DB) : DB :=
  mkDB (users d) (user_sessions d) (workout_plans d) (workout_days d)
       (f (exercises d)) (workout_exercises d) (workout_logs d) (exercise_logs d)
       (diet_plans d) (meal_plans d) (shopping_lists d) (meal_logs d).

Definition set_workout_exercises
    (f : list WorkoutExerciseRow -> list WorkoutExerciseRow) (d : DB) : DB :=
  mkDB (users d) (user_sessions d) (workout_plans d) (workout_days d)
       (exercises d) (f (workout_exercises d)) (workout_logs d) (exercise_logs d)
       (diet_plans d) (meal_plans d) (shopping_lists d) (meal_logs d).

Definition set_workout_logs (f : list WorkoutLogRow -> list WorkoutLogRow) (d : DB) : DB :=
  mkDB (users d) (user_sessions d) (workout_plans d) (workout_days d)
       (exercises d) (workout_exercises d) (f (workout_logs d)) (exercise_logs d)
       (diet_plans d) (meal_plans d) (shopping_lists d) (meal_logs d).

Definition set_exercise_logs (f : list ExerciseLogRow -> list ExerciseLogRow) (d : DB) : DB :=
  mkDB (users d) (user_sessions d) (workout_plans d) (workout_days d)
       (exercises d) (workout_exercises d) (workout_logs d) (f (exercise_logs d))
       (diet_plans d) (meal_plans d) (shopping_lists d) (meal_logs d).

Definition set_diet_plans (f : list DietPlanRow -> list DietPlanRow) (d : DB) : DB :=
  mkDB (users d) (user_sessions d) (workout_plans d) (workout_days d)
       (exercises d) (workout_exercises d) (workout_logs d) (exercise_logs d)
       (f (diet_plans d)) (meal_plans d) (shopping_lists d) (meal_logs d).

Definition set_meal_plans (f : list MealPlanRow -> list MealPlanRow) (d : DB) : DB :=
  mkDB (users d) (user_sessions d) (workout_plans d) (workout_days d)
       (exercises d) (workout_exercises d) (workout_logs d) (exercise_logs d)
       (diet_plans d) (f (meal_plans d)) (shopping_lists d) (meal_logs d).

Definition set_shopping_lists (f : list ShoppingListRow -> list ShoppingListRow) (d : DB) : DB :=
  mkDB (users d) (user_sessions d) (workout_plans d) (workout_days d)
       (exercises d) (workout_exercises d) (workout_logs d) (exercise_logs d)
       (diet_plans d) (meal_plans d) (f (shopping_lists d)) (meal_logs d).

(** The constraints [database/schema.sql] puts on the tables it declares.
    The file is not among the sources, so each check is a parameter: it
    says whether the row may be inserted in the given state (NOT NULL,
    CHECK, UNIQUE and the like). *)
Record Schema : Type := mkSchema {
  user_sessions_ok : DB -> SessionRow -> bool;
  workout_plans_ok : DB -> WorkoutPlanRow -> bool;
  workout_days_ok : DB -> WorkoutDayRow -> bool;
  exercises_ok : DB -> ExerciseRow -> bool;
  workout_exercises_ok : DB -> WorkoutExerciseRow -> bool;
  diet_plans_ok : DB -> DietPlanRow -> bool;
  meal_plans_ok : DB -> MealPlanRow -> bool;
  shopping_lists_ok : DB -> ShoppingListRow -> bool
}.

(** A schema without constraints of its own. *)
Definition permissive_schema : Schema :=
  mkSchema (fun _ _ => true) (fun _ _ => true) (fun _ _ => true) (fun _ _ => true)
           (fun _ _ => true) (fun _ _ => true) (fun _ _ => true) (fun _ _ => true).

(** ** Connections, transactions and exceptions *)

(** How a block of statements ends: it returns, or it raises; either way
    the connection's working copy is in some state. *)
Inductive outcome (A : Type) : Type :=
  | Returned (a : A) (d : DB)
  | Raised (e : exn) (d : DB).
Arguments Returned {A} a d.
Arguments Raised {A} e d.

Definition conn (A : Type) : Type := DB -> outcome A.

Global Instance conn_ret : MRet conn := fun A a d => Returned a d.

Global Instance conn_bind : MBind conn := fun A B f m d =>
  match m d with
  | Returned a d' => f a d'
  | Raised e d' => Raised e d'
  end.

Definition raise {A : Type} (e : exn) : conn A := fun d => Raised e d.

Definition get_db : conn DB := fun d => Returned d d.

Definition modify_db (f : DB -> DB) : conn unit := fun d => Returned tt (f d).

(** A Python [for x in xs:] loop whose body is a block of statements. *)
Fixpoint for_each {A : Type} (body : A -> conn unit) (xs : list A) : conn unit :=
  match xs with
  | [] => mret tt
  | x :: xs' => body x ≫= fun _ => for_each body xs'
  end.

(** [try: with self.get_connection() as conn: body / except Exception:
    return failure].  Leaving the [with] block normally commits the working
    copy; leaving it by an exception rolls the transaction back, and the
    handler returns [on_error]. *)
Definition with_connection {A : Type} (on_error : A) (body : conn A) (d : DB) : A * DB :=
  match body d with
  | Returned a d' => (a, d')
  | Raised _ _ => (on_error, d)
  end.

(** The rowid SQLite gives a new row: one more than the largest in use. *)
Definition next_rowid (ids : list Z) : Z := 1 + fold_right Z.max 0 ids.

(** [dict.get(key)] and [dict.get(key, default)] on the scalar entries of a
    payload. *)
Definition dict_get (m : gmap string sqlval) (key : string) : sqlval :=
  default VNull (m !! key).

Definition dict_get_default (m : gmap string sqlval) (key : string) (dflt : sqlval) : sqlval :=
  default dflt (m !! key).

(** ** Accounts: [create_user] and [authenticate_user] *)

(** [SELECT ... FROM users WHERE username = ? OR email = ?].  Both columns
    are UNIQUE, so SQLite answers the query from their two indexes, the
    username term first: the row found through the username index comes
    before a row found only through the email index. *)
Definition select_users_by_username_or_email
    (username email : string) (us : list UserRow) : list UserRow :=
  List.filter (fun u => String.eqb (u_username u) username) us ++
  List.filter (fun u => negb (String.eqb (u_username u) username) &&
                        String.eqb (u_email u) email) us.

(** [cursor.fetchone()]: the first row of the result, or [None]. *)
Definition fetchone {A : Type} (rows : list A) : option A := head rows.

(** [INSERT INTO users ...]: the id is the next rowid; [username] and
    [email] are UNIQUE, and a violation raises [sqlite3.IntegrityError]. *)
Definition insert_user (row : Z -> UserRow) : conn Z := fun d =>
  let new := row (next_rowid (map u_id (users d))) in
  if existsb (fun u => String.eqb (u_username u) (u_username new) ||
                       String.eqb (u_email u) (u_email new)) (users d)
  then Raised IntegrityError d
  else Returned (u_id new) (set_users (fun us => us ++ [new]) d).

Section Accounts.

Variable sha256_hexdigest : string -> string.

(** [create_user].  [salt] is what [secrets.token_hex(16)] returns inside
    [hash_password], [now] is the value of [CURRENT_TIMESTAMP]. *)
Definition create_user (salt : string) (now : Z)
    (username email password : string)
    (user_data : option (gmap string sqlval)) : DB -> option Z * DB :=
  with_connection None (
    d ← get_db;
    match fetchone (select_users_by_username_or_email username email (users d)) with
    | Some _ => mret None
    | None =>
        let password_hash := hash_password sha256_hexdigest salt password in
        let user_data := default ∅ user_data in
        user_id ← insert_user (fun id =>
          mkUser id username email password_hash
                 (dict_get user_data "first_name")
                 (dict_get user_data "last_name")
                 (dict_get user_data "age")
                 (dict_get user_data "gender")
                 (dict_get user_data "height_cm")
                 (dict_get user_data "weight_kg")
                 (dict_get user_data "activity_level")
                 (dict_get user_data "fitness_goals")
                 (dict_get user_data "injuries")
                 (dict_get user_data "experience_level")
                 now);
        mret (Some user_id)
    end).

(** [authenticate_user]: the one parameter is matched against both
    columns.  The block only reads, so the database is left as it is. *)
Definition authenticate_user (d : DB) (username password : string) : option UserRow :=
  match fetchone (select_users_by_username_or_email username username (users d)) with
  | Some user =>
      if verify_password sha256_hexdigest password (u_password_hash user)
      then Some user
      else None
  | None => None
  end.

End Accounts.

(** ** Sessions: [create_session] and [validate_session] *)

Definition microseconds_per_hour : Z := 3600 * 1000000.

Definition default_duration_hours : Z := 24.

(** [SELECT u.* FROM users u JOIN user_sessions s ON u.id = s.user_id
    WHERE s.session_token = ? AND s.expires_at > ?]. *)
Definition select_session_users (d : DB) (session_token : string) (now : Z) : list UserRow :=
  flat_map
    (fun s => List.filter (fun u => u_id u =? s_user_id s) (users d))
    (List.filter (fun s => String.eqb (s_session_token s) session_token &&
                           (now <? s_expires_at s))
                 (user_sessions d)).

Definition validate_session (d : DB) (session_token : string) (now : Z) : option UserRow :=
  fetchone (select_session_users d session_token now).

(** ** Plan payloads

    A payload is a Python dict.  Its scalar entries are read with
    [dict.get]; the entries that hold lists are typed fields, a missing
    key being the empty list. *)

Record DayData : Type := mkDayData {
  day_fields : gmap string sqlval;
  day_exercises : list (gmap string sqlval)
}.

Record WorkoutPlanData : Type := mkWorkoutPlanData {
  plan_fields : gmap string sqlval;
  plan_days : list DayData
}.

Record DietPlanData : Type := mkDietPlanData {
  diet_fields : gmap string sqlval;
  diet_meals : list (gmap string sqlval);
  diet_shopping_list : list (gmap string sqlval)
}.

(** Python's [True] is bound as the integer 1. *)
Definition py_True : sqlval := VInt 1.

(** The comparison [column = ?]: NULL equals nothing. *)
Definition sql_eq (a b : sqlval) : bool :=
  match a, b with
  | VInt x, VInt y => x =? y
  | VText x, VText y => String.eqb x y
  | _, _ => false
  end.

(** [SELECT id FROM exercises WHERE name = ?]. *)
Definition select_exercises_by_name (name : sqlval) (es : list ExerciseRow) : list ExerciseRow :=
  List.filter (fun e => sql_eq (e_name e) name) es.

Section Persistence.

Variable schema : Schema.

Definition insert_session (row : Z -> SessionRow) : conn Z := fun d =>
  let new := row (next_rowid (map s_id (user_sessions d))) in
  if user_sessions_ok schema d new
  then Returned (s_id new) (set_user_sessions (fun rs => rs ++ [new]) d)
  else Raised IntegrityError d.

(** [create_session].  [session_token] is what [secrets.token_urlsafe(32)]
    returns and [now] is [datetime.now()]; [duration_hours] is [None]
    when the caller leaves the argument out. *)
Definition create_session (session_token : string) (now : Z)
    (user_id : Z) (duration_hours : option Z) : DB -> option string * DB :=
  with_connection None (
    let duration_hours := default default_duration_hours duration_hours in
    let expires_at := now + duration_hours * microseconds_per_hour in
    _ ← insert_session (fun id => mkSession id user_id session_token expires_at);
    mret (Some session_token)).

(** *** [save_workout_plan] *)

Definition insert_workout_plan (row : Z -> WorkoutPlanRow) : conn Z := fun d =>
  let new := row (next_rowid (map wp_id (workout_plans d))) in
  if workout_plans_ok schema d new
  then Returned (wp_id new) (set_workout_plans (fun rs => rs ++ [new]) d)
  else Raised IntegrityError d.

Definition insert_workout_day (row : Z -> WorkoutDayRow) : conn Z := fun d =>
  let new := row (next_rowid (map wd_id (workout_days d))) in
  if workout_days_ok schema d new
  then Returned (wd_id new) (set_workout_days (fun rs => rs ++ [new]) d)
  else Raised IntegrityError d.

(** Modelled from the spec: [database/schema.sql], which declares the
    [exercises] table, is not among the sources; the specification says
    the catalog is de-duplicated and keyed by exercise name, so [name] is
    UNIQUE.  [INSERT OR IGNORE] skips the row when it would break that or
    any other constraint of the table, and never raises for it. *)
Definition insert_or_ignore_exercise (row : Z -> ExerciseRow) : conn unit := fun d =>
  let new := row (next_rowid (map e_id (exercises d))) in
  if existsb (fun e => sql_eq (e_name e) (e_name new)) (exercises d)
     || negb (exercises_ok schema d new)
  then Returned tt d
  else Returned tt (set_exercises (fun rs => rs ++ [new]) d).

Definition insert_workout_exercise (row : Z -> WorkoutExerciseRow) : conn Z := fun d =>
  let new := row (next_rowid (map we_id (workout_exercises d))) in
  if workout_exercises_ok schema d new
  then Returned (we_id new) (set_workout_exercises (fun rs => rs ++ [new]) d)
  else Raised IntegrityError d.

(** The body of [for exercise_data in day_data.get('exercises', [])].
    [cursor.fetchone()['id']] raises [TypeError] when no row has the
    name. *)
Definition save_exercise (day_id : Z) (exercise_data : gmap string sqlval) : conn unit :=
  _ ← insert_or_ignore_exercise (fun id =>
        mkExercise id
                   (dict_get exercise_data "name")
                   (dict_get exercise_data "category")
                   (dict_get exercise_data "muscle_groups")
                   (dict_get exercise_data "equipment")
                   (dict_get exercise_data "difficulty_level")
                   (dict_get exercise_data "instructions"));
  d ← get_db;
  match fetchone (select_exercises_by_name (dict_get exercise_data "name") (exercises d)) with
  | None => raise TypeError
  | Some found =>
      let exercise_id := e_id found in
      _ ← insert_workout_exercise (fun id =>
            mkWorkoutExercise id day_id exercise_id
                              (dict_get exercise_data "sets")
                              (dict_get exercise_data "reps")
                              (dict_get exercise_data "weight_kg")
                              (dict_get exercise_data "rest_seconds")
                              (dict_get exercise_data "notes"));
      mret tt
  end.

(** The body of [for day_data in plan_data.get('days', [])]. *)
Definition save_day (workout_plan_id : Z) (day_data : DayData) : conn unit :=
  day_id ← insert_workout_day (fun id =>
        mkWorkoutDay id workout_plan_id
                     (dict_get (day_fields day_data) "day_number")
                     (dict_get (day_fields day_data) "day_name")
                     (dict_get (day_fields day_data) "focus_area"));
  for_each (save_exercise day_id) (day_exercises day_data).

Definition save_workout_plan_body (now : Z) (user_id : Z)
    (plan_data : WorkoutPlanData) : conn (option Z) :=
  workout_plan_id ← insert_workout_plan (fun id =>
        mkWorkoutPlan id user_id
                      (dict_get (plan_fields plan_data) "name")
                      (dict_get (plan_fields plan_data) "description")
                      (dict_get (plan_fields plan_data) "duration_weeks")
                      (dict_get_default (plan_fields plan_data) "ai_generated" py_True)
                      (dict_get (plan_fields plan_data) "gemini_prompt")
                      now);
  _ ← for_each (save_day workout_plan_id) (plan_days plan_data);
  mret (Some workout_plan_id).

(** [save_workout_plan]; [now] is [CURRENT_TIMESTAMP], the default of
    [created_at]. *)
Definition save_workout_plan (now : Z) (user_id : Z)
    (plan_data : WorkoutPlanData) : DB -> option Z * DB :=
  with_connection None (save_workout_plan_body now user_id plan_data).

(** *** [save_diet_plan] *)

Definition insert_diet_plan (row : Z -> DietPlanRow) : conn Z := fun d =>
  let new := row (next_rowid (map dp_id (diet_plans d))) in
  if diet_plans_ok schema d new
  then Returned (dp_id new) (set_diet_plans (fun rs => rs ++ [new]) d)
  else Raised IntegrityError d.

Definition insert_meal_plan (row : Z -> MealPlanRow) : conn Z := fun d =>
  let new := row (next_rowid (map mp_id (meal_plans d))) in
  if meal_plans_ok schema d new
  then Returned (mp_id new) (set_meal_plans (fun rs => rs ++ [new]) d)
  else Raised IntegrityError d.

Definition insert_shopping_list (row : Z -> ShoppingListRow) : conn Z := fun d =>
  let new := row (next_rowid (map sl_id (shopping_lists d))) in
  if shopping_lists_ok schema d new
  then Returned (sl_id new) (set_shopping_lists (fun rs => rs ++ [new]) d)
  else Raised IntegrityError d.

Definition save_meal (diet_plan_id : Z) (meal_data : gmap string sqlval) : conn unit :=
  _ ← insert_meal_plan (fun id =>
        mkMealPlan id diet_plan_id
                   (dict_get meal_data "day_number")
                   (dict_get meal_data "meal_type")
                   (dict_get meal_data "recipe_name")
                   (dict_get meal_data "ingredients")
                   (dict_get meal_data "instructions")
                   (dict_get meal_data "calories_per_serving")
                   (dict_get meal_data "protein_g")
                   (dict_get meal_data "carbs_g")
                   (dict_get meal_data "fat_g")
                   (dict_get_default meal_data "servings" (VInt 1)));
  mret tt.

Definition save_shopping_item (user_id diet_plan_id : Z)
    (item_data : gmap string sqlval) : conn unit :=
  _ ← insert_shopping_list (fun id =>
        mkShoppingList id user_id diet_plan_id
                       (dict_get item_data "item_name")
                       (dict_get item_data "quantity")
                       (dict_get item_data "unit")
                       (dict_get item_data "category"));
  mret tt.

Definition save_diet_plan_body (now : Z) (user_id : Z)
    (diet_data : DietPlanData) : conn (option Z) :=
  diet_plan_id ← insert_diet_plan (fun id =>
        mkDietPlan id user_id
                   (dict_get (diet_fields diet_data) "name")
                   (dict_get (diet_fields diet_data) "calorie_target")
                   (dict_get (diet_fields diet_data) "protein_target_g")
                   (dict_get (diet_fields diet_data) "carb_target_g")
                   (dict_get (diet_fields diet_data) "fat_target_g")
                   (dict_get (diet_fields diet_data) "dietary_restrictions")
                   (dict_get_default (diet_fields diet_data) "ai_generated" py_True)
                   (dict_get (diet_fields diet_data) "gemini_prompt")
                   now);
  _ ← for_each (save_meal diet_plan_id) (diet_meals diet_data);
  _ ← for_each (save_shopping_item user_id diet_plan_id) (diet_shopping_list diet_data);
  mret (Some diet_plan_id).

Definition save_diet_plan (now : Z) (user_id : Z)
    (diet_data : DietPlanData) : DB -> option Z * DB :=
  with_connection None (save_diet_plan_body now user_id diet_data).

End Persistence.

(** ** Analytics: [get_nutrition_logs] and [get_workout_history] *)

(** The [days_map] dict of both methods. *)
Definition days_map : gmap string Z :=
  list_to_map [("1 Week", 7); ("2 Weeks", 14); ("1 Month", 30);
               ("3 Months", 90); ("6 Months", 180); ("1 Year", 365)].

(** [days_map.get(date_range, 30)]. *)
Definition window_days (date_range : string) : Z :=
  default 30 (days_map !! date_range).

Definition microseconds_per_day : Z := 86400 * 1000000.

Definition seconds_per_day : Z := 86400.

(** [(datetime.now() - timedelta(days=days)).strftime('%Y-%m-%d')], as the
    number of the calendar day.  Dates in this format compare as their day
    numbers do. *)
Definition start_date (now : Z) (days : Z) : Z :=
  (now - days * microseconds_per_day) / microseconds_per_day.

(** SQL [DATE(t)] of a timestamp in seconds. *)
Definition sql_date (t : Z) : Z := t / seconds_per_day.

(** Stable insertion sort: [ORDER BY] with [lt] as the strict order. *)
Fixpoint insert_sorted {A : Type} (lt : A -> A -> bool) (x : A) (l : list A) : list A :=
  match l with
  | [] => [x]
  | y :: l' => if lt y x then y :: insert_sorted lt x l' else x :: y :: l'
  end.

Definition order_by {A : Type} (lt : A -> A -> bool) (l : list A) : list A :=
  fold_right (insert_sorted lt) [] l.

(** The integer a text value starts with, as SQLite reads text used as a
    number. *)
Definition digit_of (c : ascii) : option Z :=
  let n := Z.of_nat (nat_of_ascii c) in
  if (48 <=? n) && (n <=? 57) then Some (n - 48) else None.

Fixpoint digits_prefix (s : string) (acc : Z) : Z :=
  match s with
  | EmptyString => acc
  | String c s' =>
      match digit_of c with
      | Some k => digits_prefix s' (10 * acc + k)
      | None => acc
      end
  end.

Fixpoint skip_spaces (s : string) : string :=
  match s with
  | String c s' => if Ascii.eqb c " "%char then skip_spaces s' else s
  | EmptyString => s
  end.

Definition text_to_integer (s : string) : Z :=
  match skip_spaces s with
  | String c s' =>
      if Ascii.eqb c "-"%char then - digits_prefix s' 0
      else if Ascii.eqb c "+"%char then digits_prefix s' 0
      else digits_prefix (String c s') 0
  | EmptyString => 0
  end.

(** The numeric value of a column value; [None] is NULL. *)
Definition sql_num (v : sqlval) : option Z :=
  match v with
  | VNull => None
  | VInt z => Some z
  | VText s => Some (text_to_integer s)
  end.

Definition of_num (o : option Z) : sqlval :=
  match o with
  | Some z => VInt z
  | None => VNull
  end.

(** [SUM(col)]: NULLs are skipped, and the sum of no value is NULL. *)
Definition sql_sum (vals : list sqlval) : sqlval :=
  match omap sql_num vals with
  | [] => VNull
  | z :: zs => VInt (fold_left Z.add zs z)
  end.

(** [a * b * c] with NULL absorbing. *)
Definition sql_mul3 (a b c : sqlval) : sqlval :=
  match sql_num a, sql_num b, sql_num c with
  | Some x, Some y, Some z => VInt (x * y * z)
  | _, _, _ => VNull
  end.

(** [AVG(col)] over the non-NULL values. *)
Definition sql_avg (vals : list sqlval) : option Q :=
  match omap sql_num vals with
  | [] => None
  | z :: zs => Some (Qdiv (inject_Z (fold_left Z.add zs z))
                          (inject_Z (Z.of_nat (length (z :: zs)))))
  end.

(** [SELECT calorie_target FROM diet_plans WHERE user_id = ? ORDER BY
    created_at DESC LIMIT 1], then [target_row[0] if target_row else None];
    a NULL column reads as [None]. *)
Definition latest_calorie_target (d : DB) (user_id : Z) : option sqlval :=
  match fetchone (order_by (fun a b => dp_created_at b <? dp_created_at a)
                           (List.filter (fun p => dp_user_id p =? user_id) (diet_plans d))) with
  | Some target_row =>
      match dp_calorie_target target_row with
      | VNull => None
      | v => Some v
      end
  | None => None
  end.

(** One row of the daily nutrition query. *)
Record NutritionRow : Type := mkNutritionRow {
  n_date : Z;
  n_calories : sqlval;
  n_protein : sqlval;
  n_carbs : sqlval;
  n_fats : sqlval
}.

(** The DataFrame [get_nutrition_logs] returns: the rows, and the value of
    the [target_calories] column when the method adds it. *)
Record NutritionFrame : Type := mkNutritionFrame {
  nf_rows : list NutritionRow;
  nf_target_calories : option sqlval
}.

(** The rows [WHERE ml.user_id = ? AND DATE(ml.logged_at) >= ?] keeps. *)
Definition meal_logs_in_window (d : DB) (user_id : Z) (start : Z) : list MealLogRow :=
  List.filter (fun ml => (ml_user_id ml =? user_id) && (start <=? sql_date (ml_logged_at ml)))
              (meal_logs d).

(** The meal logs of one user on one day. *)
Definition meal_logs_on (d : DB) (user_id : Z) (day : Z) : list MealLogRow :=
  List.filter (fun ml => (ml_user_id ml =? user_id) && (sql_date (ml_logged_at ml) =? day))
              (meal_logs d).

(** [GROUP BY DATE(ml.logged_at) ORDER BY DATE(ml.logged_at) ASC]: the
    distinct days in ascending order. *)
Definition group_days (days : list Z) : list Z :=
  remove_dups (order_by Z.ltb days).

Definition nutrition_row (logs : list MealLogRow) (day : Z) : NutritionRow :=
  let group := List.filter (fun ml => sql_date (ml_logged_at ml) =? day) logs in
  mkNutritionRow day
                 (sql_sum (map ml_calories_consumed group))
                 (sql_sum (map ml_protein_g group))
                 (sql_sum (map ml_carbs_g group))
                 (sql_sum (map ml_fat_g group)).

Definition daily_nutrition (d : DB) (user_id : Z) (start : Z) : list NutritionRow :=
  let logs := meal_logs_in_window d user_id start in
  map (nutrition_row logs) (group_days (map (fun ml => sql_date (ml_logged_at ml)) logs)).

(** [get_nutrition_logs]; [now] is [datetime.now()]. *)
Definition get_nutrition_logs (d : DB) (now : Z) (user_id : Z) (date_range : string)
    : NutritionFrame :=
  let days := window_days date_range in
  let start := start_date now days in
  let target_calories := latest_calorie_target d user_id in
  let df := daily_nutrition d user_id start in
  match df, target_calories with
  | _ :: _, Some target => mkNutritionFrame df (Some target)
  | _, _ => mkNutritionFrame df None
  end.

(** One row of the workout history query. *)
Record HistoryRow : Type := mkHistoryRow {
  h_date : Z;
  h_name : sqlval;
  h_day_number : sqlval;
  h_volume : sqlval;
  h_sessions : nat;
  h_duration : option Q;
  h_completion_rate : Z
}.

(** [workout_logs wl JOIN exercise_logs el ON wl.id = el.workout_log_id
    JOIN workout_days wd ON wl.workout_day_id = wd.id
    WHERE wl.user_id = ? AND DATE(wl.completed_at) >= ?]. *)
Definition history_join (d : DB) (user_id : Z) (start : Z)
    : list (WorkoutLogRow * ExerciseLogRow * WorkoutDayRow) :=
  flat_map (fun wl =>
    flat_map (fun el =>
      map (fun wd => (wl, el, wd))
          (List.filter (fun wd => wl_workout_day_id wl =? wd_id wd) (workout_days d)))
      (List.filter (fun el => wl_id wl =? el_workout_log_id el) (exercise_logs d)))
    (List.filter (fun wl => (wl_user_id wl =? user_id) &&
                            (start <=? sql_date (wl_completed_at wl)))
                 (workout_logs d)).

(** [GROUP BY DATE(wl.completed_at), wl.plan_name, wd.day_number]. *)
Definition history_key (r : WorkoutLogRow * ExerciseLogRow * WorkoutDayRow)
    : Z * sqlval * sqlval :=
  let '(wl, _, wd) := r in (sql_date (wl_completed_at wl), wl_plan_name wl, wd_day_number wd).

(** The row of one group.  [wl.completed_at] is a bare column of an
    aggregate query and is read from a row of the group. *)
Definition history_row (rows : list (WorkoutLogRow * ExerciseLogRow * WorkoutDayRow))
    (key : Z * sqlval * sqlval) : HistoryRow :=
  let group := List.filter (fun r => bool_decide (history_key r = key)) rows in
  mkHistoryRow
    (match group with
     | (wl, _, _) :: _ => wl_completed_at wl
     | [] => 0
     end)
    (snd (fst key))
    (snd key)
    (sql_sum (map (fun r => let '(_, el, _) := r in
                     sql_mul3 (el_sets_completed el)
                              (of_num (sql_num (el_reps_completed el)))
                              (el_weight_used_kg el)) group))
    (length (remove_dups (map (fun r => let '(wl, _, _) := r in wl_id wl) group)))
    (sql_avg (map (fun r => let '(wl, _, _) := r in wl_duration_minutes wl) group))
    1.

(** [get_workout_history]; groups come out in ascending order of their
    day, as [ORDER BY DATE(wl.completed_at) ASC] asks. *)
Definition get_workout_history (d : DB) (now : Z) (user_id : Z) (date_range : string)
    : list HistoryRow :=
  let days := window_days date_range in
  let start := start_date now days in
  let rows := history_join d user_id start in
  let keys := remove_dups
                (order_by (fun a b => fst (fst a) <? fst (fst b)) (map history_key rows)) in
  map (history_row rows) keys.

(** ** Profile: [update_user_profile] *)

(** The columns the method may write, in the order of its loop. *)
Definition profile_fields : list string :=
  ["first_name"; "last_name"; "age"; "gender"; "height_cm"; "weight_kg";
   "activity_level"; "fitness_goals"; "injuries"; "experience_level"].

(** The [update_fields] and [values] lists the loop builds, zipped. *)
Definition update_assignments (profile_data : gmap string sqlval) : list (string * sqlval) :=
  omap (fun field => (fun v => (field, v)) <$> profile_data !! field) profile_fields.

(** [SET field = ?] on one row. *)
Definition set_user_column (field : string) (v : sqlval) (u : UserRow) : UserRow :=
  if String.eqb field "first_name" then
    mkUser (u_id u) (u_username u) (u_email u) (u_password_hash u)
           v (u_last_name u) (u_age u) (u_gender u) (u_height_cm u) (u_weight_kg u)
           (u_activity_level u) (u_fitness_goals u) (u_injuries u) (u_experience_level u)
           (u_created_at u)
  else if String.eqb field "last_name" then
    mkUser (u_id u) (u_username u) (u_email u) (u_password_hash u)
           (u_first_name u) v (u_age u) (u_gender u) (u_height_cm u) (u_weight_kg u)
           (u_activity_level u) (u_fitness_goals u) (u_injuries u) (u_experience_level u)
           (u_created_at u)
  else if String.eqb field "age" then
    mkUser (u_id u) (u_username u) (u_email u) (u_password_hash u)
           (u_first_name u) (u_last_name u) v (u_gender u) (u_height_cm u) (u_weight_kg u)
           (u_activity_level u) (u_fitness_goals u) (u_injuries u) (u_experience_level u)
           (u_created_at u)
  else if String.eqb field "gender" then
    mkUser (u_id u) (u_username u) (u_email u) (u_password_hash u)
           (u_first_name u) (u_last_name u) (u_age u) v (u_height_cm u) (u_weight_kg u)
           (u_activity_level u) (u_fitness_goals u) (u_injuries u) (u_experience_level u)
           (u_created_at u)
  else if String.eqb field "height_cm" then
    mkUser (u_id u) (u_username u) (u_email u) (u_password_hash u)
           (u_first_name u) (u_last_name u) (u_age u) (u_gender u) v (u_weight_kg u)
           (u_activity_level u) (u_fitness_goals u) (u_injuries u) (u_experience_level u)
           (u_created_at u)
  else if String.eqb field "weight_kg" then
    mkUser (u_id u) (u_username u) (u_email u) (u_password_hash u)
           (u_first_name u) (u_last_name u) (u_age u) (u_gender u) (u_height_cm u) v
           (u_activity_level u) (u_fitness_goals u) (u_injuries u) (u_experience_level u)
           (u_created_at u)
  else if String.eqb field "activity_level" then
    mkUser (u_id u) (u_username u) (u_email u) (u_password_hash u)
           (u_first_name u) (u_last_name u) (u_age u) (u_gender u) (u_height_cm u) (u_weight_kg u)
           v (u_fitness_goals u) (u_injuries u) (u_experience_level u)
           (u_created_at u)
  else if String.eqb field "fitness_goals" then
    mkUser (u_id u) (u_username u) (u_email u) (u_password_hash u)
           (u_first_name u) (u_last_name u) (u_age u) (u_gender u) (u_height_cm u) (u_weight_kg u)
           (u_activity_level u) v (u_injuries u) (u_experience_level u)
           (u_created_at u)
  else if String.eqb field "injuries" then
    mkUser (u_id u) (u_username u) (u_email u) (u_password_hash u)
           (u_first_name u) (u_last_name u) (u_age u) (u_gender u) (u_height_cm u) (u_weight_kg u)
           (u_activity_level u) (u_fitness_goals u) v (u_experience_level u)
           (u_created_at u)
  else if String.eqb field "experience_level" then
    mkUser (u_id u) (u_username u) (u_email u) (u_password_hash u)
           (u_first_name u) (u_last_name u) (u_age u) (u_gender u) (u_height_cm u) (u_weight_kg u)
           (u_activity_level u) (u_fitness_goals u) (u_injuries u) v
           (u_created_at u)
  else u.

(** The value of a column of [users], by column name. *)
Definition user_column (column : string) (u : UserRow) : option sqlval :=
  if String.eqb column "id" then Some (VInt (u_id u))
  else if String.eqb column "username" then Some (VText (u_username u))
  else if String.eqb column "email" then Some (VText (u_email u))
  else if String.eqb column "password_hash" then Some (VText (u_password_hash u))
  else if String.eqb column "first_name" then Some (u_first_name u)
  else if String.eqb column "last_name" then Some (u_last_name u)
  else if String.eqb column "age" then Some (u_age u)
  else if String.eqb column "gender" then Some (u_gender u)
  else if String.eqb column "height_cm" then Some (u_height_cm u)
  else if String.eqb column "weight_kg" then Some (u_weight_kg u)
  else if String.eqb column "activity_level" then Some (u_activity_level u)
  else if String.eqb column "fitness_goals" then Some (u_fitness_goals u)
  else if String.eqb column "injuries" then Some (u_injuries u)
  else if String.eqb column "experience_level" then Some (u_experience_level u)
  else if String.eqb column "created_at" then Some (VInt (u_created_at u))
  else None.

Definition user_columns : list string :=
  ["id"; "username"; "email"; "password_hash"; "first_name"; "last_name"; "age";
   "gender"; "height_cm"; "weight_kg"; "activity_level"; "fitness_goals";
   "injuries"; "experience_level"; "created_at"].

(** The [SET] list of an [UPDATE], applied to one row from left to right. *)
Definition apply_assignments (assignments : list (string * sqlval)) (u : UserRow) : UserRow :=
  fold_left (fun row a => set_user_column (fst a) (snd a) row) assignments u.

(** [UPDATE users SET f1 = ?, ..., fn = ? WHERE id = ?]. *)
Definition update_users (assignments : list (string * sqlval)) (user_id : Z) : conn unit :=
  modify_db (set_users (map (fun u =>
    if u_id u =? user_id then apply_assignments assignments u else u))).

Definition update_user_profile (user_id : Z) (profile_data : gmap string sqlval)
    : DB -> bool * DB :=
  with_connection false (
    match update_assignments profile_data with
    | [] => mret false
    | assignments => _ ← update_users assignments user_id; mret true
    end).

(** ** Plan deletion: [delete_workout_plan] and [delete_diet_plan] *)

Inductive table : Type :=
  | T_users | T_user_sessions | T_workout_plans | T_workout_days | T_exercises
  | T_workout_exercises | T_workout_logs | T_exercise_logs | T_diet_plans
  | T_meal_plans | T_shopping_lists | T_meal_logs.

Global Instance table_eq_dec : EqDecision table.
Proof. solve_decision. Defined.

(** A [DELETE FROM t WHERE ...] statement: the table it names and what it
    does to the working copy. *)
Record statement : Type := mkStatement {
  target : table;
  run : DB -> DB
}.

(** [SELECT id FROM workout_days WHERE workout_plan_id = ?]. *)
Definition plan_day_ids (d : DB) (plan_id : Z) : list Z :=
  map wd_id (List.filter (fun wd => wd_workout_plan_id wd =? plan_id) (workout_days d)).

(** [SELECT id FROM workout_logs WHERE workout_day_id IN (...)]. *)
Definition plan_log_ids (d : DB) (plan_id : Z) : list Z :=
  map wl_id (List.filter (fun wl => bool_decide (wl_workout_day_id wl ∈ plan_day_ids d plan_id))
                         (workout_logs d)).

Definition delete_exercise_logs_of_plan (plan_id : Z) : statement :=
  mkStatement T_exercise_logs (fun d =>
    set_exercise_logs
      (List.filter (fun el => negb (bool_decide (el_workout_log_id el ∈ plan_log_ids d plan_id)))) d).

Definition delete_workout_logs_of_plan (plan_id : Z) : statement :=
  mkStatement T_workout_logs (fun d =>
    set_workout_logs
      (List.filter (fun wl => negb (bool_decide (wl_workout_day_id wl ∈ plan_day_ids d plan_id)))) d).

Definition delete_workout_exercises_of_plan (plan_id : Z) : statement :=
  mkStatement T_workout_exercises (fun d =>
    set_workout_exercises
      (List.filter (fun we => negb (bool_decide (we_workout_day_id we ∈ plan_day_ids d plan_id)))) d).

Definition delete_workout_days_of_plan (plan_id : Z) : statement :=
  mkStatement T_workout_days (fun d =>
    set_workout_days (List.filter (fun wd => negb (wd_workout_plan_id wd =? plan_id))) d).

Definition delete_workout_plan_row (plan_id : Z) : statement :=
  mkStatement T_workout_plans (fun d =>
    set_workout_plans (List.filter (fun wp => negb (wp_id wp =? plan_id))) d).

(** The five statements of [delete_workout_plan], in source order. *)
Definition delete_workout_plan_statements (plan_id : Z) : list statement :=
  [delete_exercise_logs_of_plan plan_id;
   delete_workout_logs_of_plan plan_id;
   delete_workout_exercises_of_plan plan_id;
   delete_workout_days_of_plan plan_id;
   delete_workout_plan_row plan_id].

Definition execute (st : statement) : conn unit := modify_db (run st).

(** [delete_workout_plan]: the statements, [conn.commit()], [return True].
    Foreign keys are not enforced on the connection, so no statement
    raises. *)
Definition delete_workout_plan (plan_id : Z) : DB -> bool * DB :=
  with_connection false (
    _ ← for_each execute (delete_workout_plan_statements plan_id);
    mret true).

Definition delete_meal_plans_of_plan (plan_id : Z) : statement :=
  mkStatement T_meal_plans (fun d =>
    set_meal_plans (List.filter (fun mp => negb (mp_diet_plan_id mp =? plan_id))) d).

Definition delete_shopping_lists_of_plan (plan_id : Z) : statement :=
  mkStatement T_shopping_lists (fun d =>
    set_shopping_lists (List.filter (fun sl => negb (sl_diet_plan_id sl =? plan_id))) d).

Definition delete_diet_plan_row (plan_id : Z) : statement :=
  mkStatement T_diet_plans (fun d =>
    set_diet_plans (List.filter (fun dp => negb (dp_id dp =? plan_id))) d).

(** The three statements of [delete_diet_plan], in source order. *)
Definition delete_diet_plan_statements (plan_id : Z) : list statement :=
  [delete_meal_plans_of_plan plan_id;
   delete_shopping_lists_of_plan plan_id;
   delete_diet_plan_row plan_id].

Definition delete_diet_plan (plan_id : Z) : DB -> bool * DB :=
  with_connection false (
    _ ← for_each execute (delete_diet_plan_statements plan_id);
    mret true).

(** ** What a saved plan looks like *)

(** The database with rows appended to the four workout tables. *)
Definition append_workout (ps : list WorkoutPlanRow) (ds : list WorkoutDayRow)
    (es : list ExerciseRow) (ls : list WorkoutExerciseRow) (d : DB) : DB :=
  mkDB (users d) (user_sessions d) (workout_plans d ++ ps) (workout_days d ++ ds)
       (exercises d ++ es) (workout_exercises d ++ ls) (workout_logs d) (exercise_logs d)
       (diet_plans d) (meal_plans d) (shopping_lists d) (meal_logs d).

(** The database with rows appended to the three diet tables. *)
Definition append_diet (ps : list DietPlanRow) (ms : list MealPlanRow)
    (ss : list ShoppingListRow) (d : DB) : DB :=
  mkDB (users d) (user_sessions d) (workout_plans d) (workout_days d)
       (exercises d) (workout_exercises d) (workout_logs d) (exercise_logs d)
       (diet_plans d ++ ps) (meal_plans d ++ ms) (shopping_lists d ++ ss) (meal_logs d).

(** The UNIQUE constraints of the catalog hold: ids and names. *)
Definition catalog_wf (es : list ExerciseRow) : Prop :=
  List.NoDup (map e_id es) /\
  forall name, (length (select_exercises_by_name name es) <= 1)%nat.

(** [link] is the link row of [exercise_data] under the day [day_id]: it
    points to the catalog row that carries the exercise's name. *)
Definition link_saved (catalog : list ExerciseRow) (day_id : Z)
    (exercise_data : gmap string sqlval) (link : WorkoutExerciseRow) : Prop :=
  exists found,
    fetchone (select_exercises_by_name (dict_get exercise_data "name") catalog) = Some found /\
    we_workout_day_id link = day_id /\
    we_exercise_id link = e_id found /\
    we_sets link = dict_get exercise_data "sets" /\
    we_reps link = dict_get exercise_data "reps" /\
    we_weight_kg link = dict_get exercise_data "weight_kg" /\
    we_rest_seconds link = dict_get exercise_data "rest_seconds" /\
    we_notes link = dict_get exercise_data "notes".

(** [saved] is the day row of [day_data] under the plan, with the link
    rows of its exercises. *)
Definition day_saved (catalog : list ExerciseRow) (workout_plan_id : Z)
    (day_data : DayData) (saved : WorkoutDayRow * list WorkoutExerciseRow) : Prop :=
  wd_workout_plan_id (fst saved) = workout_plan_id /\
  wd_day_number (fst saved) = dict_get (day_fields day_data) "day_number" /\
  wd_day_name (fst saved) = dict_get (day_fields day_data) "day_name" /\
  wd_focus_area (fst saved) = dict_get (day_fields day_data) "focus_area" /\
  Forall2 (link_saved catalog (wd_id (fst saved))) (day_exercises day_data) (snd saved).

(** The rows [save_workout_plan] is to leave behind: the plan row, a day
    row per day, a link row per exercise, and catalog rows appended. *)
Definition workout_plan_saved (now user_id : Z) (plan_data : WorkoutPlanData)
    (workout_plan_id : Z) (d d' : DB) : Prop :=
  exists (saved : list (WorkoutDayRow * list WorkoutExerciseRow)) (added : list ExerciseRow),
    d' = append_workout
           [mkWorkoutPlan workout_plan_id user_id
                          (dict_get (plan_fields plan_data) "name")
                          (dict_get (plan_fields plan_data) "description")
                          (dict_get (plan_fields plan_data) "duration_weeks")
                          (dict_get_default (plan_fields plan_data) "ai_generated" py_True)
                          (dict_get (plan_fields plan_data) "gemini_prompt")
                          now]
           (map fst saved) added (concat (map snd saved)) d /\
    Forall2 (day_saved (exercises d') workout_plan_id) (plan_days plan_data) saved.

Definition meal_saved (diet_plan_id : Z) (meal_data : gmap string sqlval)
    (row : MealPlanRow) : Prop :=
  row = mkMealPlan (mp_id row) diet_plan_id
                   (dict_get meal_data "day_number")
                   (dict_get meal_data "meal_type")
                   (dict_get meal_data "recipe_name")
                   (dict_get meal_data "ingredients")
                   (dict_get meal_data "instructions")
                   (dict_get meal_data "calories_per_serving")
                   (dict_get meal_data "protein_g")
                   (dict_get meal_data "carbs_g")
                   (dict_get meal_data "fat_g")
                   (dict_get_default meal_data "servings" (VInt 1)).

Definition shopping_item_saved (user_id diet_plan_id : Z) (item_data : gmap string sqlval)
    (row : ShoppingListRow) : Prop :=
  row = mkShoppingList (sl_id row) user_id diet_plan_id
                       (dict_get item_data "item_name")
                       (dict_get item_data "quantity")
                       (dict_get item_data "unit")
                       (dict_get item_data "category").

(** The rows [save_diet_plan] is to leave behind. *)
Definition diet_plan_saved (now user_id : Z) (diet_data : DietPlanData)
    (diet_plan_id : Z) (d d' : DB) : Prop :=
  exists (meals : list MealPlanRow) (items : list ShoppingListRow),
    d' = append_diet
           [mkDietPlan diet_plan_id user_id
                       (dict_get (diet_fields diet_data) "name")
                       (dict_get (diet_fields diet_data) "calorie_target")
                       (dict_get (diet_fields diet_data) "protein_target_g")
                       (dict_get (diet_fields diet_data) "carb_target_g")
                       (dict_get (diet_fields diet_data) "fat_target_g")
                       (dict_get (diet_fields diet_data) "dietary_restrictions")
                       (dict_get_default (diet_fields diet_data) "ai_generated" py_True)
                       (dict_get (diet_fields diet_data) "gemini_prompt")
                       now]
           meals items d /\
    Forall2 (meal_saved diet_plan_id) (diet_meals diet_data) meals /\
    Forall2 (shopping_item_saved user_id diet_plan_id) (diet_shopping_list diet_data) items.

(** The schema lets every row of the save operations in. *)
Definition accepts_all (schema : Schema) : Prop :=
  (forall d r, workout_plans_ok schema d r = true) /\
  (forall d r, workout_days_ok schema d r = true) /\
  (forall d r, exercises_ok schema d r = true) /\
  (forall d r, workout_exercises_ok schema d r = true) /\
  (forall d r, diet_plans_ok schema d r = true) /\
  (forall d r, meal_plans_ok schema d r = true) /\
  (forall d r, shopping_lists_ok schema d r = true).

(** Every exercise of the payload has a name. *)
Definition all_named (plan_data : WorkoutPlanData) : Prop :=
  Forall (fun day_data =>
            Forall (fun exercise_data => dict_get exercise_data "name" <> VNull)
                   (day_exercises day_data))
         (plan_days plan_data).

(** How many exercises of a day carry the given name. *)
Definition count_named (name : string) (exercise_list : list (gmap string sqlval)) : nat :=
  length (List.filter (fun ex => sql_eq (dict_get ex "name") (VText name)) exercise_list).

(** The foreign keys, read off the [*_id] columns the statements of the
    sources use: [references child parent]. *)
Definition references (child parent : table) : bool :=
  match child, parent with
  | T_user_sessions, T_users
  | T_workout_plans, T_users
  | T_workout_days, T_workout_plans
  | T_workout_exercises, T_workout_days
  | T_workout_exercises, T_exercises
  | T_workout_logs, T_users
  | T_workout_logs, T_workout_days
  | T_exercise_logs, T_workout_logs
  | T_exercise_logs, T_exercises
  | T_diet_plans, T_users
  | T_meal_plans, T_diet_plans
  | T_shopping_lists, T_users
  | T_shopping_lists, T_diet_plans
  | T_meal_logs, T_users => true
  | _, _ => false
  end.

(** A deletion order puts children before parents when no table is
    emptied after a table that refers to it was still to come. *)
Fixpoint children_first (order : list table) : bool :=
  match order with
  | [] => true
  | t :: rest => forallb (fun later => negb (references later t)) rest && children_first rest
  end.

Definition run_statements (sts : list statement) (d : DB) : DB :=
  fold_left (fun d st => run st d) sts d.

(** Every reference among the workout tables, and into the catalog, finds
    its row. *)
Definition workout_references_ok (d : DB) : bool :=
  forallb (fun el => existsb (fun wl => wl_id wl =? el_workout_log_id el) (workout_logs d))
          (exercise_logs d)
  && forallb (fun el => existsb (fun e => e_id e =? el_exercise_id el) (exercises d))
             (exercise_logs d)
  && forallb (fun wl => existsb (fun wd => wd_id wd =? wl_workout_day_id wl) (workout_days d))
             (workout_logs d)
  && forallb (fun we => existsb (fun wd => wd_id wd =? we_workout_day_id we) (workout_days d))
             (workout_exercises d)
  && forallb (fun we => existsb (fun e => e_id e =? we_exercise_id we) (exercises d))
             (workout_exercises d)
  && forallb (fun wd => existsb (fun wp => wp_id wp =? wd_workout_plan_id wd) (workout_plans d))
             (workout_days d).

(** Every reference of a meal or a shopping-list item to its diet plan
    finds its row. *)
Definition diet_references_ok (d : DB) : bool :=
  forallb (fun mp => existsb (fun dp => dp_id dp =? mp_diet_plan_id mp) (diet_plans d))
          (meal_plans d)
  && forallb (fun sl => existsb (fun dp => dp_id dp =? sl_diet_plan_id sl) (diet_plans d))
             (shopping_lists d).

(** ** Example data *)

Definition example_salt : string := "00112233445566778899aabbccddeeff".

Definition example_user (id : Z) (username email password_hash : string) : UserRow :=
  mkUser id username email password_hash
         VNull VNull VNull VNull VNull VNull VNull VNull VNull VNull 0.

(** One registered user, whose e-mail address is the text [alice]. *)
Definition example_accounts : DB :=
  set_users (fun _ => [example_user 1 "bob" "alice" "salt:digest"]) empty_db.

(** A user who has set a goal and a weight. *)
Definition example_profile_row : UserRow :=
  mkUser 7 "carol" "c@x.com" "salt:digest"
         (VText "Carol") VNull (VInt 30) VNull (VInt 170) (VInt 75)
         VNull (VText "run a marathon") VNull VNull 0.

Definition example_profiles : DB :=
  set_users (fun _ => [example_user 1 "bob" "alice" "salt:digest"; example_profile_row])
            empty_db.

(** Two meals logged by user 7 on day 20000, one by user 8, and a diet
    plan of user 7 with a target of 2000 calories. *)
Definition example_nutrition : DB :=
  set_diet_plans (fun _ =>
    [mkDietPlan 1 7 (VText "cut") (VInt 2000) VNull VNull VNull VNull (VInt 1) VNull 100])
  (mkDB [] [] [] [] [] [] [] [] [] [] []
     [mkMealLog 1 7 (VText "Lunch") (VText "rice") (VInt 500) (VInt 20) (VInt 60) (VInt 10)
                (20000 * 86400 + 43200);
      mkMealLog 2 8 (VText "Lunch") (VText "soup") (VInt 300) (VInt 10) (VInt 30) (VInt 5)
                (20000 * 86400 + 45000);
      mkMealLog 3 7 (VText "Dinner") (VText "pasta") (VInt 600) (VInt 25) (VInt 80) (VInt 15)
                (20000 * 86400 + 70000)]).

(** An instant on day 20003, in microseconds. *)
Definition example_now : Z := 20003 * microseconds_per_day + 5.

(** Two workout plans that share the catalog row [Push-ups]; plan 1 has a
    logged session.  Two diet plans with a meal each. *)
Definition example_plans : DB :=
  mkDB []
       []
       [mkWorkoutPlan 1 7 (VText "A") VNull VNull (VInt 1) VNull 0;
        mkWorkoutPlan 2 7 (VText "B") VNull VNull (VInt 1) VNull 0]
       [mkWorkoutDay 1 1 (VInt 1) (VText "Push") VNull;
        mkWorkoutDay 2 2 (VInt 1) (VText "Full") VNull]
       [mkExercise 1 (VText "Push-ups") VNull VNull VNull VNull VNull]
       [mkWorkoutExercise 1 1 1 (VInt 3) (VInt 10) VNull VNull VNull;
        mkWorkoutExercise 2 2 1 (VInt 4) (VInt 8) VNull VNull VNull]
       [mkWorkoutLog 1 7 1 (VText "A") 500 (VInt 30) VNull]
       [mkExerciseLog 1 1 1 (VInt 3) (VInt 10) (VInt 0) VNull VNull]
       [mkDietPlan 1 7 (VText "cut") (VInt 2000) VNull VNull VNull VNull (VInt 1) VNull 0;
        mkDietPlan 2 7 (VText "bulk") (VInt 3000) VNull VNull VNull VNull (VInt 1) VNull 5]
       [mkMealPlan 1 1 (VInt 1) (VText "Lunch") VNull VNull VNull VNull VNull VNull VNull (VInt 1);
        mkMealPlan 2 2 (VInt 1) (VText "Lunch") VNull VNull VNull VNull VNull VNull VNull (VInt 1)]
       [mkShoppingList 1 7 1 (VText "oats") VNull VNull VNull]
       [].

(** A payload of two days that both have [Push-ups]; the first day has
    [Squats] as well. *)
Definition example_exercise (name : string) (sets : Z) : gmap string sqlval :=
  {[ "name" := VText name; "sets" := VInt sets ]}.

Definition example_plan_data : WorkoutPlanData :=
  mkWorkoutPlanData
    {[ "name" := VText "Starter" ]}
    [mkDayData {[ "day_number" := VInt 1 ]}
               [example_exercise "Push-ups" 3; example_exercise "Squats" 4];
     mkDayData {[ "day_number" := VInt 2 ]}
               [example_exercise "Push-ups" 5]].

(** A payload whose one exercise is in the catalog of [example_plans]
    already, with details the catalog row does not have. *)
Definition example_detailed_plan_data : WorkoutPlanData :=
  mkWorkoutPlanData
    {[ "name" := VText "Detailed" ]}
    [mkDayData {[ "day_number" := VInt 1 ]}
               [{[ "name" := VText "Push-ups"; "category" := VText "Strength";
                   "equipment" := VText "Bodyweight";
                   "instructions" := VText "Standard push-up form";
                   "sets" := VInt 3 ]}]].

(** A payload whose second day has an exercise without a name. *)
Definition example_broken_plan_data : WorkoutPlanData :=
  mkWorkoutPlanData
    {[ "name" := VText "Broken" ]}
    [mkDayData {[ "day_number" := VInt 1 ]} [example_exercise "Push-ups" 3];
     mkDayData {[ "day_number" := VInt 2 ]} [{[ "sets" := VInt 5 ]}]].

Definition example_diet_data : DietPlanData :=
  mkDietPlanData
    {[ "name" := VText "cut"; "calorie_target" := VInt 2000 ]}
    [{[ "day_number" := VInt 1; "meal_type" := VText "Lunch" ]};
     {[ "day_number" := VInt 1; "meal_type" := VText "Dinner" ]}]
    [{[ "item_name" := VText "oats" ]}].

(** A schema whose only constraint is that a meal has a meal type. *)
Definition meal_type_required : Schema :=
  mkSchema (fun _ _ => true) (fun _ _ => true) (fun _ _ => true) (fun _ _ => true)
           (fun _ _ => true) (fun _ _ => true)
           (fun _ r => negb (bool_decide (mp_meal_type r = VNull)))
           (fun _ _ => true).

Definition example_broken_diet_data : DietPlanData :=
  mkDietPlanData
    {[ "name" := VText "cut" ]}
    [{[ "day_number" := VInt 1; "meal_type" := VText "Lunch" ]};
     {[ "day_number" := VInt 1 ]}]
    [{[ "item_name" := VText "oats" ]}].

(** ** A stand-in digest for the examples

    The properties below hold for every digest function.  Where one has to
    be named, this one is used: the hexadecimal rendering of the input. *)

Definition hex_digit (n : nat) : ascii :=
  nth n (list_ascii_of_string "0123456789abcdef") "0"%char.

Fixpoint hex_encode (s : string) : string :=
  match s with
  | EmptyString => EmptyString
  | String c s' =>
      String (hex_digit (nat_of_ascii c / 16))
             (String (hex_digit (nat_of_ascii c mod 16)) (hex_encode s'))
  end.

(** ** Further operations and vocabulary *)

(** The UNIQUE constraints of [users] hold: ids, usernames and e-mail
    addresses. *)
Definition users_wf (us : list UserRow) : Prop :=
  List.NoDup (map u_id us) /\ List.NoDup (map u_username us) /\ List.NoDup (map u_email us).

(** *** Plan lists: [get_user_workout_plans] and [get_user_diet_plans] *)

(** [SELECT * FROM workout_plans WHERE user_id = ? ORDER BY created_at
    DESC].  Rows with the same [created_at] keep their rowid order. *)
Definition get_user_workout_plans (d : DB) (user_id : Z) : list WorkoutPlanRow :=
  order_by (fun a b => wp_created_at b <? wp_created_at a)
           (List.filter (fun p => wp_user_id p =? user_id) (workout_plans d)).

Definition get_user_diet_plans (d : DB) (user_id : Z) : list DietPlanRow :=
  order_by (fun a b => dp_created_at b <? dp_created_at a)
           (List.filter (fun p => dp_user_id p =? user_id) (diet_plans d)).

(** *** Meal logging: [log_meal_consumption] *)

Section MealLogging.

(** The constraints of [meal_logs] in [database/schema.sql], which is not
    among the sources. *)
Variable meal_logs_ok : DB -> MealLogRow -> bool.

Definition insert_meal_log (row : Z -> MealLogRow) : conn Z := fun d =>
  let new := row (next_rowid (map ml_id (meal_logs d))) in
  if meal_logs_ok d new
  then Returned (ml_id new)
         (mkDB (users d) (user_sessions d) (workout_plans d) (workout_days d)
               (exercises d) (workout_exercises d) (workout_logs d) (exercise_logs d)
               (diet_plans d) (meal_plans d) (shopping_lists d) (meal_logs d ++ [new]))
  else Raised IntegrityError d.

(** [log_meal_consumption].  The statement does not name [logged_at], the
    column the reports read: [now] is the value the table's default gives
    it. *)
Definition log_meal_consumption (now : Z) (user_id : Z) (meal_type description : string)
    (calories protein carbs fat : Z) : DB -> bool * DB :=
  with_connection false (
    _ ← insert_meal_log (fun id =>
          mkMealLog id user_id (VText meal_type) (VText description)
                    (VInt calories) (VInt protein) (VInt carbs) (VInt fat) now);
    mret true).

End MealLogging.

(** *** Tables outside the plan and log tables

    [food_inventory] and [progress_tracking] are read and written by four
    methods that touch nothing else; the state of each is its table. *)

(** [try: with connection: body / except Exception: return on_error] over
    any state: commit what the body returns, keep the state when it
    raises. *)
Definition in_transaction {S A : Type} (on_error : A) (body : S -> exn + A * S) (s : S)
    : A * S :=
  match body s with
  | inr (a, s') => (a, s')
  | inl _ => (on_error, s)
  end.

Record FoodRow : Type := mkFood {
  f_id : Z;
  f_user_id : Z;
  f_food_name : string
}.

(** [SELECT food_name FROM food_inventory WHERE user_id = ?].  The
    statement has no [ORDER BY], so SQLite hands the selected rows over in
    the order of whatever it scans, the table or an index: [scan] is that
    order, a rearrangement of the rows it is given. *)
Definition get_user_foods (scan : list FoodRow -> list FoodRow)
    (rows : list FoodRow) (user_id : Z) : list string :=
  map f_food_name (scan (List.filter (fun r => f_user_id r =? user_id) rows)).

(** Two scans: the table in rowid order, and an index on the food name. *)
Definition rowid_order (rows : list FoodRow) : list FoodRow := rows.

Definition food_name_order (rows : list FoodRow) : list FoodRow :=
  order_by (fun a b => String.ltb (f_food_name a) (f_food_name b)) rows.

(** [add_food_to_inventory].  [INSERT OR IGNORE] skips the row when the
    table's constraints, the parameter [ok], reject it; it does not raise
    for that, and the method returns [True] either way. *)
Definition add_food_to_inventory (ok : list FoodRow -> FoodRow -> bool)
    (user_id : Z) (food_name : string) : list FoodRow -> bool * list FoodRow :=
  in_transaction false (fun rows =>
    let new := mkFood (next_rowid (map f_id rows)) user_id food_name in
    inr (true, if ok rows new then rows ++ [new] else rows)).

(** A table that lists a food once per user: what the specification's
    "deduplicated name list" asks of [ok]. *)
Definition rejects_duplicate_foods (ok : list FoodRow -> FoodRow -> bool) : Prop :=
  forall rows new,
    existsb (fun r => (f_user_id r =? f_user_id new) &&
                      String.eqb (f_food_name r) (f_food_name new)) rows = true ->
    ok rows new = false.

(** Table [progress_tracking]; [pt_date] is the number of the calendar day
    of the Python [date] bound to the column. *)
Record ProgressRow : Type := mkProgress {
  pt_id : Z;
  pt_user_id : Z;
  pt_weight_kg : Z;
  pt_height_cm : Z;
  pt_date : Z
}.

(** [add_progress_entry]: a plain [INSERT], which raises when the table's
    constraints reject the row. *)
Definition add_progress_entry (ok : list ProgressRow -> ProgressRow -> bool)
    (user_id : Z) (weight_kg height_cm : Z) (date : Z)
    : list ProgressRow -> bool * list ProgressRow :=
  in_transaction false (fun rows =>
    let new := mkProgress (next_rowid (map pt_id rows)) user_id weight_kg height_cm date in
    if ok rows new then inr (true, rows ++ [new]) else inl IntegrityError).

(** One dict of [get_body_metrics]: [height_cm], [weight_kg], [date]. *)
Record BodyMetric : Type := mkBodyMetric {
  bm_height_cm : Z;
  bm_weight_kg : Z;
  bm_date : Z
}.

(** [SELECT height_cm, weight_kg, date FROM progress_tracking WHERE
    user_id = ? ORDER BY date ASC]. *)
Definition get_body_metrics (rows : list ProgressRow) (user_id : Z) : list BodyMetric :=
  map (fun r => mkBodyMetric (pt_height_cm r) (pt_weight_kg r) (pt_date r))
      (order_by (fun a b => pt_date a <? pt_date b)
                (List.filter (fun r => pt_user_id r =? user_id) rows)).

(** *** Session state: [AuthManager] *)

(** The four keys of [st.session_state] that [AuthManager] uses.  [None]
    is a key that is not set; a value may itself be Python's [None]. *)
Record SessionState : Type := mkSessionState {
  ss_authenticated : option bool;
  ss_user_data : option (option (gmap string sqlval));
  ss_session_token : option (option string);
  ss_current_page : option string
}.

Definition fresh_session_state : SessionState := mkSessionState None None None None.

(** Each key is set only when it is absent. *)
Definition initialize_session_state (s : SessionState) : SessionState :=
  mkSessionState
    (Some (default false (ss_authenticated s)))
    (Some (default None (ss_user_data s)))
    (Some (default None (ss_session_token s)))
    (Some (default "profile" (ss_current_page s))).

(** [st.session_state.get('authenticated', False)]. *)
Definition is_authenticated (s : SessionState) : bool :=
  default false (ss_authenticated s).

(** [st.session_state.get('user_data')]. *)
Definition get_current_user (s : SessionState) : option (gmap string sqlval) :=
  default None (ss_user_data s).

(** [user_data.get('id') if user_data else None]; an empty dict is false. *)
Definition get_current_user_id (s : SessionState) : option sqlval :=
  match get_current_user s with
  | Some user_data => if bool_decide (user_data = ∅) then None else user_data !! "id"
  | None => None
  end.

Definition login_user (user_data : gmap string sqlval) (session_token : string)
    (s : SessionState) : SessionState :=
  mkSessionState (Some true) (Some (Some user_data)) (Some (Some session_token))
                 (ss_current_page s).

Definition logout_user (s : SessionState) : SessionState :=
  mkSessionState (Some false) (Some None) (Some None) (Some "profile").

(** [dict(row)] of a [users] row: every column under its name. *)
Definition row_dict (u : UserRow) : gmap string sqlval :=
  list_to_map (omap (fun column => (fun v => (column, v)) <$> user_column column u)
                    user_columns).

(** What a form handler shows: [st.error] or [st.success]. *)
Inductive notice : Type :=
  | Error (message : string)
  | Success (message : string).

(** Python's truth value of a string. *)
Definition nonempty (s : string) : bool :=
  match s with
  | EmptyString => false
  | String _ _ => true
  end.

Section Forms.

Variable sha256_hexdigest : string -> string.
Variable schema : Schema.

(** The [if submit_button:] block of [_render_login_form].
    [session_token] and [now] are what [create_session] draws. *)
Definition login_submit (session_token : string) (now : Z) (username password : string)
    (app : DB * SessionState) : list notice * (DB * SessionState) :=
  if negb (nonempty username) || negb (nonempty password)
  then ([Error "Please enter both username and password"], app)
  else
    match authenticate_user sha256_hexdigest (fst app) username password with
    | Some user =>
        let user_data := row_dict user in
        if bool_decide (user_data = ∅)
        then ([Error "Invalid username or password"], app)
        else
          let created := create_session schema session_token now (u_id user) None (fst app) in
          match fst created with
          | Some token =>
              if nonempty token
              then ([Success "Login successful!"],
                    (snd created, login_user user_data token (snd app)))
              else ([Error "Failed to create session"], (snd created, snd app))
          | None => ([Error "Failed to create session"], (snd created, snd app))
          end
    | None => ([Error "Invalid username or password"], app)
    end.

(** The [if submit_button:] block of [_render_register_form].  [salt] and
    [now] are what [create_user] draws. *)
Definition register_submit (salt : string) (now : Z)
    (first_name last_name username email password confirm_password : string)
    (age height_cm weight_kg : Z)
    (gender activity_level experience_level fitness_goals injuries : string)
    (d : DB) : list notice * DB :=
  if negb (forallb nonempty
             [first_name; last_name; username; email; password; confirm_password])
  then ([Error "Please fill in all required fields"], d)
  else if negb (String.eqb password confirm_password)
  then ([Error "Passwords do not match"], d)
  else if (String.length password <? 6)%nat
  then ([Error "Password must be at least 6 characters long"], d)
  else
    let user_data : gmap string sqlval :=
      list_to_map [("first_name", VText first_name); ("last_name", VText last_name);
                   ("age", VInt age); ("gender", VText gender);
                   ("height_cm", VInt height_cm); ("weight_kg", VInt weight_kg);
                   ("activity_level", VText activity_level);
                   ("fitness_goals", VText fitness_goals);
                   ("injuries", VText injuries);
                   ("experience_level", VText experience_level)] in
    let created := create_user sha256_hexdigest salt now username email password
                               (Some user_data) d in
    match fst created with
    | Some user_id =>
        if user_id =? 0
        then ([Error "Failed to create account. Username or email may already exist."],
              snd created)
        else ([Success "Account created successfully! Please login."], snd created)
    | None => ([Error "Failed to create account. Username or email may already exist."],
               snd created)
    end.

End Forms.

(** The [if st.form_submit_button("Update Profile"):] block of
    [render_profile_info]; [user] is the session's [user_data].
    [user['id']] raises [KeyError] when the dict has no id, which ends the
    page with the notice of [render_profile_page]; an id that is not an
    integer equals no rowid. *)
Definition profile_submit
    (first_name last_name : string) (age : Z) (gender : string) (height_cm weight_kg : Z)
    (activity_level fitness_goals injuries experience_level : string)
    (user : gmap string sqlval) (app : DB * SessionState)
    : list notice * (DB * SessionState) :=
  let profile_data : gmap string sqlval :=
    list_to_map [("first_name", VText first_name); ("last_name", VText last_name);
                 ("age", VInt age); ("gender", VText gender);
                 ("height_cm", VInt height_cm); ("weight_kg", VInt weight_kg);
                 ("activity_level", VText activity_level);
                 ("fitness_goals", VText fitness_goals);
                 ("injuries", VText injuries);
                 ("experience_level", VText experience_level)] in
  match user !! "id" with
  | None => ([Error "Error loading profile page"], app)
  | Some id =>
      let updated :=
        match id with
        | VInt user_id => update_user_profile user_id profile_data (fst app)
        | _ => (bool_decide (update_assignments profile_data <> []), fst app)
        end in
      if fst updated
      then ([Success "Profile updated successfully!"],
            (snd updated,
             mkSessionState (ss_authenticated (snd app))
                            (Some (Some (profile_data ∪ user)))
                            (ss_session_token (snd app))
                            (ss_current_page (snd app))))
      else ([Error "Failed to update profile"], (snd updated, snd app))
  end.

(** *** The Gemini client: [GeminiClient]

    The prompts, the request to the model and [json.loads] are parameters;
    what the client does around them is modelled. *)

Module GeminiClient.

Inductive exception : Type :=
  | AttributeError
  | TypeError
  | KeyError
  | JSONDecodeError
  | APIError.

(** Python values the client builds or hands on without looking into
    them. *)
Class PyValue (value : Type) : Type := {
  py_str : string -> value;
  py_int : Z -> value;
  py_bool : bool -> value;
  py_list : list value -> value;
  py_dict : gmap string value -> value
}.

(** [s.find(c)] for a one-character [c]: the least index, or -1. *)
Fixpoint find_from (c : ascii) (s : string) (i : Z) : Z :=
  match s with
  | EmptyString => -1
  | String d s' => if Ascii.eqb d c then i else find_from c s' (i + 1)
  end.

Definition find (c : ascii) (s : string) : Z := find_from c s 0.

(** [s.rfind(c)]: the greatest index, or -1. *)
Fixpoint rfind_from (c : ascii) (s : string) (i last : Z) : Z :=
  match s with
  | EmptyString => last
  | String d s' => rfind_from c s' (i + 1) (if Ascii.eqb d c then i else last)
  end.

Definition rfind (c : ascii) (s : string) : Z := rfind_from c s 0 (-1).

(** Where a slice bound falls in a string of length [len]. *)
Definition slice_bound (len i : Z) : Z :=
  if i <? 0 then Z.max 0 (i + len) else Z.min i len.

(** [s[start:stop]]. *)
Definition slice (s : string) (start stop : Z) : string :=
  let len := Z.of_nat (String.length s) in
  let lo := slice_bound len start in
  let hi := slice_bound len stop in
  substring (Z.to_nat lo) (Z.to_nat (hi - lo)) s.

(** Exceptions as a result: [inl] is a raise. *)
Definition try_except {A : Type} (body : exception + A) (handler : exception -> exception + A)
    : exception + A :=
  match body with
  | inl e => handler e
  | inr a => inr a
  end.

Section Client.

Context {value : Type} `{PyValue value}.

(** [genai.Client]. *)
Variable handle : Type.
(** [genai.Client(api_key=...)]; [None] when it raises. *)
Variable new_client : string -> option handle.
(** [client.models.generate_content(...)] and the [text] of the response,
    which may be [None]. *)
Variable generate_content : handle -> string -> exception + option string.
(** [json.loads] of a text that is empty or starts with a brace: the
    object it denotes, or [None] when it raises [JSONDecodeError]. *)
Variable json_loads : string -> option (gmap string value).
Variable _create_workout_prompt : gmap string value -> option (gmap string value) -> string.
Variable _create_diet_prompt :
  gmap string value -> list string -> gmap string value -> string.

(** The attributes of the instance; [client] is [None] while the attribute
    is not set. *)
Record GeminiClient : Type := mkGeminiClient {
  api_key : option string;
  client : option (option handle)
}.

(** [__init__]; [env_key] is [os.getenv('GEMINI_API_KEY')]. *)
Definition __init__ (env_key : option string) : GeminiClient :=
  match env_key with
  | Some key =>
      if nonempty key
      then mkGeminiClient env_key (Some (new_client key))
      else mkGeminiClient env_key None
  | None => mkGeminiClient env_key None
  end.

(** [self.client is not None and self.api_key is not None]. *)
Definition is_available (self : GeminiClient) : exception + bool :=
  match client self with
  | None => inl AttributeError
  | Some c => inr (match c, api_key self with
                   | Some _, Some _ => true
                   | _, _ => false
                   end)
  end.

(** [d[key]] on a value that may be [None]. *)
Definition subscript (d : option (gmap string value)) (key : string) : exception + value :=
  match d with
  | None => inl TypeError
  | Some d => match d !! key with
              | Some v => inr v
              | None => inl KeyError
              end
  end.

(** [all(field in plan for field in required_fields)]. *)
Definition has_fields (required_fields : list string) (plan : gmap string value) : bool :=
  forallb (fun field => bool_decide (is_Some (plan !! field))) required_fields.

Definition _create_fallback_workout_plan (response_text : string) : gmap string value :=
  list_to_map
    [("name", py_str "AI-Generated Workout Plan");
     ("description", py_str "Custom workout plan generated by AI");
     ("duration_weeks", py_int 4);
     ("ai_generated", py_bool true);
     ("days", py_list
        [py_dict (list_to_map
           [("day_number", py_int 1);
            ("day_name", py_str "Full Body Workout");
            ("focus_area", py_str "General fitness");
            ("exercises", py_list
               [py_dict (list_to_map
                  [("name", py_str "Push-ups");
                   ("category", py_str "Strength");
                   ("muscle_groups", py_str "Chest, shoulders, triceps");
                   ("equipment", py_str "Bodyweight");
                   ("difficulty_level", py_str "Beginner");
                   ("instructions", py_str "Standard push-up form");
                   ("sets", py_int 3);
                   ("reps", py_str "8-12");
                   ("rest_seconds", py_int 60);
                   ("notes", py_str "Modify as needed")])])])]);
     ("raw_response", py_str (slice response_text 0 1000))].

Definition _create_fallback_diet_plan (response_text : string) : gmap string value :=
  list_to_map
    [("name", py_str "AI-Generated Meal Plan");
     ("calorie_target", py_int 2000);
     ("protein_target_g", py_int 120);
     ("carb_target_g", py_int 250);
     ("fat_target_g", py_int 67);
     ("dietary_restrictions", py_str "None specified");
     ("ai_generated", py_bool true);
     ("meals", py_list
        [py_dict (list_to_map
           [("day_number", py_int 1);
            ("meal_type", py_str "Breakfast");
            ("recipe_name", py_str "Balanced Breakfast");
            ("ingredients", py_str "Oats, protein powder, banana, berries");
            ("instructions", py_str "Combine ingredients for a nutritious start");
            ("calories_per_serving", py_int 400);
            ("protein_g", py_int 25);
            ("carbs_g", py_int 45);
            ("fat_g", py_int 8);
            ("servings", py_int 1)])]);
     ("shopping_list", py_list []);
     ("raw_response", py_str (slice response_text 0 1000))].

(** [response_text[start_idx:end_idx]], the text handed to [json.loads]. *)
Definition json_str (response_text : string) : string :=
  slice response_text (find "{" response_text) (rfind "}" response_text + 1).

(** [_parse_workout_response].  Nothing is caught here, and the fallback
    is inside the [if]: a text that passes no test falls off the end of
    the function, which returns [None]. *)
Definition _parse_workout_response (response_text : string)
    : exception + option (gmap string value) :=
  let start_idx := find "{" response_text in
  let end_idx := rfind "}" response_text + 1 in
  if negb (start_idx =? -1) && negb (end_idx =? -1)
  then
    match json_loads (slice response_text start_idx end_idx) with
    | None => inl JSONDecodeError
    | Some workout_plan =>
        if has_fields ["name"; "description"; "days"] workout_plan
        then inr (Some workout_plan)
        else inr (Some (_create_fallback_workout_plan response_text))
    end
  else inr None.

(** [_parse_diet_response]: the same tests inside a [try], with the
    fallback after the [if]. *)
Definition _parse_diet_response (response_text : string)
    : exception + option (gmap string value) :=
  try_except
    (let start_idx := find "{" response_text in
     let end_idx := rfind "}" response_text + 1 in
     if negb (start_idx =? -1) && negb (end_idx =? -1)
     then
       match json_loads (slice response_text start_idx end_idx) with
       | None => inl JSONDecodeError
       | Some diet_plan =>
           if has_fields ["name"; "meals"] diet_plan
           then inr (Some diet_plan)
           else inr (Some (_create_fallback_diet_plan response_text))
       end
     else inr (Some (_create_fallback_diet_plan response_text)))
    (fun _ => inr None).

(** [self.client.models.generate_content(...)] followed by
    [response.text]; the attribute lookups raise [AttributeError] on a
    client that is [None] or not set. *)
Definition request (self : GeminiClient) (prompt : string) : exception + option string :=
  match client self with
  | Some (Some c) => generate_content c prompt
  | _ => inl AttributeError
  end.

(** A parser called on [response.text]: [None] has no [find]. *)
Definition on_text {A : Type} (parse : string -> exception + A) (text : option string)
    : exception + A :=
  match text with
  | Some response_text => parse response_text
  | None => inl AttributeError
  end.

(** The truth value of an optional dict. *)
Definition truthy (plan : option (gmap string value)) : bool :=
  match plan with
  | Some plan => negb (bool_decide (size plan = 0%nat))
  | None => false
  end.

(** [generate_workout_plan]; the availability test is outside the [try]. *)
Definition generate_workout_plan (self : GeminiClient) (user_profile : gmap string value)
    (preferences : option (gmap string value)) : exception + option (gmap string value) :=
  match is_available self with
  | inl e => inl e
  | inr false => inr None
  | inr true =>
      try_except
        (let prompt := _create_workout_prompt user_profile preferences in
         match request self prompt with
         | inl e => inl e
         | inr text =>
             match on_text _parse_workout_response text with
             | inl e => inl e
             | inr workout_plan =>
                 if truthy workout_plan
                 then
                   let workout_plan :=
                     <["gemini_prompt" := py_str (slice prompt 0 500)]>
                       (default ∅ workout_plan) in
                   match subscript preferences "name" with
                   | inl e => inl e
                   | inr name => inr (Some (<["name" := name]> workout_plan))
                   end
                 else inr None
             end
         end)
        (fun _ => inr None)
  end.

(** [generate_diet_plan]. *)
Definition generate_diet_plan (self : GeminiClient) (user_profile : gmap string value)
    (available_foods : list string) (dietary_goals : gmap string value)
    : exception + option (gmap string value) :=
  match is_available self with
  | inl e => inl e
  | inr false => inr None
  | inr true =>
      try_except
        (let prompt := _create_diet_prompt user_profile available_foods dietary_goals in
         match request self prompt with
         | inl e => inl e
         | inr text =>
             match on_text _parse_diet_response text with
             | inl e => inl e
             | inr diet_plan =>
                 if truthy diet_plan
                 then
                   let diet_plan :=
                     <["gemini_prompt" := py_str (slice prompt 0 500)]>
                       (default ∅ diet_plan) in
                   match subscript (Some dietary_goals) "name" with
                   | inl e => inl e
                   | inr name => inr (Some (<["name" := name]> diet_plan))
                   end
                 else inr None
             end
         end)
        (fun _ => inr None)
  end.

End Client.

End GeminiClient.

(** Values for the examples: what [json.loads] can give. *)
Local Unset Elimination Schemes.

Inductive json : Type :=
  | JBool (b : bool)
  | JInt (z : Z)
  | JStr (s : string)
  | JList (items : list json)
  | JDict (fields : gmap string json).

Local Set Elimination Schemes.

Global Instance json_value : GeminiClient.PyValue json :=
  GeminiClient.Build_PyValue json JStr JInt JBool JList JDict.

(** A decoder that knows the empty object only. *)
Definition example_json_loads (s : string) : option (gmap string json) :=
  if String.eqb s "{}" then Some ∅ else None.

(** A model that wraps the empty object in prose. *)
Definition example_generate_content (_ : unit) (_ : string) :
    GeminiClient.exception + option string :=
  inr (Some "Here is your plan: {} Enjoy!").

(** * Properties *)

(** ** Credential store *)

Lemma split_on_length (c : ascii) (s : string) :
  length (split_on c s) = S (occurrences c s).
Proof.
  induction s as [|d s IH]; simpl; [reflexivity|].
  destruct (Ascii.eqb d c); simpl.
  - now rewrite IH.
  - destruct (split_on c s); simpl in *; [discriminate | assumption].
Qed.

Lemma split_on_no_sep (c : ascii) (s : string) :
  occurrences c s = O -> split_on c s = [s].
Proof.
  induction s as [|d s IH]; simpl; [reflexivity|].
  destruct (Ascii.eqb d c); simpl; [discriminate|].
  intros H. now rewrite (IH H).
Qed.

Lemma split_on_app (c : ascii) (a b : string) :
  occurrences c a = O ->
  split_on c (a +:+ String c b) = a :: split_on c b.
Proof.
  induction a as [|d a IH]; simpl.
  - intros _. now rewrite Ascii.eqb_refl.
  - destruct (Ascii.eqb d c); simpl; [discriminate|].
    intros H. now rewrite (IH H).
Qed.

(** Splitting loses nothing: the pieces are free of the separator and
    rebuild the string. *)
Lemma split_on_two (c : ascii) (s a b : string) :
  split_on c s = [a; b] ->
  s = a +:+ String c b /\ occurrences c a = O /\ occurrences c b = O.
Proof.
  revert a. induction s as [|d s IH]; simpl; intros a H; [discriminate|].
  destruct (Ascii.eqb_spec d c) as [->|Hne].
  - injection H as <- H.
    assert (Hlen := split_on_length c s). rewrite H in Hlen. simpl in Hlen.
    assert (Hocc : occurrences c s = O) by lia.
    rewrite (split_on_no_sep _ _ Hocc) in H. injection H as ->.
    simpl. auto.
  - destruct (split_on c s) as [|p ps] eqn:E; [discriminate|].
    injection H as <- ->.
    destruct (IH p eq_refl) as (-> & Ha & Hb).
    simpl. rewrite (proj2 (Ascii.eqb_neq d c) Hne). auto.
Qed.

Lemma is_hex_no_colon (s : string) :
  is_hex s = true -> occurrences colon s = O.
Proof.
  induction s as [|d s IH]; simpl; [reflexivity|].
  intros [Hd Hs]%andb_prop. rewrite (IH Hs).
  destruct (Ascii.eqb_spec d colon) as [->|]; [discriminate Hd | reflexivity].
Qed.

Lemma is_token_hex_no_colon (n : nat) (s : string) :
  is_token_hex n s = true -> occurrences colon s = O.
Proof. intros [_ H]%andb_prop. now apply is_hex_no_colon. Qed.

Lemma record_unfold (salt digest : string) :
  salt +:+ ":" +:+ digest = salt +:+ String colon digest.
Proof. reflexivity. Qed.

Lemma record_split (salt digest : string) :
  occurrences colon salt = O ->
  occurrences colon digest = O ->
  split_on colon (salt +:+ ":" +:+ digest) = [salt; digest].
Proof.
  intros Hs Hd. rewrite record_unfold, (split_on_app _ _ _ Hs).
  now rewrite (split_on_no_sep _ _ Hd).
Qed.

Lemma occurrences_app (c : ascii) (a b : string) :
  occurrences c (a +:+ b) = (occurrences c a + occurrences c b)%nat.
Proof.
  induction a as [|d a IH]; [reflexivity|].
  change (String d a +:+ b) with (String d (a +:+ b)). simpl. rewrite IH. lia.
Qed.

Lemma record_occurrences (salt digest : string) :
  occurrences colon (salt +:+ ":" +:+ digest)
  = S (occurrences colon salt + occurrences colon digest).
Proof.
  rewrite record_unfold, occurrences_app.
  change (occurrences colon (String colon digest))
    with ((if Ascii.eqb colon colon then 1 else 0) + occurrences colon digest)%nat.
  rewrite Ascii.eqb_refl. lia.
Qed.

Lemma hash_password_split (sha : string -> string) (salt password : string) :
  occurrences colon salt = O ->
  occurrences colon (sha (password +:+ salt)) = O ->
  split_on colon (hash_password sha salt password) = [salt; sha (password +:+ salt)].
Proof. intros Hs Hd. unfold hash_password. now apply record_split. Qed.

Lemma verify_password_true_iff (sha : string -> string) (password stored : string) :
  verify_password sha password stored = true <->
  exists salt, occurrences colon salt = O /\
               occurrences colon (sha (password +:+ salt)) = O /\
               stored = hash_password sha salt password.
Proof.
  unfold verify_password, unpack2. split.
  - destruct (split_on colon stored) as [|a [|b [|? ?]]] eqn:E; try discriminate.
    intros Heq%String.eqb_eq. subst b.
    destruct (split_on_two _ _ _ _ E) as (-> & Ha & Hb).
    exists a. auto.
  - intros (salt & Hs & Hd & ->).
    rewrite (hash_password_split _ _ _ Hs Hd). apply String.eqb_refl.
Qed.

Lemma verify_password_mismatch (sha : string -> string) (password salt digest : string) :
  digest <> sha (password +:+ salt) ->
  verify_password sha password (salt +:+ ":" +:+ digest) = false.
Proof.
  intros Hne. unfold verify_password, unpack2.
  destruct (split_on colon (salt +:+ ":" +:+ digest)) as [|a [|b [|? ?]]] eqn:E;
    try reflexivity.
  assert (Hlen := split_on_length colon (salt +:+ ":" +:+ digest)).
  rewrite E, record_occurrences in Hlen. simpl in Hlen.
  rewrite record_split in E by lia. injection E as <- <-.
  apply String.eqb_neq. congruence.
Qed.

Lemma hex_digit_is_hex (n : nat) : is_hex_char (hex_digit n) = true.
Proof. do 16 (destruct n as [|n]; [reflexivity|]). now destruct n. Qed.

Lemma hex_encode_is_hex (s : string) : is_hex (hex_encode s) = true.
Proof.
  induction s as [|c s IH]; simpl; [reflexivity|].
  now rewrite !hex_digit_is_hex, IH.
Qed.

(** C6. A record made by [hash_password] holds the salt and the digest and
    verifies against its password.  [verify_password] is a total boolean
    function: a record that does not split into exactly two parts at the
    colon is rejected, a record whose digest part is not the digest of the
    password with the stored salt is rejected, and the records it accepts
    are exactly the salt-and-digest records of that password. *)
Theorem verify_password_correct (sha : string -> string)
    (sha_hex : forall s, is_hex (sha s) = true) :
  (forall salt password,
      is_token_hex 16 salt = true ->
      split_on colon (hash_password sha salt password) = [salt; sha (password +:+ salt)] /\
      verify_password sha password (hash_password sha salt password) = true) /\
  (forall password stored,
      occurrences colon stored <> 1%nat ->
      verify_password sha password stored = false) /\
  (forall password salt digest,
      digest <> sha (password +:+ salt) ->
      verify_password sha password (salt +:+ ":" +:+ digest) = false) /\
  (forall password stored,
      verify_password sha password stored = true <->
      exists salt, occurrences colon salt = O /\
                   stored = salt +:+ ":" +:+ sha (password +:+ salt)).
Proof.
  repeat split.
  - apply hash_password_split;
      [now apply (is_token_hex_no_colon 16) | now apply is_hex_no_colon].
  - apply verify_password_true_iff. exists salt.
    split; [now apply (is_token_hex_no_colon 16)|].
    split; [now apply is_hex_no_colon | reflexivity].
  - intros password stored Hocc. unfold verify_password, unpack2.
    assert (Hlen := split_on_length colon stored).
    destruct (split_on colon stored) as [|a [|b [|? ?]]]; try reflexivity.
    simpl in Hlen. exfalso. apply Hocc. lia.
  - intros. now apply verify_password_mismatch.
  - intros (salt & Hs & _ & ->)%verify_password_true_iff. now exists salt.
  - intros (salt & Hs & ->). apply verify_password_true_iff. exists salt.
    split; [assumption|]. split; [now apply is_hex_no_colon | reflexivity].
Qed.

(** The stand-in digest is hexadecimal, and a 32-digit salt is a
    [token_hex(16)]: the record verifies. *)
Lemma verify_password_correct_witness :
  verify_password hex_encode "secret1"
    (hash_password hex_encode "00112233445566778899aabbccddeeff" "secret1") = true.
Proof.
  apply (proj1 (verify_password_correct hex_encode hex_encode_is_hex)).
  reflexivity.
Defined.

(** ** Accounts *)

Lemma filter_none {A : Type} (p : A -> bool) (l : list A) :
  (forall x, In x l -> p x = false) -> List.filter p l = [].
Proof.
  induction l as [|y l IH]; simpl; intros H; [reflexivity|].
  rewrite (H y (or_introl eq_refl)). apply IH. intros x Hx. apply H. now right.
Qed.

Lemma existsb_none {A : Type} (p : A -> bool) (l : list A) :
  (forall x, In x l -> p x = false) -> existsb p l = false.
Proof.
  induction l as [|y l IH]; simpl; intros H; [reflexivity|].
  rewrite (H y (or_introl eq_refl)). apply IH. intros x Hx. apply H. now right.
Qed.

Lemma fetchone_some_in {A : Type} (rows : list A) (x : A) :
  fetchone rows = Some x -> In x rows.
Proof. destruct rows; simpl; [discriminate|]. intros [= ->]. now left. Qed.

Lemma select_users_in (username email : string) (us : list UserRow) (u : UserRow) :
  In u (select_users_by_username_or_email username email us) <->
  In u us /\ (u_username u = username \/ u_email u = email).
Proof.
  unfold select_users_by_username_or_email.
  rewrite in_app_iff, !filter_In, andb_true_iff, negb_true_iff.
  rewrite !String.eqb_eq, String.eqb_neq.
  destruct (string_dec (u_username u) username); tauto.
Qed.

Lemma select_users_none (username email : string) (us : list UserRow) :
  (forall u, In u us -> u_username u <> username /\ u_email u <> email) ->
  select_users_by_username_or_email username email us = [].
Proof.
  intros H. destruct (select_users_by_username_or_email username email us) as [|u l] eqn:E;
    [reflexivity|].
  assert (Hin : In u (select_users_by_username_or_email username email us))
    by (rewrite E; now left).
  apply select_users_in in Hin as [Hin Hm]. destruct (H u Hin). tauto.
Qed.

(** The row reached through the username index is returned first. *)
Lemma select_users_by_username (ident : string) (us : list UserRow) (u : UserRow) :
  List.NoDup (map u_username us) -> In u us -> u_username u = ident ->
  fetchone (select_users_by_username_or_email ident ident us) = Some u.
Proof.
  intros Hnd Hin Hu. unfold select_users_by_username_or_email.
  assert (H : List.filter (fun v => String.eqb (u_username v) ident) us = [u]).
  { clear -Hnd Hin Hu. induction us as [|v us IH]; [destruct Hin|].
    simpl in Hnd. apply NoDup_cons_iff in Hnd as [Hv Hnd]. simpl.
    destruct Hin as [->|Hin].
    - rewrite Hu, String.eqb_refl. f_equal. apply filter_none.
      intros x Hx. apply String.eqb_neq. intros Hx'. apply Hv.
      rewrite Hu, <- Hx'. now apply in_map.
    - destruct (String.eqb_spec (u_username v) ident) as [Hv'|_]; [|now apply IH].
      exfalso. apply Hv. rewrite Hv', <- Hu. now apply in_map. }
  now rewrite H.
Qed.

Lemma select_users_by_email (ident : string) (us : list UserRow) (u : UserRow) :
  List.NoDup (map u_email us) -> In u us -> u_email u = ident ->
  (forall v, In v us -> u_username v <> ident) ->
  fetchone (select_users_by_username_or_email ident ident us) = Some u.
Proof.
  intros Hnd Hin Hu Hno. unfold select_users_by_username_or_email.
  rewrite filter_none by (intros x Hx; apply String.eqb_neq; now apply Hno).
  simpl.
  assert (H : List.filter (fun v => negb (String.eqb (u_username v) ident) &&
                                    String.eqb (u_email v) ident) us = [u]).
  { clear -Hnd Hin Hu Hno. induction us as [|v us IH]; [destruct Hin|].
    simpl in Hnd. apply NoDup_cons_iff in Hnd as [Hv Hnd]. simpl.
    assert (Hnv : String.eqb (u_username v) ident = false)
      by (apply String.eqb_neq, Hno; now left).
    rewrite Hnv. simpl.
    destruct Hin as [->|Hin].
    - rewrite Hu, String.eqb_refl. f_equal. apply filter_none.
      intros x Hx. apply andb_false_iff. right.
      apply String.eqb_neq. intros Hx'. apply Hv.
      rewrite Hu, <- Hx'. now apply in_map.
    - destruct (String.eqb_spec (u_email v) ident) as [Hv'|_].
      + exfalso. apply Hv. rewrite Hv', <- Hu. now apply in_map.
      + apply IH; auto. intros w Hw. apply Hno. now right. }
  now rewrite H.
Qed.

Lemma create_user_conflict (sha : string -> string) (salt : string) (now : Z)
    (username email password : string) (user_data : option (gmap string sqlval)) (d : DB) :
  (exists u, In u (users d) /\ (u_username u = username \/ u_email u = email)) ->
  create_user sha salt now username email password user_data d = (None, d).
Proof.
  intros (u & Hin & Hm). unfold create_user, with_connection.
  unfold mbind, conn_bind, get_db. 
  destruct (fetchone (select_users_by_username_or_email username email (users d))) eqn:E;
    [reflexivity|].
  exfalso. unfold fetchone in E.
  assert (Hs : In u (select_users_by_username_or_email username email (users d)))
    by now apply select_users_in.
  destruct (select_users_by_username_or_email username email (users d));
    [destruct Hs | discriminate].
Qed.

Lemma create_user_fresh (sha : string -> string) (salt : string) (now : Z)
    (username email password : string) (user_data : option (gmap string sqlval)) (d : DB) :
  (forall u, In u (users d) -> u_username u <> username /\ u_email u <> email) ->
  let fields := default ∅ user_data in
  let row := mkUser (next_rowid (map u_id (users d))) username email
                    (hash_password sha salt password)
                    (dict_get fields "first_name") (dict_get fields "last_name")
                    (dict_get fields "age") (dict_get fields "gender")
                    (dict_get fields "height_cm") (dict_get fields "weight_kg")
                    (dict_get fields "activity_level") (dict_get fields "fitness_goals")
                    (dict_get fields "injuries") (dict_get fields "experience_level")
                    now in
  create_user sha salt now username email password user_data d
  = (Some (u_id row), set_users (fun us => us ++ [row]) d).
Proof.
  intros Hfresh fields row. unfold create_user, with_connection.
  unfold mbind, conn_bind, get_db.
  rewrite (select_users_none _ _ _ Hfresh). simpl.
  unfold insert_user. simpl.
  rewrite existsb_none; [reflexivity|].
  intros u Hu. destruct (Hfresh u Hu) as [H1 H2].
  apply orb_false_iff. split; now apply String.eqb_neq.
Qed.

Lemma hash_password_verifies (sha : string -> string) (salt password : string) :
  (forall s, is_hex (sha s) = true) ->
  is_token_hex 16 salt = true ->
  verify_password sha password (hash_password sha salt password) = true.
Proof.
  intros Hhex Hsalt. apply verify_password_true_iff. exists salt.
  split; [now apply (is_token_hex_no_colon 16)|].
  split; [now apply is_hex_no_colon | reflexivity].
Qed.

(** C3. When neither the username nor the e-mail address is in [users],
    [create_user] returns the id of a new row whose [password_hash] is the
    salt-and-digest record (the password enters the row nowhere else), and
    [authenticate_user] with the same username and password then returns
    that row.  When the username or the e-mail address is already there,
    [create_user] returns [None] and leaves the database as it was. *)
Theorem create_user_then_authenticate (sha : string -> string)
    (sha_hex : forall s, is_hex (sha s) = true)
    (salt : string) (now : Z) (username email password : string)
    (user_data : option (gmap string sqlval)) (d : DB) :
  is_token_hex 16 salt = true ->
  ((forall u, In u (users d) -> u_username u <> username /\ u_email u <> email) ->
   exists row,
     let fields := default ∅ user_data in
     create_user sha salt now username email password user_data d
       = (Some (u_id row), set_users (fun us => us ++ [row]) d) /\
     row = mkUser (next_rowid (map u_id (users d))) username email
                  (salt +:+ ":" +:+ sha (password +:+ salt))
                  (dict_get fields "first_name") (dict_get fields "last_name")
                  (dict_get fields "age") (dict_get fields "gender")
                  (dict_get fields "height_cm") (dict_get fields "weight_kg")
                  (dict_get fields "activity_level") (dict_get fields "fitness_goals")
                  (dict_get fields "injuries") (dict_get fields "experience_level")
                  now /\
     authenticate_user sha (set_users (fun us => us ++ [row]) d) username password
       = Some row) /\
  ((exists u, In u (users d) /\ (u_username u = username \/ u_email u = email)) ->
   create_user sha salt now username email password user_data d = (None, d)).
Proof.
  intros Hsalt. split; [|apply create_user_conflict].
  intros Hfresh. eexists. split; [now apply create_user_fresh|].
  split; [reflexivity|]. unfold authenticate_user. simpl.
  unfold select_users_by_username_or_email.
  rewrite !List.filter_app. simpl. rewrite String.eqb_refl. simpl.
  rewrite filter_none by (intros u Hu; apply String.eqb_neq; now apply Hfresh).
  simpl.
  now rewrite (hash_password_verifies sha salt password sha_hex Hsalt).
Qed.

(** [bob]'s e-mail address is the text [alice]; [alice] still registers
    and logs in. *)
Lemma create_user_then_authenticate_witness :
  exists row,
    create_user hex_encode example_salt 0 "alice" "a@x.com" "secret1" None example_accounts
      = (Some 2, set_users (fun us => us ++ [row]) example_accounts) /\
    authenticate_user hex_encode (set_users (fun us => us ++ [row]) example_accounts)
                      "alice" "secret1" = Some row.
Proof.
  destruct (proj1 (create_user_then_authenticate hex_encode hex_encode_is_hex
                     example_salt 0 "alice" "a@x.com" "secret1" None example_accounts
                     eq_refl))
    as (row & Hcreate & -> & Hauth).
  - intros u [<-|[]]. split; discriminate.
  - eexists. split; [exact Hcreate | exact Hauth].
Defined.

(** C7. [authenticate_user] looks the identifier up in the username column
    and in the e-mail column, and returns a row only when the password
    verifies against it.  Every failure is the same [None]: an identifier
    no row matches and a matched row with a wrong password give identical
    results. *)
Theorem authenticate_user_uniform (sha : string -> string) :
  (forall d ident password u,
      authenticate_user sha d ident password = Some u ->
      In u (users d) /\ (u_username u = ident \/ u_email u = ident) /\
      verify_password sha password (u_password_hash u) = true) /\
  (forall d ident password u,
      List.NoDup (map u_username (users d)) ->
      In u (users d) -> u_username u = ident ->
      authenticate_user sha d ident password =
        if verify_password sha password (u_password_hash u) then Some u else None) /\
  (forall d ident password u,
      List.NoDup (map u_email (users d)) ->
      In u (users d) -> u_email u = ident ->
      (forall v, In v (users d) -> u_username v <> ident) ->
      authenticate_user sha d ident password =
        if verify_password sha password (u_password_hash u) then Some u else None) /\
  (forall d1 ident1 password1 d2 ident2 password2 u,
      (forall v, In v (users d1) -> u_username v <> ident1 /\ u_email v <> ident1) ->
      fetchone (select_users_by_username_or_email ident2 ident2 (users d2)) = Some u ->
      verify_password sha password2 (u_password_hash u) = false ->
      authenticate_user sha d1 ident1 password1 = None /\
      authenticate_user sha d2 ident2 password2 = None /\
      authenticate_user sha d1 ident1 password1 = authenticate_user sha d2 ident2 password2).
Proof.
  repeat split.
  - unfold authenticate_user in H.
    destruct (fetchone _) as [v|] eqn:E; [|discriminate].
    destruct (verify_password sha password (u_password_hash v)); [|discriminate].
    injection H as <-. apply fetchone_some_in, select_users_in in E. tauto.
  - unfold authenticate_user in H.
    destruct (fetchone _) as [v|] eqn:E; [|discriminate].
    destruct (verify_password sha password (u_password_hash v)); [|discriminate].
    injection H as <-. apply fetchone_some_in, select_users_in in E. tauto.
  - unfold authenticate_user in H.
    destruct (fetchone _) as [v|] eqn:E; [|discriminate].
    destruct (verify_password sha password (u_password_hash v)) eqn:V; [|discriminate].
    now injection H as <-.
  - intros d ident password u Hnd Hin Hu. unfold authenticate_user.
    now rewrite (select_users_by_username _ _ _ Hnd Hin Hu).
  - intros d ident password u Hnd Hin Hu Hno. unfold authenticate_user.
    now rewrite (select_users_by_email _ _ _ Hnd Hin Hu Hno).
  - unfold authenticate_user. now rewrite (select_users_none _ _ _ H).
  - unfold authenticate_user. now rewrite H0, H1.
  - unfold authenticate_user. now rewrite (select_users_none _ _ _ H), H0, H1.
Qed.

Lemma authenticate_user_uniform_witness :
  authenticate_user hex_encode example_accounts "nobody" "secret1"
  = authenticate_user hex_encode example_accounts "bob" "wrong".
Proof.
  apply (proj2 (proj2 (proj2 (authenticate_user_uniform hex_encode)))
           example_accounts "nobody" "secret1" example_accounts "bob" "wrong"
           (example_user 1 "bob" "alice" "salt:digest")).
  - intros v [<-|[]]. split; discriminate.
  - reflexivity.
  - reflexivity.
Defined.

(** ** Sessions *)

Lemma validate_session_unknown (d : DB) (session_token : string) (now : Z) :
  (forall s, In s (user_sessions d) -> s_session_token s <> session_token) ->
  validate_session d session_token now = None.
Proof.
  intros H. unfold validate_session, select_session_users.
  rewrite filter_none; [reflexivity|].
  intros s Hs. apply andb_false_iff. left. apply String.eqb_neq. now apply H.
Qed.

Lemma filter_by_id_unique (us : list UserRow) (u : UserRow) :
  List.NoDup (map u_id us) -> In u us ->
  List.filter (fun v => u_id v =? u_id u) us = [u].
Proof.
  induction us as [|v us IH]; intros Hnd Hin; [destruct Hin|].
  simpl in Hnd. apply NoDup_cons_iff in Hnd as [Hv Hnd]. simpl.
  destruct Hin as [->|Hin].
  - rewrite Z.eqb_refl. f_equal. apply filter_none.
    intros x Hx. apply Z.eqb_neq. intros Hx'. apply Hv. rewrite <- Hx'. now apply in_map.
  - destruct (Z.eqb_spec (u_id v) (u_id u)) as [Hv'|_]; [|now apply IH].
    exfalso. apply Hv. rewrite Hv'. now apply in_map.
Qed.

(** C4. A token [create_session] returns for an existing user validates to
    that user at every instant before [now + ttl], in particular at once
    when the ttl is positive, and the ttl is 24 hours when the caller gives
    none; from [now + ttl] on it validates to nothing.  A token that is not
    in the store validates to nothing as well, so the two cases give the
    same result. *)
Theorem session_lifecycle (schema : Schema) (d : DB) (session_token : string) (now : Z)
    (duration_hours : option Z) (u : UserRow) :
  let ttl := default 24 duration_hours * (3600 * 1000000) in
  In u (users d) ->
  List.NoDup (map u_id (users d)) ->
  (forall s, In s (user_sessions d) -> s_session_token s <> session_token) ->
  user_sessions_ok schema d
    (mkSession (next_rowid (map s_id (user_sessions d))) (u_id u) session_token (now + ttl))
    = true ->
  exists d',
    create_session schema session_token now (u_id u) duration_hours d
      = (Some session_token, d') /\
    (forall t, t < now + ttl -> validate_session d' session_token t = Some u) /\
    (0 < ttl -> validate_session d' session_token now = Some u) /\
    (forall t, now + ttl <= t -> validate_session d' session_token t = None) /\
    (forall t unknown,
        now + ttl <= t ->
        (forall s, In s (user_sessions d') -> s_session_token s <> unknown) ->
        validate_session d' unknown t = validate_session d' session_token t).
Proof.
  intros ttl Hin Hnd Hfresh Hok.
  unfold create_session, with_connection, mbind, conn_bind, insert_session.
  change (default default_duration_hours duration_hours * microseconds_per_hour) with ttl.
  simpl. rewrite Hok. eexists. split; [reflexivity|].
  assert (Hval : forall t,
             validate_session
               (set_user_sessions
                  (fun rs => rs ++ [mkSession (next_rowid (map s_id (user_sessions d)))
                                              (u_id u) session_token (now + ttl)]) d)
               session_token t
             = if t <? now + ttl then Some u else None).
  { intros t. unfold validate_session, select_session_users. simpl.
    rewrite List.filter_app.
    rewrite filter_none.
    2:{ intros s Hs. apply andb_false_iff. left. apply String.eqb_neq. now apply Hfresh. }
    simpl. rewrite String.eqb_refl. simpl.
    destruct (t <? now + ttl); simpl; [|reflexivity].
    rewrite (filter_by_id_unique _ _ Hnd Hin). reflexivity. }
  repeat split.
  - intros t Ht. rewrite Hval. now rewrite (proj2 (Z.ltb_lt _ _) Ht).
  - intros Htt. rewrite Hval. rewrite (proj2 (Z.ltb_lt _ _)); [reflexivity | lia].
  - intros t Ht. rewrite Hval. now rewrite (proj2 (Z.ltb_ge _ _) Ht).
  - intros t unknown Ht Hunk. rewrite Hval, (proj2 (Z.ltb_ge _ _) Ht).
    now apply validate_session_unknown.
Qed.

Lemma session_lifecycle_witness :
  exists d',
    create_session permissive_schema "tok" 1000 1 None example_accounts = (Some "tok", d') /\
    validate_session d' "tok" 1000 = Some (example_user 1 "bob" "alice" "salt:digest") /\
    validate_session d' "tok" (1000 + 24 * (3600 * 1000000)) = None.
Proof.
  destruct (session_lifecycle permissive_schema example_accounts "tok" 1000 None
              (example_user 1 "bob" "alice" "salt:digest"))
    as (d' & Hc & _ & Hnow & Hexp & _).
  - simpl. now left.
  - simpl. repeat constructor. intros [].
  - intros s [].
  - reflexivity.
  - exists d'. split; [exact Hc|]. split; [apply Hnow; reflexivity|].
    apply Hexp. simpl. lia.
Defined.

(** ** Profile updates *)

Ltac case_column c :=
  repeat match goal with
         | |- context [String.eqb c ?s] => destruct (String.eqb_spec c s); try congruence
         end.

Lemma user_column_set_other (column field : string) (v : sqlval) (u : UserRow) :
  column <> field ->
  user_column column (set_user_column field v u) = user_column column u.
Proof.
  intros Hne. unfold set_user_column.
  repeat match goal with
         | |- context [String.eqb field ?s] =>
             destruct (String.eqb_spec field s);
             [subst field; unfold user_column; simpl; case_column column; reflexivity|]
         end.
  reflexivity.
Qed.

Lemma user_column_set_same (field : string) (v : sqlval) (u : UserRow) :
  In field profile_fields ->
  user_column field (set_user_column field v u) = Some v.
Proof.
  unfold profile_fields. simpl.
  intros H. repeat (destruct H as [<-|H]; [reflexivity|]). destruct H.
Qed.

Lemma set_user_column_id (field : string) (v : sqlval) (u : UserRow) :
  u_id (set_user_column field v u) = u_id u.
Proof.
  unfold set_user_column.
  repeat match goal with
         | |- context [String.eqb field ?s] => destruct (String.eqb field s); [reflexivity|]
         end.
  reflexivity.
Qed.

Lemma apply_assignments_other (assignments : list (string * sqlval)) (column : string)
    (u : UserRow) :
  ~ In column (map fst assignments) ->
  user_column column (apply_assignments assignments u) = user_column column u.
Proof.
  unfold apply_assignments. revert u.
  induction assignments as [|[f w] rest IH]; intros u Hnot; [reflexivity|].
  simpl in *. rewrite IH by tauto. apply user_column_set_other. intros ->. tauto.
Qed.

Lemma apply_assignments_same (assignments : list (string * sqlval)) (column : string)
    (v : sqlval) (u : UserRow) :
  List.NoDup (map fst assignments) ->
  In (column, v) assignments ->
  In column profile_fields ->
  user_column column (apply_assignments assignments u) = Some v.
Proof.
  revert u. induction assignments as [|[f w] rest IH]; intros u Hnd Hin Hpf; [destruct Hin|].
  simpl in Hnd. apply NoDup_cons_iff in Hnd as [Hf Hnd].
  destruct Hin as [[= -> ->]|Hin].
  - change (apply_assignments ((column, v) :: rest) u)
      with (apply_assignments rest (set_user_column column v u)).
    rewrite apply_assignments_other by assumption. now apply user_column_set_same.
  - apply (IH (set_user_column f w u)); assumption.
Qed.

Section Assignments.

Variable profile_data : gmap string sqlval.

Let pick (field : string) : option (string * sqlval) :=
  (fun v => (field, v)) <$> profile_data !! field.

Lemma assignments_in (fields : list string) (f : string) (v : sqlval) :
  In (f, v) (omap pick fields) <-> In f fields /\ profile_data !! f = Some v.
Proof.
  induction fields as [|g fields IH]; simpl; [tauto|].
  unfold pick at 1. destruct (profile_data !! g) as [w|] eqn:E; simpl.
  - rewrite IH. split.
    + intros [[= -> ->]|[H1 H2]]; auto.
    + intros [[->|H1] H2]; [left; congruence | right; auto].
  - rewrite IH. split.
    + intros [H1 H2]; auto.
    + intros [[->|H1] H2]; [congruence | auto].
Qed.

Lemma assignments_fields (fields : list string) (f : string) :
  In f (map fst (omap pick fields)) -> In f fields /\ profile_data !! f <> None.
Proof.
  intros ([g v] & <- & Hin)%in_map_iff. apply assignments_in in Hin as [H1 H2].
  simpl. split; [assumption | congruence].
Qed.

Lemma assignments_nodup (fields : list string) :
  List.NoDup fields -> List.NoDup (map fst (omap pick fields)).
Proof.
  induction fields as [|g fields IH]; simpl; intros Hnd; [constructor|].
  apply NoDup_cons_iff in Hnd as [Hg Hnd].
  unfold pick at 1. destruct (profile_data !! g) as [w|]; simpl; [|now apply IH].
  constructor; [|now apply IH].
  intros H%assignments_fields. tauto.
Qed.

End Assignments.

Lemma profile_fields_nodup : List.NoDup profile_fields.
Proof.
  unfold profile_fields.
  repeat (constructor; [simpl; intros H; repeat (destruct H as [H|H]; [discriminate H|]);
                        exact H|]).
  constructor.
Qed.

(** C8. [update_user_profile] rewrites the [users] table row by row and
    nothing else.  A row of another user is left as it is; in the row of
    the user, a column that is not among the keys of the input (or is not
    one of the ten profile columns) keeps its value, and a profile column
    that is a key takes the value given.  With only [weight_kg] in the
    input, [fitness_goals] keeps its value. *)
Theorem update_user_profile_partial (user_id : Z) (profile_data : gmap string sqlval) (d : DB) :
  exists users',
    update_user_profile user_id profile_data d
      = (bool_decide (update_assignments profile_data <> []), set_users (fun _ => users') d) /\
    Forall2 (fun u u' =>
      (u_id u <> user_id -> u' = u) /\
      (forall column,
          profile_data !! column = None \/ ~ In column profile_fields ->
          user_column column u' = user_column column u) /\
      (u_id u = user_id ->
       forall column v,
          In column profile_fields -> profile_data !! column = Some v ->
          user_column column u' = Some v) /\
      (profile_data = {[ "weight_kg" := VInt 80 ]} ->
       u_fitness_goals u' = u_fitness_goals u /\
       (u_id u = user_id -> u_weight_kg u' = VInt 80)))
      (users d) users'.
Proof.
  exists (map (fun u => if u_id u =? user_id
                        then apply_assignments (update_assignments profile_data) u
                        else u) (users d)).
  split.
  - unfold update_user_profile, with_connection.
    destruct (update_assignments profile_data) as [|a l] eqn:E.
    + simpl. f_equal. destruct d as [us ? ? ? ? ? ? ? ? ? ? ?].
      unfold set_users. simpl. f_equal.
      induction us as [|u us IH]; simpl; [reflexivity|].
      rewrite <- IH. now destruct (u_id u =? user_id).
    + reflexivity.
  - induction (users d) as [|u us IH]; simpl; constructor; [|exact IH].
    assert (Hother : forall column,
               profile_data !! column = None \/ ~ In column profile_fields ->
               user_column column (apply_assignments (update_assignments profile_data) u)
               = user_column column u).
    { intros column Hc. apply apply_assignments_other.
      intros H%assignments_fields. tauto. }
    assert (Hsame : forall column v,
               In column profile_fields -> profile_data !! column = Some v ->
               user_column column (apply_assignments (update_assignments profile_data) u)
               = Some v).
    { intros column v Hin Hv. apply apply_assignments_same; [| |assumption].
      - apply assignments_nodup, profile_fields_nodup.
      - now apply assignments_in. }
    destruct (Z.eqb_spec (u_id u) user_id) as [Hid|Hid].
    + split; [intros; congruence|]. split; [exact Hother|].
      split; [intros _; exact Hsame|]. intros Hpd. split.
      * assert (H := Hother "fitness_goals").
        unfold user_column in H. simpl in H. 
        assert (Hn : profile_data !! "fitness_goals" = None) by (subst; reflexivity).
        specialize (H (or_introl Hn)). congruence.
      * intros _. assert (Hw := Hsame "weight_kg" (VInt 80)).
        unfold user_column in Hw. simpl in Hw.
        assert (Hv : profile_data !! "weight_kg" = Some (VInt 80)) by (subst; reflexivity).
        assert (Hin : In "weight_kg" profile_fields) by (unfold profile_fields; simpl; tauto).
        specialize (Hw Hin Hv). congruence.
    + split; [reflexivity|]. split; [reflexivity|].
      split; [intros; congruence|]. intros _. split; [reflexivity | intros; congruence].
Qed.

(** The specification's example, computed. *)
Example update_user_profile_weight_only :
  update_user_profile 7 {[ "weight_kg" := VInt 80 ]} example_profiles
  = (true,
     set_users (fun _ =>
       [example_user 1 "bob" "alice" "salt:digest";
        mkUser 7 "carol" "c@x.com" "salt:digest"
               (VText "Carol") VNull (VInt 30) VNull (VInt 170) (VInt 80)
               VNull (VText "run a marathon") VNull VNull 0]) example_profiles).
Proof. vm_compute. reflexivity. Qed.

Lemma update_user_profile_partial_witness :
  exists users',
    update_user_profile 7 {[ "weight_kg" := VInt 80 ]} example_profiles
      = (true, set_users (fun _ => users') example_profiles) /\
    Forall2 (fun u u' => u_fitness_goals u' = u_fitness_goals u /\
                         (u_id u = 7 -> u_weight_kg u' = VInt 80))
            (users example_profiles) users'.
Proof.
  destruct (update_user_profile_partial 7 {[ "weight_kg" := VInt 80 ]} example_profiles)
    as (users' & Hrun & Hrows).
  exists users'. split; [exact Hrun|].
  eapply Forall2_impl; [exact Hrows|].
  intros u u' (_ & _ & _ & H). now apply H.
Defined.

(** ** Analytics *)

Lemma insert_sorted_in {A : Type} (lt : A -> A -> bool) (x z : A) (l : list A) :
  In z (insert_sorted lt x l) <-> z = x \/ In z l.
Proof.
  induction l as [|y l IH]; simpl; [intuition congruence|].
  destruct (lt y x); simpl; [rewrite IH|]; intuition congruence.
Qed.

Lemma order_by_in {A : Type} (lt : A -> A -> bool) (z : A) (l : list A) :
  In z (order_by lt l) <-> In z l.
Proof.
  induction l as [|y l IH]; simpl; [tauto|].
  rewrite insert_sorted_in, IH. intuition congruence.
Qed.

Section OrderBy.

Context {A : Type} (key : A -> Z) (lt : A -> A -> bool).
Hypothesis lt_key : forall a b, lt a b = (key a <? key b).

Let le (a b : A) : Prop := key a <= key b.

Lemma insert_sorted_sorted (x : A) (l : list A) :
  StronglySorted le l -> StronglySorted le (insert_sorted lt x l).
Proof.
  induction l as [|y l IH]; simpl; intros Hs.
  - repeat constructor.
  - apply StronglySorted_inv in Hs as [Hs Hy].
    rewrite lt_key. destruct (Z.ltb_spec (key y) (key x)) as [Hlt|Hge].
    + constructor; [now apply IH|].
      apply List.Forall_forall. intros z [->|Hz]%insert_sorted_in.
      * unfold le. lia.
      * rewrite List.Forall_forall in Hy. now apply Hy.
    + constructor; [now constructor|].
      constructor; [exact Hge|].
      rewrite List.Forall_forall in Hy. apply List.Forall_forall.
      intros z Hz. specialize (Hy z Hz). unfold le in *. lia.
Qed.

Lemma order_by_sorted (l : list A) : StronglySorted le (order_by lt l).
Proof.
  induction l as [|x l IH]; simpl; [constructor | now apply insert_sorted_sorted].
Qed.

(** The first row of an ordered result has the least key. *)
Lemma order_by_first (l : list A) (p : A) :
  fetchone (order_by lt l) = Some p ->
  In p l /\ forall q, In q l -> key p <= key q.
Proof.
  intros H. assert (Hs := order_by_sorted l).
  assert (Hin : forall q, In q (order_by lt l) <-> In q l) by (intros; apply order_by_in).
  destruct (order_by lt l) as [|p' s]; [discriminate|]. injection H as ->.
  split; [apply Hin; now left|].
  intros q Hq%Hin. apply StronglySorted_inv in Hs as [_ Hp].
  rewrite List.Forall_forall in Hp.
  destruct Hq as [->|Hq]; [lia | now apply Hp].
Qed.

End OrderBy.

Lemma remove_dups_in (z : Z) (l : list Z) : In z (remove_dups l) <-> In z l.
Proof. rewrite <- !list_elem_of_In. apply elem_of_remove_dups. Qed.

Lemma remove_dups_strictly_sorted (l : list Z) :
  StronglySorted Z.le l -> StronglySorted Z.lt (remove_dups l).
Proof.
  induction l as [|x l IH]; simpl; intros Hs; [constructor|].
  apply StronglySorted_inv in Hs as [Hs Hx].
  destruct (decide_rel elem_of x l) as [Hin|Hnin]; [now apply IH|].
  constructor; [now apply IH|].
  rewrite List.Forall_forall in Hx. apply List.Forall_forall.
  intros z Hz. apply (proj1 (remove_dups_in _ _)) in Hz. specialize (Hx z Hz).
  assert (z <> x) by (intros ->; apply Hnin; now apply list_elem_of_In).
  lia.
Qed.

Lemma group_days_sorted (days : list Z) : StronglySorted Z.lt (group_days days).
Proof.
  apply remove_dups_strictly_sorted.
  apply (order_by_sorted (fun z => z) Z.ltb). reflexivity.
Qed.

Lemma group_days_in (z : Z) (days : list Z) : In z (group_days days) <-> In z days.
Proof. unfold group_days. now rewrite remove_dups_in, order_by_in. Qed.

Lemma strictly_sorted_filter_eq (l : list Z) (z : Z) :
  StronglySorted Z.lt l -> In z l -> List.filter (fun k => k =? z) l = [z].
Proof.
  induction l as [|x l IH]; intros Hs Hin; [destruct Hin|].
  apply StronglySorted_inv in Hs as [Hs Hx]. rewrite List.Forall_forall in Hx. simpl.
  destruct Hin as [->|Hin].
  - rewrite Z.eqb_refl. f_equal. apply filter_none.
    intros k Hk. specialize (Hx k Hk). apply Z.eqb_neq. lia.
  - specialize (Hx z Hin). rewrite (proj2 (Z.eqb_neq x z)) by lia. now apply IH.
Qed.

Lemma filter_map_comm {A B : Type} (f : A -> B) (p : B -> bool) (l : list A) :
  List.filter p (map f l) = map f (List.filter (fun x => p (f x)) l).
Proof.
  induction l as [|x l IH]; simpl; [reflexivity|].
  destruct (p (f x)); simpl; now rewrite IH.
Qed.

Lemma filter_filter {A : Type} (p q : A -> bool) (l : list A) :
  List.filter p (List.filter q l) = List.filter (fun x => q x && p x) l.
Proof.
  induction l as [|x l IH]; simpl; [reflexivity|].
  destruct (q x); simpl; [destruct (p x)|]; now rewrite IH.
Qed.

Lemma filter_ext_in {A : Type} (p q : A -> bool) (l : list A) :
  (forall x, In x l -> p x = q x) -> List.filter p l = List.filter q l.
Proof.
  induction l as [|x l IH]; simpl; intros H; [reflexivity|].
  rewrite (H x (or_introl eq_refl)), IH; [reflexivity|].
  intros y Hy. apply H. now right.
Qed.

Lemma window_group (d : DB) (user_id start day : Z) :
  start <= day ->
  List.filter (fun ml => sql_date (ml_logged_at ml) =? day) (meal_logs_in_window d user_id start)
  = meal_logs_on d user_id day.
Proof.
  intros Hday. unfold meal_logs_in_window, meal_logs_on. rewrite filter_filter.
  apply filter_ext_in. intros ml _.
  destruct (ml_user_id ml =? user_id); simpl; [|reflexivity].
  destruct (Z.eqb_spec (sql_date (ml_logged_at ml)) day) as [->|_].
  - rewrite (proj2 (Z.leb_le _ _) Hday). reflexivity.
  - apply andb_false_r.
Qed.

Lemma daily_nutrition_dates (d : DB) (user_id start : Z) :
  map n_date (daily_nutrition d user_id start)
  = group_days (map (fun ml => sql_date (ml_logged_at ml)) (meal_logs_in_window d user_id start)).
Proof.
  unfold daily_nutrition. rewrite map_map. simpl. apply map_id.
Qed.

Lemma daily_nutrition_day (d : DB) (user_id start day : Z) :
  In day (map n_date (daily_nutrition d user_id start)) <->
  start <= day /\ meal_logs_on d user_id day <> [].
Proof.
  rewrite daily_nutrition_dates, group_days_in, in_map_iff. split.
  - intros (ml & <- & Hml). unfold meal_logs_in_window in Hml.
    apply filter_In in Hml as [Hml [Hu Hs]%andb_prop].
    split; [now apply Z.leb_le|].
    intros Hnil. assert (Hin : In ml (meal_logs_on d user_id (sql_date (ml_logged_at ml)))).
    { apply filter_In. split; [assumption|]. now rewrite Hu, Z.eqb_refl. }
    rewrite Hnil in Hin. destruct Hin.
  - intros [Hs Hne]. destruct (meal_logs_on d user_id day) as [|ml l] eqn:E; [congruence|].
    assert (Hin : In ml (meal_logs_on d user_id day)) by (rewrite E; now left).
    apply filter_In in Hin as [Hml [Hu Hd%Z.eqb_eq]%andb_prop].
    exists ml. split; [assumption|]. apply filter_In. split; [assumption|].
    rewrite Hu, Hd. now apply Z.leb_le.
Qed.

Lemma daily_nutrition_row (d : DB) (user_id start : Z) (row : NutritionRow) :
  In row (daily_nutrition d user_id start) ->
  let group := meal_logs_on d user_id (n_date row) in
  start <= n_date row /\
  n_calories row = sql_sum (map ml_calories_consumed group) /\
  n_protein row = sql_sum (map ml_protein_g group) /\
  n_carbs row = sql_sum (map ml_carbs_g group) /\
  n_fats row = sql_sum (map ml_fat_g group).
Proof.
  intros Hin group.
  assert (Hday : In (n_date row) (map n_date (daily_nutrition d user_id start)))
    by now apply in_map.
  apply daily_nutrition_day in Hday as [Hs _].
  unfold daily_nutrition in Hin. apply in_map_iff in Hin as (day & <- & _).
  simpl in *. unfold group. rewrite (window_group _ _ _ _ Hs). auto.
Qed.

Lemma daily_nutrition_single (d : DB) (user_id start day : Z) :
  In day (map n_date (daily_nutrition d user_id start)) ->
  List.filter (fun r => n_date r =? day) (daily_nutrition d user_id start)
  = [nutrition_row (meal_logs_in_window d user_id start) day].
Proof.
  intros Hin. unfold daily_nutrition at 1. rewrite filter_map_comm. simpl.
  rewrite strictly_sorted_filter_eq; [reflexivity | apply group_days_sorted |].
  now rewrite <- daily_nutrition_dates.
Qed.

Lemma start_date_trailing (now days : Z) :
  start_date now days = now / microseconds_per_day - days.
Proof.
  unfold start_date.
  replace (now - days * microseconds_per_day)
    with (now + (- days) * microseconds_per_day) by lia.
  rewrite Z.div_add by (unfold microseconds_per_day; lia). lia.
Qed.

Lemma latest_calorie_target_some (d : DB) (user_id : Z) (target : sqlval) :
  latest_calorie_target d user_id = Some target ->
  exists p, In p (diet_plans d) /\ dp_user_id p = user_id /\
            dp_calorie_target p = target /\
            forall q, In q (diet_plans d) -> dp_user_id q = user_id ->
                      dp_created_at q <= dp_created_at p.
Proof.
  unfold latest_calorie_target.
  destruct (fetchone _) as [p|] eqn:E; [|discriminate].
  intros Ht.
  apply (order_by_first (fun p => - dp_created_at p)) in E as [Hin Hmax].
  2:{ intros a b. destruct (Z.ltb_spec (dp_created_at b) (dp_created_at a));
        destruct (Z.ltb_spec (- dp_created_at a) (- dp_created_at b)); (reflexivity || lia). }
  apply filter_In in Hin as [Hin Hu%Z.eqb_eq].
  exists p. repeat split; try assumption.
  - destruct (dp_calorie_target p); congruence.
  - intros q Hq Hqu.
    assert (- dp_created_at p <= - dp_created_at q); [|lia].
    apply Hmax. apply filter_In. split; [assumption | now apply Z.eqb_eq].
Qed.

Lemma get_nutrition_logs_rows (d : DB) (now user_id : Z) (date_range : string) :
  nf_rows (get_nutrition_logs d now user_id date_range)
  = daily_nutrition d user_id (start_date now (window_days date_range)).
Proof.
  unfold get_nutrition_logs.
  destruct (daily_nutrition _ _ _); [reflexivity|].
  now destruct (latest_calorie_target d user_id).
Qed.

Lemma get_nutrition_logs_target (d : DB) (now user_id : Z) (date_range : string) :
  nf_target_calories (get_nutrition_logs d now user_id date_range)
  = match nf_rows (get_nutrition_logs d now user_id date_range) with
    | [] => None
    | _ :: _ => latest_calorie_target d user_id
    end.
Proof.
  unfold get_nutrition_logs.
  destruct (daily_nutrition _ _ _); [reflexivity|].
  now destruct (latest_calorie_target d user_id).
Qed.

(** The row an [ORDER BY ... LIMIT 1] returns: every row before it in
    the table sorts strictly after it, and no row after it sorts before
    it. *)
Lemma order_by_head {A : Type} (lt : A -> A -> bool) (before after : list A) (p : A) :
  (forall q, In q before -> lt p q = true) ->
  (forall q, In q after -> lt q p = false) ->
  fetchone (order_by lt (before ++ p :: after)) = Some p.
Proof.
  intros Hbefore Hafter. induction before as [|b before IH].
  - cbn [app order_by fold_right]. fold (order_by lt after).
    assert (Hall : forall q, In q (order_by lt after) -> lt q p = false)
      by (intros q Hq%order_by_in; now apply Hafter).
    destruct (order_by lt after) as [|y l]; [reflexivity|].
    cbn [insert_sorted]. now rewrite (Hall y (or_introl eq_refl)).
  - cbn [app order_by fold_right]. fold (order_by lt (before ++ p :: after)).
    assert (IH' : fetchone (order_by lt (before ++ p :: after)) = Some p)
      by (apply IH; intros q Hq; apply Hbefore; now right).
    destruct (order_by lt (before ++ p :: after)) as [|y l]; [discriminate|].
    injection IH' as ->. cbn [insert_sorted].
    now rewrite (Hbefore b (or_introl eq_refl)).
Qed.

Lemma latest_calorie_target_none (d : DB) (user_id : Z) :
  (forall p, In p (diet_plans d) -> dp_user_id p <> user_id) ->
  latest_calorie_target d user_id = None.
Proof.
  intros Hnone. unfold latest_calorie_target.
  rewrite filter_none; [reflexivity|].
  intros p Hp. apply Z.eqb_neq. now apply Hnone.
Qed.

(** The most recently created plan of the user; among plans created at
    the same instant, the one stored first. *)
Lemma latest_calorie_target_of (d : DB) (user_id : Z)
    (before after : list DietPlanRow) (p : DietPlanRow) :
  diet_plans d = before ++ p :: after ->
  dp_user_id p = user_id ->
  (forall q, In q before -> dp_user_id q = user_id -> dp_created_at q < dp_created_at p) ->
  (forall q, In q after -> dp_user_id q = user_id -> dp_created_at q <= dp_created_at p) ->
  latest_calorie_target d user_id
  = match dp_calorie_target p with
    | VNull => None
    | target => Some target
    end.
Proof.
  intros Hd Hu Hbefore Hafter. unfold latest_calorie_target.
  rewrite Hd, List.filter_app. cbn [List.filter].
  rewrite (proj2 (Z.eqb_eq _ _) Hu).
  rewrite order_by_head; [reflexivity | |].
  - intros q [Hq Hqu%Z.eqb_eq]%filter_In. apply Z.ltb_lt. now apply Hbefore.
  - intros q [Hq Hqu%Z.eqb_eq]%filter_In. apply Z.ltb_ge. now apply Hafter.
Qed.

(** C9. [get_nutrition_logs] maps the six labels to 7, 14, 30, 90, 180 and
    365 days and keeps the days from [today - days] on.  Its rows are the
    days on which the user logged a meal, each once and in ascending order;
    a row holds the sums of calories, protein, carbs and fat over the
    user's meal logs of that day.  The target column is attached exactly
    when there is a row and the user's most recently created diet plan
    has a calorie target, and it is that target: the plan is the one that
    every plan of the user stored before it is strictly older than and
    no plan of the user stored after it is newer than.  A user without
    diet plans, and a report without rows, have no target.  Two logs of
    500 and 600 calories that are the user's logs of one day in the window
    give one row for that day, with 1100 calories. *)
Theorem get_nutrition_logs_daily (d : DB) (now user_id : Z) (date_range : string) :
  let days := window_days date_range in
  let today := now / microseconds_per_day in
  let frame := get_nutrition_logs d now user_id date_range in
  (window_days "1 Week" = 7 /\ window_days "2 Weeks" = 14 /\ window_days "1 Month" = 30 /\
   window_days "3 Months" = 90 /\ window_days "6 Months" = 180 /\ window_days "1 Year" = 365) /\
  StronglySorted Z.lt (map n_date (nf_rows frame)) /\
  (forall day, In day (map n_date (nf_rows frame)) <->
               today - days <= day /\ meal_logs_on d user_id day <> []) /\
  (forall row, In row (nf_rows frame) ->
     let group := meal_logs_on d user_id (n_date row) in
     n_calories row = sql_sum (map ml_calories_consumed group) /\
     n_protein row = sql_sum (map ml_protein_g group) /\
     n_carbs row = sql_sum (map ml_carbs_g group) /\
     n_fats row = sql_sum (map ml_fat_g group)) /\
  (forall before p after,
     diet_plans d = before ++ p :: after ->
     dp_user_id p = user_id ->
     (forall q, In q before -> dp_user_id q = user_id ->
                dp_created_at q < dp_created_at p) ->
     (forall q, In q after -> dp_user_id q = user_id ->
                dp_created_at q <= dp_created_at p) ->
     nf_rows frame <> [] ->
     nf_target_calories frame
     = match dp_calorie_target p with
       | VNull => None
       | target => Some target
       end) /\
  ((forall p, In p (diet_plans d) -> dp_user_id p <> user_id) ->
   nf_target_calories frame = None) /\
  (nf_rows frame = [] -> nf_target_calories frame = None) /\
  (forall target, nf_target_calories frame = Some target ->
     nf_rows frame <> [] /\
     exists p, In p (diet_plans d) /\ dp_user_id p = user_id /\
               dp_calorie_target p = target /\
               forall q, In q (diet_plans d) -> dp_user_id q = user_id ->
                         dp_created_at q <= dp_created_at p) /\
  (forall day l1 l2,
     today - days <= day ->
     meal_logs_on d user_id day = [l1; l2] ->
     ml_calories_consumed l1 = VInt 500 ->
     ml_calories_consumed l2 = VInt 600 ->
     exists row, List.filter (fun r => n_date r =? day) (nf_rows frame) = [row] /\
                 n_date row = day /\ n_calories row = VInt 1100).
Proof.
  intros days today frame. unfold frame.
  rewrite get_nutrition_logs_target, get_nutrition_logs_rows.
  fold days. rewrite start_date_trailing. fold today.
  split; [repeat split; vm_compute; reflexivity|].
  split; [rewrite daily_nutrition_dates; apply group_days_sorted|].
  split; [intros day; apply daily_nutrition_day|].
  split; [intros row Hrow; now apply daily_nutrition_row in Hrow|].
  split.
  { intros before p after Hd Hu Hbefore Hafter Hrows.
    rewrite <- (latest_calorie_target_of d user_id before after p Hd Hu Hbefore Hafter).
    destruct (daily_nutrition d user_id (today - days)); [now destruct Hrows | reflexivity]. }
  split.
  { intros Hnone. rewrite (latest_calorie_target_none d user_id Hnone).
    now destruct (daily_nutrition d user_id (today - days)). }
  split; [now intros ->|].
  split.
  { intros target.
    destruct (daily_nutrition d user_id (today - days)) as [|r rs]; [discriminate|].
    intros Htarget. split; [discriminate | now apply latest_calorie_target_some]. }
  intros day l1 l2 Hday Hlogs H1 H2.
  assert (Hin : In day (map n_date (daily_nutrition d user_id (today - days)))).
  { apply daily_nutrition_day. split; [assumption|]. rewrite Hlogs. discriminate. }
  rewrite (daily_nutrition_single _ _ _ _ Hin).
  eexists. split; [reflexivity|]. split; [reflexivity|].
  simpl. rewrite (window_group _ _ _ _ Hday), Hlogs. simpl. now rewrite H1, H2.
Qed.

(** The specification's example, computed: users 7's two meals of day
    20000 are one row of 1100 calories, with the plan's target beside it. *)
Example get_nutrition_logs_one_week :
  get_nutrition_logs example_nutrition example_now 7 "1 Week"
  = mkNutritionFrame [mkNutritionRow 20000 (VInt 1100) (VInt 45) (VInt 140) (VInt 25)]
                     (Some (VInt 2000)).
Proof. vm_compute. reflexivity. Qed.

Lemma get_nutrition_logs_daily_witness :
  (exists row,
     List.filter (fun r => n_date r =? 20000)
                 (nf_rows (get_nutrition_logs example_nutrition example_now 7 "1 Week"))
     = [row] /\ n_date row = 20000 /\ n_calories row = VInt 1100) /\
  nf_target_calories (get_nutrition_logs example_nutrition example_now 7 "1 Week")
  = Some (VInt 2000).
Proof.
  destruct (get_nutrition_logs_daily example_nutrition example_now 7 "1 Week")
    as (_ & _ & _ & _ & Htarget & _ & _ & _ & Hday).
  split.
  - refine (Hday 20000 _ _ _ eq_refl eq_refl eq_refl). vm_compute. discriminate.
  - refine (Htarget [] (mkDietPlan 1 7 (VText "cut") (VInt 2000) VNull VNull VNull VNull
                                   (VInt 1) VNull 100) [] eq_refl eq_refl _ _ _).
    + intros q [].
    + intros q [].
    + vm_compute. discriminate.
Defined.

Lemma history_join_in (d : DB) (user_id start : Z)
    (wl : WorkoutLogRow) (el : ExerciseLogRow) (wd : WorkoutDayRow) :
  In (wl, el, wd) (history_join d user_id start) <->
  (In wl (workout_logs d) /\ wl_user_id wl = user_id /\
   start <= sql_date (wl_completed_at wl)) /\
  (In el (exercise_logs d) /\ el_workout_log_id el = wl_id wl) /\
  (In wd (workout_days d) /\ wd_id wd = wl_workout_day_id wl).
Proof.
  unfold history_join. rewrite in_flat_map. split.
  - intros (wl' & Hwl & Hin). apply in_flat_map in Hin as (el' & Hel & Hin).
    apply in_map_iff in Hin as (wd' & [= -> -> ->] & Hwd).
    apply filter_In in Hwl as [Hwl Hc]. apply andb_true_iff in Hc as [Hu Hs].
    apply filter_In in Hel as [Hel He]. apply filter_In in Hwd as [Hwd Hd].
    apply Z.eqb_eq in Hu, He, Hd. apply Z.leb_le in Hs. auto 10.
  - intros ((Hwl & Hu & Hs) & (Hel & He) & (Hwd & Hd)).
    exists wl. split.
    + apply filter_In. split; [assumption|]. apply andb_true_iff.
      split; [now apply Z.eqb_eq | now apply Z.leb_le].
    + apply in_flat_map. exists el. split.
      * apply filter_In. split; [assumption|]. apply Z.eqb_eq. congruence.
      * apply in_map_iff. exists wd. split; [reflexivity|].
        apply filter_In. split; [assumption|]. apply Z.eqb_eq. congruence.
Qed.

(** The rows of the history: one for each bucket of the joined rows. *)
Lemma get_workout_history_in (d : DB) (now user_id : Z) (date_range : string)
    (row : HistoryRow) :
  let rows := history_join d user_id (start_date now (window_days date_range)) in
  In row (get_workout_history d now user_id date_range) <->
  exists r, In r rows /\ row = history_row rows (history_key r).
Proof.
  intros rows. unfold get_workout_history. fold rows. rewrite in_map_iff. split.
  - intros (key & <- & Hkey).
    rewrite <- list_elem_of_In, elem_of_remove_dups, list_elem_of_In, order_by_in in Hkey.
    apply in_map_iff in Hkey as (r & <- & Hr). now exists r.
  - intros (r & Hr & ->). exists (history_key r). split; [reflexivity|].
    rewrite <- list_elem_of_In, elem_of_remove_dups, list_elem_of_In, order_by_in.
    now apply in_map.
Qed.

(** What the row of a bucket shows of the bucket's key. *)
Lemma history_row_key (rows : list (WorkoutLogRow * ExerciseLogRow * WorkoutDayRow))
    (r : WorkoutLogRow * ExerciseLogRow * WorkoutDayRow) :
  In r rows ->
  let row := history_row rows (history_key r) in
  (sql_date (h_date row), h_name row, h_day_number row) = history_key r.
Proof.
  intros Hr row. subst row. unfold history_row. cbn [h_date h_name h_day_number].
  assert (Hin : In r (List.filter (fun r' => bool_decide (history_key r' = history_key r))
                                  rows))
    by (apply filter_In; split; [assumption | now apply bool_decide_eq_true]).
  destruct (List.filter _ rows) as [|[[wl0 el0] wd0] group] eqn:E; [destruct Hin|].
  assert (H0 : In (wl0, el0, wd0)
                  (List.filter (fun r' => bool_decide (history_key r' = history_key r)) rows))
    by (rewrite E; now left).
  apply filter_In in H0 as [_ Hkey%bool_decide_eq_true].
  rewrite <- Hkey. cbn [history_key fst snd].
  now destruct (history_key r) as [[date name] number].
Qed.

(** C10. A [date_range] that is none of the six labels gets the default of
    30 days, so both queries return what they return for ["1 Month"], and
    that is a report over the last 30 days, not an empty one: the
    nutrition rows are the days from [today - 30] on with a meal log of
    the user, and the history has a row for a day, plan name and day
    number exactly when a workout log of the user from [today - 30] on,
    with an exercise log and an existing workout day, falls in that
    bucket. *)
Theorem unrecognized_range_is_one_month (d : DB) (now user_id : Z) (date_range : string) :
  ~ In date_range ["1 Week"; "2 Weeks"; "1 Month"; "3 Months"; "6 Months"; "1 Year"] ->
  let today := now / microseconds_per_day in
  window_days date_range = 30 /\
  get_nutrition_logs d now user_id date_range = get_nutrition_logs d now user_id "1 Month" /\
  get_workout_history d now user_id date_range = get_workout_history d now user_id "1 Month" /\
  (forall day,
     In day (map n_date (nf_rows (get_nutrition_logs d now user_id date_range))) <->
     today - 30 <= day /\ meal_logs_on d user_id day <> []) /\
  (forall date name day_number,
     (exists row, In row (get_workout_history d now user_id date_range) /\
                  sql_date (h_date row) = date /\ h_name row = name /\
                  h_day_number row = day_number) <->
     (exists wl el wd,
        In wl (workout_logs d) /\ wl_user_id wl = user_id /\
        today - 30 <= sql_date (wl_completed_at wl) /\
        In el (exercise_logs d) /\ el_workout_log_id el = wl_id wl /\
        In wd (workout_days d) /\ wd_id wd = wl_workout_day_id wl /\
        sql_date (wl_completed_at wl) = date /\ wl_plan_name wl = name /\
        wd_day_number wd = day_number)).
Proof.
  intros Hnot today.
  assert (Hw : window_days date_range = 30).
  { unfold window_days, days_map.
    rewrite not_elem_of_list_to_map_1; [reflexivity|].
    intros Hin. apply Hnot. apply list_elem_of_In in Hin. exact Hin. }
  assert (Hm : window_days "1 Month" = 30) by (vm_compute; reflexivity).
  split; [exact Hw|].
  split; [unfold get_nutrition_logs; now rewrite Hw, Hm|].
  split; [unfold get_workout_history; now rewrite Hw, Hm|].
  split.
  { intros day. rewrite get_nutrition_logs_rows, Hw, start_date_trailing.
    apply daily_nutrition_day. }
  intros date name day_number. split.
  - intros (row & Hrow & Hdate & Hname & Hnumber).
    apply get_workout_history_in in Hrow as ([[wl el] wd] & Hr & ->).
    assert (Hkey := history_row_key _ _ Hr). cbn zeta in Hkey.
    rewrite Hdate, Hname, Hnumber in Hkey. cbn [history_key] in Hkey.
    assert (H1 := f_equal (fun k => fst (fst k)) Hkey).
    assert (H2 := f_equal (fun k => snd (fst k)) Hkey).
    assert (H3 := f_equal snd Hkey). cbn [fst snd] in H1, H2, H3. subst date name day_number.
    rewrite Hw, start_date_trailing in Hr.
    apply history_join_in in Hr as ((Hwl & Hu & Hs) & (Hel & He) & (Hwd & Hd)).
    exists wl, el, wd. auto 12.
  - intros (wl & el & wd & Hwl & Hu & Hs & Hel & He & Hwd & Hd & <- & <- & <-).
    set (rows := history_join d user_id (start_date now (window_days date_range))).
    assert (Hr : In (wl, el, wd) rows).
    { unfold rows. rewrite Hw, start_date_trailing. apply history_join_in. auto 12. }
    exists (history_row rows (history_key (wl, el, wd))). split.
    + apply get_workout_history_in. now exists (wl, el, wd).
    + assert (Hkey := history_row_key _ _ Hr). cbn zeta in Hkey.
      cbn [history_key] in Hkey.
      assert (H1 := f_equal (fun k => fst (fst k)) Hkey).
      assert (H2 := f_equal (fun k => snd (fst k)) Hkey).
      assert (H3 := f_equal snd Hkey). cbn [fst snd] in H1, H2, H3. auto.
Qed.

(** [example_plans] has one logged workout, on day 0: a history asked for
    with an unknown label on day 20 shows it. *)
Lemma unrecognized_range_is_one_month_witness :
  window_days "5 Years" = 30 /\
  get_nutrition_logs example_nutrition example_now 7 "5 Years"
    = get_nutrition_logs example_nutrition example_now 7 "1 Month" /\
  get_workout_history example_nutrition example_now 7 "5 Years"
    = get_workout_history example_nutrition example_now 7 "1 Month" /\
  In 20000 (map n_date (nf_rows (get_nutrition_logs example_nutrition example_now 7
                                   "5 Years"))) /\
  exists row,
    In row (get_workout_history example_plans (20 * microseconds_per_day) 7 "5 Years") /\
    sql_date (h_date row) = 0 /\ h_name row = VText "A" /\ h_day_number row = VInt 1.
Proof.
  assert (Hnot : ~ In "5 Years"
                     ["1 Week"; "2 Weeks"; "1 Month"; "3 Months"; "6 Months"; "1 Year"]).
  { simpl. intros H. repeat (destruct H as [H|H]; [discriminate H|]). exact H. }
  destruct (unrecognized_range_is_one_month example_nutrition example_now 7 "5 Years" Hnot)
    as (Hw & Hn & Hh & Hdays & _).
  destruct (unrecognized_range_is_one_month example_plans (20 * microseconds_per_day) 7
              "5 Years" Hnot) as (_ & _ & _ & _ & Hrows).
  split; [exact Hw|]. split; [exact Hn|]. split; [exact Hh|]. split.
  - apply Hdays. split; [vm_compute; discriminate | vm_compute; discriminate].
  - apply Hrows.
    exists (mkWorkoutLog 1 7 1 (VText "A") 500 (VInt 30) VNull),
           (mkExerciseLog 1 1 1 (VInt 3) (VInt 10) (VInt 0) VNull VNull),
           (mkWorkoutDay 1 1 (VInt 1) (VText "Push") VNull).
    repeat split; try reflexivity; try (simpl; tauto).
    vm_compute. discriminate.
Defined.

(** ** Plan deletion *)

Lemma forallb_filter_keep {A : Type} (p q : A -> bool) (l : list A) :
  forallb p l = true -> forallb p (List.filter q l) = true.
Proof.
  rewrite !forallb_forall. intros H x [Hx _]%filter_In. now apply H.
Qed.

Lemma plan_day_ids_in (d : DB) (plan_id x : Z) :
  x ∈ plan_day_ids d plan_id <->
  exists wd, In wd (workout_days d) /\ wd_workout_plan_id wd = plan_id /\ wd_id wd = x.
Proof.
  unfold plan_day_ids. rewrite list_elem_of_In, in_map_iff. split.
  - intros (wd & <- & [Hin Hp%Z.eqb_eq]%filter_In). eauto.
  - intros (wd & Hin & Hp & <-). exists wd. split; [reflexivity|].
    apply filter_In. split; [assumption | now apply Z.eqb_eq].
Qed.

Lemma plan_log_ids_in (d : DB) (plan_id x : Z) :
  x ∈ plan_log_ids d plan_id <->
  exists wl, In wl (workout_logs d) /\ wl_workout_day_id wl ∈ plan_day_ids d plan_id /\
             wl_id wl = x.
Proof.
  unfold plan_log_ids. rewrite list_elem_of_In, in_map_iff. split.
  - intros (wl & <- & [Hin Hp%bool_decide_eq_true]%filter_In). eauto.
  - intros (wl & Hin & Hp & <-). exists wl. split; [reflexivity|].
    apply filter_In. split; [assumption | now apply bool_decide_eq_true].
Qed.

Ltac proj_db :=
  cbn [run_statements firstn fold_left run delete_workout_plan_statements
       delete_exercise_logs_of_plan delete_workout_logs_of_plan
       delete_workout_exercises_of_plan delete_workout_days_of_plan
       delete_workout_plan_row delete_diet_plan_statements
       delete_meal_plans_of_plan delete_shopping_lists_of_plan delete_diet_plan_row
       set_exercise_logs set_workout_logs set_workout_exercises set_workout_days
       set_workout_plans set_meal_plans set_shopping_lists set_diet_plans
       users user_sessions workout_plans workout_days exercises workout_exercises
       workout_logs exercise_logs diet_plans meal_plans shopping_lists meal_logs].

(** Each prefix of the five statements keeps every reference resolved. *)
Lemma delete_workout_plan_keeps_references (plan_id : Z) (d : DB) (k : nat) :
  workout_references_ok d = true ->
  workout_references_ok
    (run_statements (firstn k (delete_workout_plan_statements plan_id)) d) = true.
Proof.
  unfold workout_references_ok. rewrite !andb_true_iff.
  intros (((((Hel & Hele) & Hwl) & Hwe) & Hwee) & Hwd).
  assert (Hel2 : forallb
            (fun el => existsb (fun wl => wl_id wl =? el_workout_log_id el)
               (List.filter (fun wl => negb (bool_decide
                               (wl_workout_day_id wl ∈ plan_day_ids d plan_id)))
                            (workout_logs d)))
            (List.filter (fun el => negb (bool_decide
                            (el_workout_log_id el ∈ plan_log_ids d plan_id)))
                         (exercise_logs d)) = true).
  { apply forallb_forall. intros el [Hin Hnot]%filter_In.
    rewrite forallb_forall in Hel. specialize (Hel el Hin).
    apply existsb_exists in Hel as (wl & Hwlin & Heq%Z.eqb_eq).
    apply existsb_exists. exists wl. split; [|now apply Z.eqb_eq].
    apply filter_In. split; [assumption|].
    apply negb_true_iff, bool_decide_eq_false. intros Hday.
    apply negb_true_iff, bool_decide_eq_false in Hnot. apply Hnot.
    apply plan_log_ids_in. eauto. }
  assert (Hday4 : forall (A : Type) (day_of : A -> Z) (l : list A),
             forallb (fun r => existsb (fun wd => wd_id wd =? day_of r) (workout_days d)) l
             = true ->
             forallb (fun r => existsb (fun wd => wd_id wd =? day_of r)
                        (List.filter (fun wd => negb (wd_workout_plan_id wd =? plan_id))
                                     (workout_days d)))
                     (List.filter (fun r => negb (bool_decide
                                     (day_of r ∈ plan_day_ids d plan_id))) l) = true).
  { intros A day_of l Hl. apply forallb_forall. intros r [Hin Hnot]%filter_In.
    rewrite forallb_forall in Hl. specialize (Hl r Hin).
    apply existsb_exists in Hl as (wd & Hwdin & Heq%Z.eqb_eq).
    apply existsb_exists. exists wd. split; [|now apply Z.eqb_eq].
    apply filter_In. split; [assumption|].
    apply negb_true_iff, Z.eqb_neq. intros Hplan.
    apply negb_true_iff, bool_decide_eq_false in Hnot. apply Hnot.
    apply plan_day_ids_in. eauto. }
  assert (Hwd5 : forallb
            (fun wd => existsb (fun wp => wp_id wp =? wd_workout_plan_id wd)
               (List.filter (fun wp => negb (wp_id wp =? plan_id)) (workout_plans d)))
            (List.filter (fun wd => negb (wd_workout_plan_id wd =? plan_id))
                         (workout_days d)) = true).
  { apply forallb_forall. intros wd [Hin Hnot]%filter_In.
    rewrite forallb_forall in Hwd. specialize (Hwd wd Hin).
    apply existsb_exists in Hwd as (wp & Hwpin & Heq%Z.eqb_eq).
    apply existsb_exists. exists wp. split; [|now apply Z.eqb_eq].
    apply filter_In. split; [assumption|]. now rewrite Heq. }
  assert (Hd : forall f g h, plan_day_ids
                 (mkDB (users d) (user_sessions d) (workout_plans d) (workout_days d)
                       (exercises d) f g h
                       (diet_plans d) (meal_plans d) (shopping_lists d) (meal_logs d)) plan_id
               = plan_day_ids d plan_id) by reflexivity.
  assert (Hk : (k = 0 \/ k = 1 \/ k = 2 \/ k = 3 \/ k = 4 \/ 5 <= k)%nat) by lia.
  destruct Hk as [->|[->|[->|[->|[->|Hk]]]]];
    [| | | | |rewrite firstn_all2 by (simpl; lia)].
  all: proj_db; rewrite ?Hd; repeat split.
  all: try assumption.
  all: try (now apply forallb_filter_keep).
  all: try exact Hel2.
  all: try (now apply Hday4).
  all: exact Hwd5.
Qed.

Lemma delete_diet_plan_keeps_references (plan_id : Z) (d : DB) (k : nat) :
  diet_references_ok d = true ->
  diet_references_ok
    (run_statements (firstn k (delete_diet_plan_statements plan_id)) d) = true.
Proof.
  unfold diet_references_ok. rewrite !andb_true_iff. intros [Hmp Hsl].
  assert (Hlast : forall (A : Type) (plan_of : A -> Z) (l : list A),
             forallb (fun r => existsb (fun dp => dp_id dp =? plan_of r) (diet_plans d)) l
             = true ->
             forallb (fun r => existsb (fun dp => dp_id dp =? plan_of r)
                        (List.filter (fun dp => negb (dp_id dp =? plan_id)) (diet_plans d)))
                     (List.filter (fun r => negb (plan_of r =? plan_id)) l) = true).
  { intros A plan_of l Hl. apply forallb_forall. intros r [Hin Hnot]%filter_In.
    rewrite forallb_forall in Hl. specialize (Hl r Hin).
    apply existsb_exists in Hl as (dp & Hdpin & Heq%Z.eqb_eq).
    apply existsb_exists. exists dp. split; [|now apply Z.eqb_eq].
    apply filter_In. split; [assumption|]. now rewrite Heq. }
  assert (Hk : (k = 0 \/ k = 1 \/ k = 2 \/ 3 <= k)%nat) by lia.
  destruct Hk as [->|[->|[->|Hk]]]; [| | |rewrite firstn_all2 by (simpl; lia)].
  all: proj_db; repeat split.
  all: try assumption.
  all: try (now apply forallb_filter_keep).
  all: now apply Hlast.
Qed.

(** C5. [delete_workout_plan] runs five DELETE statements, on
    [exercise_logs], [workout_logs], [workout_exercises], [workout_days] and
    [workout_plans] in that order, which puts every referring table before
    the table it refers to; it keeps exactly the rows that do not belong to
    the plan, leaves the [exercises] catalog and every other table as they
    were, and after each statement every remaining reference still finds
    its row.  [delete_diet_plan] does the same with [meal_plans],
    [shopping_lists] and [diet_plans]. *)
Theorem plan_deletion_cascades (plan_id : Z) (d : DB) :
  (let d' := snd (delete_workout_plan plan_id d) in
   fst (delete_workout_plan plan_id d) = true /\
   d' = run_statements (delete_workout_plan_statements plan_id) d /\
   map target (delete_workout_plan_statements plan_id)
     = [T_exercise_logs; T_workout_logs; T_workout_exercises; T_workout_days;
        T_workout_plans] /\
   children_first (map target (delete_workout_plan_statements plan_id)) = true /\
   exercise_logs d'
     = List.filter (fun el => negb (bool_decide (el_workout_log_id el ∈ plan_log_ids d plan_id)))
                   (exercise_logs d) /\
   workout_logs d'
     = List.filter (fun wl => negb (bool_decide (wl_workout_day_id wl ∈ plan_day_ids d plan_id)))
                   (workout_logs d) /\
   workout_exercises d'
     = List.filter (fun we => negb (bool_decide (we_workout_day_id we ∈ plan_day_ids d plan_id)))
                   (workout_exercises d) /\
   workout_days d'
     = List.filter (fun wd => negb (wd_workout_plan_id wd =? plan_id)) (workout_days d) /\
   workout_plans d'
     = List.filter (fun wp => negb (wp_id wp =? plan_id)) (workout_plans d) /\
   exercises d' = exercises d /\
   (users d' = users d /\ user_sessions d' = user_sessions d /\
    diet_plans d' = diet_plans d /\ meal_plans d' = meal_plans d /\
    shopping_lists d' = shopping_lists d /\ meal_logs d' = meal_logs d) /\
   (forall k, workout_references_ok d = true ->
      workout_references_ok
        (run_statements (firstn k (delete_workout_plan_statements plan_id)) d) = true)) /\
  (let d' := snd (delete_diet_plan plan_id d) in
   fst (delete_diet_plan plan_id d) = true /\
   d' = run_statements (delete_diet_plan_statements plan_id) d /\
   map target (delete_diet_plan_statements plan_id)
     = [T_meal_plans; T_shopping_lists; T_diet_plans] /\
   children_first (map target (delete_diet_plan_statements plan_id)) = true /\
   meal_plans d'
     = List.filter (fun mp => negb (mp_diet_plan_id mp =? plan_id)) (meal_plans d) /\
   shopping_lists d'
     = List.filter (fun sl => negb (sl_diet_plan_id sl =? plan_id)) (shopping_lists d) /\
   diet_plans d'
     = List.filter (fun dp => negb (dp_id dp =? plan_id)) (diet_plans d) /\
   exercises d' = exercises d /\
   (users d' = users d /\ user_sessions d' = user_sessions d /\
    workout_plans d' = workout_plans d /\ workout_days d' = workout_days d /\
    workout_exercises d' = workout_exercises d /\ workout_logs d' = workout_logs d /\
    exercise_logs d' = exercise_logs d /\ meal_logs d' = meal_logs d) /\
   (forall k, diet_references_ok d = true ->
      diet_references_ok
        (run_statements (firstn k (delete_diet_plan_statements plan_id)) d) = true)).
Proof.
  split.
  - repeat split; try reflexivity.
    intros k. apply delete_workout_plan_keeps_references.
  - repeat split; try reflexivity.
    intros k. apply delete_diet_plan_keeps_references.
Qed.

(** The specification's example, computed: deleting plan 1 removes its day,
    link and logs; the catalog row and plan 2 with its link stay. *)
Example delete_workout_plan_shared_catalog :
  let d' := snd (delete_workout_plan 1 example_plans) in
  exercises d' = [mkExercise 1 (VText "Push-ups") VNull VNull VNull VNull VNull] /\
  map wp_id (workout_plans d') = [2] /\
  map wd_id (workout_days d') = [2] /\
  map we_id (workout_exercises d') = [2] /\
  workout_logs d' = [] /\ exercise_logs d' = [].
Proof. vm_compute. repeat split; reflexivity. Qed.

Lemma plan_deletion_cascades_witness :
  workout_references_ok (snd (delete_workout_plan 1 example_plans)) = true /\
  diet_references_ok (snd (delete_diet_plan 1 example_plans)) = true.
Proof.
  destruct (plan_deletion_cascades 1 example_plans) as [Hw Hd].
  destruct Hw as (_ & Hrun & _ & _ & _ & _ & _ & _ & _ & _ & _ & Hrefs).
  destruct Hd as (_ & Hrun' & _ & _ & _ & _ & _ & _ & _ & Hrefs').
  split.
  - rewrite Hrun. apply (Hrefs 5%nat). reflexivity.
  - rewrite Hrun'. apply (Hrefs' 3%nat). reflexivity.
Defined.

(** ** Saving plans *)

Lemma bind_returned {A B : Type} (m : conn A) (f : A -> conn B) (d d'' : DB) (b : B) :
  (m ≫= f) d = Returned b d'' ->
  exists a d', m d = Returned a d' /\ f a d' = Returned b d''.
Proof.
  unfold mbind, conn_bind. destruct (m d) as [a d'|e d']; [eauto | discriminate].
Qed.

Lemma for_each_cons_returned {A : Type} (body : A -> conn unit) (x : A) (xs : list A)
    (d d' : DB) :
  for_each body (x :: xs) d = Returned tt d' ->
  exists d1, body x d = Returned tt d1 /\ for_each body xs d1 = Returned tt d'.
Proof.
  simpl. intros (u & d1 & H1 & H2)%bind_returned. destruct u. eauto.
Qed.

Lemma next_rowid_gt (ids : list Z) (x : Z) : In x ids -> x < next_rowid ids.
Proof.
  unfold next_rowid. induction ids as [|y ids IH]; simpl; [tauto|].
  intros [->|H]; [lia|]. specialize (IH H). lia.
Qed.

Lemma next_rowid_fresh (ids : list Z) : ~ In (next_rowid ids) ids.
Proof. intros H%next_rowid_gt. lia. Qed.

Lemma sql_eq_true (a b : sqlval) : sql_eq a b = true -> a = b.
Proof.
  destruct a, b; simpl; try discriminate.
  - now intros ->%Z.eqb_eq.
  - now intros ->%String.eqb_eq.
Qed.

Lemma sql_eq_refl (a : sqlval) : a <> VNull -> sql_eq a a = true.
Proof.
  destruct a; simpl; [congruence | intros _; apply Z.eqb_refl | intros _; apply String.eqb_refl].
Qed.

Lemma append_workout_nil (d : DB) : append_workout [] [] [] [] d = d.
Proof. destruct d. unfold append_workout. simpl. now rewrite !app_nil_r. Qed.

Lemma append_workout_compose ps1 ds1 es1 ls1 ps2 ds2 es2 ls2 (d : DB) :
  append_workout ps2 ds2 es2 ls2 (append_workout ps1 ds1 es1 ls1 d)
  = append_workout (ps1 ++ ps2) (ds1 ++ ds2) (es1 ++ es2) (ls1 ++ ls2) d.
Proof. unfold append_workout. simpl. now rewrite <- !app_assoc. Qed.

Lemma fetchone_app {A : Type} (l more : list A) (x : A) :
  fetchone l = Some x -> fetchone (l ++ more) = Some x.
Proof. destruct l; simpl; [discriminate | auto]. Qed.

Lemma link_saved_extend (catalog more : list ExerciseRow) (day_id : Z)
    (ex : gmap string sqlval) (link : WorkoutExerciseRow) :
  link_saved catalog day_id ex link -> link_saved (catalog ++ more) day_id ex link.
Proof.
  intros (found & Hf & H). exists found. split; [|exact H].
  unfold select_exercises_by_name in *. rewrite List.filter_app. now apply fetchone_app.
Qed.

Lemma day_saved_extend (catalog more : list ExerciseRow) (plan_id : Z) (day : DayData)
    (saved : WorkoutDayRow * list WorkoutExerciseRow) :
  day_saved catalog plan_id day saved -> day_saved (catalog ++ more) plan_id day saved.
Proof.
  intros (H1 & H2 & H3 & H4 & H5). repeat split; try assumption.
  eapply Forall2_impl; [exact H5|]. intros. now apply link_saved_extend.
Qed.

Lemma select_exercises_app (name : sqlval) (es more : list ExerciseRow) :
  select_exercises_by_name name (es ++ more)
  = select_exercises_by_name name es ++ select_exercises_by_name name more.
Proof. apply List.filter_app. Qed.

Lemma catalog_wf_insert (es : list ExerciseRow) (new : ExerciseRow) :
  catalog_wf es ->
  e_id new = next_rowid (map e_id es) ->
  existsb (fun e => sql_eq (e_name e) (e_name new)) es = false ->
  catalog_wf (es ++ [new]).
Proof.
  intros [Hids Hnames] Hid Hnone. split.
  - rewrite map_app. simpl. apply List.NoDup_app; [assumption | repeat constructor; tauto |].
    intros a Ha [<-|[]]. rewrite Hid in Ha. now apply next_rowid_fresh in Ha.
  - intros name. rewrite select_exercises_app, length_app. simpl.
    destruct (sql_eq (e_name new) name) eqn:E; simpl; [|specialize (Hnames name); lia].
    apply sql_eq_true in E. subst name.
    unfold select_exercises_by_name. rewrite filter_none; [simpl; lia|].
    intros e He. destruct (sql_eq (e_name e) (e_name new)) eqn:E; [|reflexivity].
    rewrite <- Hnone. symmetry. apply existsb_exists. eauto.
Qed.

Section SaveWorkoutPlan.

Variable schema : Schema.

Lemma save_exercise_returned (day_id : Z) (ex : gmap string sqlval) (d d' : DB) :
  save_exercise schema day_id ex d = Returned tt d' ->
  exists added link,
    d' = append_workout [] [] added [link] d /\
    link_saved (exercises d ++ added) day_id ex link /\
    (catalog_wf (exercises d) -> catalog_wf (exercises d ++ added)).
Proof.
  unfold save_exercise.
  intros ([] & d1 & Hins & H)%bind_returned.
  assert (Hd1 : exists added, d1 = append_workout [] [] added [] d /\
                  (catalog_wf (exercises d) -> catalog_wf (exercises d ++ added))).
  { unfold insert_or_ignore_exercise in Hins.
    destruct (existsb _ (exercises d)) eqn:Hex; simpl in Hins.
    - injection Hins as <-. exists []. rewrite append_workout_nil, app_nil_r. auto.
    - destruct (exercises_ok schema d _); simpl in Hins; injection Hins as <-.
      + eexists [_]. split.
        * unfold append_workout, set_exercises. simpl. now rewrite !app_nil_r.
        * intros Hwf. now apply catalog_wf_insert.
      + exists []. rewrite append_workout_nil, app_nil_r. auto. }
  destruct Hd1 as (added & -> & Hwf).
  apply bind_returned in H as (d0 & d1 & Hget & H).
  unfold get_db in Hget. injection Hget as <- <-.
  destruct (fetchone _) as [found|] eqn:Hfound; [|discriminate].
  apply bind_returned in H as (lid & d2 & Hlink & H).
  injection H as <-.
  unfold insert_workout_exercise in Hlink.
  destruct (workout_exercises_ok schema _ _); [|discriminate].
  injection Hlink as _ <-.
  eexists added, _. split; [|split; [|exact Hwf]].
  - unfold append_workout, set_workout_exercises. simpl. now rewrite !app_nil_r.
  - exists found. simpl in Hfound. repeat split. exact Hfound.
Qed.

Lemma save_exercises_returned (day_id : Z) (exs : list (gmap string sqlval)) (d d' : DB) :
  for_each (save_exercise schema day_id) exs d = Returned tt d' ->
  exists added links,
    d' = append_workout [] [] added links d /\
    Forall2 (link_saved (exercises d ++ added) day_id) exs links /\
    (catalog_wf (exercises d) -> catalog_wf (exercises d ++ added)).
Proof.
  revert d. induction exs as [|ex exs IH]; intros d H.
  - injection H as <-. exists [], []. rewrite append_workout_nil, app_nil_r.
    split; [reflexivity|]. split; [constructor | auto].
  - apply for_each_cons_returned in H as (d1 & H1 & H).
    apply save_exercise_returned in H1 as (a1 & l1 & -> & Hl1 & Hwf1).
    apply IH in H as (a2 & ls & -> & Hls & Hwf2).
    exists (a1 ++ a2), (l1 :: ls). rewrite append_workout_compose. simpl in *.
    split; [reflexivity|]. rewrite app_assoc. split; [|auto].
    constructor; [now apply link_saved_extend | exact Hls].
Qed.

Lemma save_day_returned (plan_id : Z) (day : DayData) (d d' : DB) :
  save_day schema plan_id day d = Returned tt d' ->
  exists row added links,
    d' = append_workout [] [row] added links d /\
    day_saved (exercises d ++ added) plan_id day (row, links) /\
    wd_id row = next_rowid (map wd_id (workout_days d)) /\
    (catalog_wf (exercises d) -> catalog_wf (exercises d ++ added)).
Proof.
  unfold save_day. intros (day_id & d1 & Hins & H)%bind_returned.
  unfold insert_workout_day in Hins.
  destruct (workout_days_ok schema d _); [|discriminate].
  injection Hins as <- <-.
  apply save_exercises_returned in H as (added & links & -> & Hlinks & Hwf).
  exists (mkWorkoutDay (next_rowid (map wd_id (workout_days d))) plan_id
                       (dict_get (day_fields day) "day_number")
                       (dict_get (day_fields day) "day_name")
                       (dict_get (day_fields day) "focus_area")), added, links.
  split; [|split; [|split; [reflexivity | exact Hwf]]].
  - unfold append_workout, set_workout_days. simpl. now rewrite !app_nil_r.
  - repeat split. exact Hlinks.
Qed.

Lemma save_days_returned (plan_id : Z) (days : list DayData) (d d' : DB) :
  for_each (save_day schema plan_id) days d = Returned tt d' ->
  exists (saved : list (WorkoutDayRow * list WorkoutExerciseRow)) added,
    d' = append_workout [] (map fst saved) added (concat (map snd saved)) d /\
    Forall2 (day_saved (exercises d ++ added) plan_id) days saved /\
    StronglySorted Z.lt (map (fun s => wd_id (fst s)) saved) /\
    Forall (fun s => forall x, In x (map wd_id (workout_days d)) -> x < wd_id (fst s)) saved /\
    (catalog_wf (exercises d) -> catalog_wf (exercises d ++ added)).
Proof.
  revert d. induction days as [|day days IH]; intros d H.
  - injection H as <-. exists [], []. simpl. rewrite append_workout_nil, app_nil_r.
    split; [reflexivity|]. split; [constructor|].
    split; [apply SSorted_nil|]. split; [apply List.Forall_nil | auto].
  - apply for_each_cons_returned in H as (d1 & H1 & H).
    apply save_day_returned in H1 as (row & a1 & l1 & -> & Hday & Hid & Hwf1).
    apply IH in H as (saved & a2 & -> & Hsaved & Hsorted & Hfresh & Hwf2).
    exists ((row, l1) :: saved), (a1 ++ a2). rewrite append_workout_compose. simpl in *.
    split; [reflexivity|]. rewrite app_assoc.
    split; [constructor; [now apply day_saved_extend | exact Hsaved]|].
    split; [|split; [|auto]].
    + constructor; [exact Hsorted|].
      rewrite List.Forall_forall in Hfresh. apply List.Forall_forall.
      intros x (s & <- & Hs)%in_map_iff. apply (Hfresh s Hs).
      rewrite map_app. apply in_or_app. right. now left.
    + constructor.
      * simpl. intros x Hx. rewrite Hid. now apply next_rowid_gt.
      * rewrite List.Forall_forall in Hfresh. apply List.Forall_forall.
        intros s Hs x Hx. apply (Hfresh s Hs).
        rewrite map_app. apply in_or_app. now left.
Qed.

Lemma save_workout_plan_body_returned (now user_id : Z) (plan : WorkoutPlanData)
    (d d' : DB) (result : option Z) :
  save_workout_plan_body schema now user_id plan d = Returned result d' ->
  exists plan_id (saved : list (WorkoutDayRow * list WorkoutExerciseRow)) added,
    result = Some plan_id /\
    d' = append_workout
           [mkWorkoutPlan plan_id user_id
                          (dict_get (plan_fields plan) "name")
                          (dict_get (plan_fields plan) "description")
                          (dict_get (plan_fields plan) "duration_weeks")
                          (dict_get_default (plan_fields plan) "ai_generated" py_True)
                          (dict_get (plan_fields plan) "gemini_prompt")
                          now]
           (map fst saved) added (concat (map snd saved)) d /\
    Forall2 (day_saved (exercises d ++ added) plan_id) (plan_days plan) saved /\
    StronglySorted Z.lt (map (fun s => wd_id (fst s)) saved) /\
    (catalog_wf (exercises d) -> catalog_wf (exercises d ++ added)).
Proof.
  unfold save_workout_plan_body. intros (plan_id & d1 & Hins & H)%bind_returned.
  unfold insert_workout_plan in Hins.
  destruct (workout_plans_ok schema d _); [|discriminate].
  injection Hins as <- <-.
  apply bind_returned in H as ([] & d2 & Hdays & H). injection H as <- <-.
  apply save_days_returned in Hdays as (saved & added & -> & Hsaved & Hsorted & _ & Hwf).
  exists (next_rowid (map wp_id (workout_plans d))), saved, added. split; [reflexivity|].
  split; [|split; [exact Hsaved | split; [exact Hsorted | exact Hwf]]].
  unfold append_workout, set_workout_plans. simpl. now rewrite !app_nil_r.
Qed.

Lemma save_workout_plan_committed (now user_id : Z) (plan : WorkoutPlanData)
    (d d' : DB) (plan_id : Z) :
  save_workout_plan schema now user_id plan d = (Some plan_id, d') ->
  workout_plan_saved now user_id plan plan_id d d'.
Proof.
  unfold save_workout_plan, with_connection.
  destruct (save_workout_plan_body schema now user_id plan d) as [r d1|e d1] eqn:E;
    [|discriminate].
  intros [= -> ->].
  apply save_workout_plan_body_returned in E
    as (pid & saved & added & [= <-] & -> & Hsaved & _ & _).
  exists saved, added. split; [reflexivity | exact Hsaved].
Qed.

End SaveWorkoutPlan.

Lemma append_diet_nil (d : DB) : append_diet [] [] [] d = d.
Proof. destruct d. unfold append_diet. simpl. now rewrite !app_nil_r. Qed.

Lemma append_diet_compose ps1 ms1 ss1 ps2 ms2 ss2 (d : DB) :
  append_diet ps2 ms2 ss2 (append_diet ps1 ms1 ss1 d)
  = append_diet (ps1 ++ ps2) (ms1 ++ ms2) (ss1 ++ ss2) d.
Proof. unfold append_diet. simpl. now rewrite <- !app_assoc. Qed.

Lemma for_each_total {A : Type} (P : A -> Prop) (body : A -> conn unit) (xs : list A) :
  (forall x d, P x -> exists d', body x d = Returned tt d') ->
  Forall P xs ->
  forall d, exists d', for_each body xs d = Returned tt d'.
Proof.
  intros Hbody. induction 1 as [|x xs Hx _ IH]; intros d; simpl.
  - now exists d.
  - destruct (Hbody x d Hx) as [d1 H1]. destruct (IH d1) as [d' H'].
    exists d'. unfold mbind, conn_bind. now rewrite H1.
Qed.

Lemma fetchone_filter_exists {A : Type} (p : A -> bool) (l : list A) :
  existsb p l = true -> exists x, fetchone (List.filter p l) = Some x.
Proof.
  induction l as [|y l IH]; simpl; [discriminate|].
  destruct (p y); simpl; [eauto | exact IH].
Qed.

Section SaveTotal.

Variable schema : Schema.
Hypothesis accepts : accepts_all schema.

Lemma save_exercise_total (day_id : Z) (ex : gmap string sqlval) (d : DB) :
  dict_get ex "name" <> VNull ->
  exists d', save_exercise schema day_id ex d = Returned tt d'.
Proof.
  destruct accepts as (_ & _ & Hex & Hlink & _).
  intros Hname. unfold save_exercise, mbind, conn_bind, get_db, insert_or_ignore_exercise.
  rewrite Hex. simpl. rewrite orb_false_r.
  destruct (existsb _ (exercises d)) eqn:E.
  - apply fetchone_filter_exists in E as [found Hf].
    unfold select_exercises_by_name. rewrite Hf.
    unfold insert_workout_exercise. rewrite Hlink. eauto.
  - simpl. rewrite select_exercises_app. simpl. rewrite (sql_eq_refl _ Hname).
    destruct (select_exercises_by_name _ (exercises d)); simpl;
      unfold insert_workout_exercise; rewrite Hlink; eauto.
Qed.

Lemma save_day_total (plan_id : Z) (day : DayData) (d : DB) :
  Forall (fun ex => dict_get ex "name" <> VNull) (day_exercises day) ->
  exists d', save_day schema plan_id day d = Returned tt d'.
Proof.
  destruct accepts as (_ & Hday & _).
  intros Hnames. unfold save_day, mbind, conn_bind, insert_workout_day.
  rewrite Hday.
  apply (for_each_total (fun ex => dict_get ex "name" <> VNull)); [|exact Hnames].
  intros ex d0 Hex. now apply save_exercise_total.
Qed.

Lemma save_workout_plan_total (now user_id : Z) (plan : WorkoutPlanData) (d : DB) :
  all_named plan ->
  exists plan_id d', save_workout_plan schema now user_id plan d = (Some plan_id, d').
Proof.
  destruct accepts as (Hplan & _).
  intros Hnames. unfold save_workout_plan, with_connection, save_workout_plan_body.
  unfold mbind, conn_bind, insert_workout_plan. rewrite Hplan.
  edestruct (for_each_total
               (fun day => Forall (fun ex => dict_get ex "name" <> VNull) (day_exercises day))
               (save_day schema (next_rowid (map wp_id (workout_plans d))))
               (plan_days plan)) as [d' H'].
  - intros day d0 Hday. apply save_day_total. exact Hday.
  - exact Hnames.
  - simpl. rewrite H'. simpl. eauto.
Qed.

End SaveTotal.

Lemma nodup_map_inj {A : Type} (f : A -> Z) (l : list A) (a b : A) :
  List.NoDup (map f l) -> In a l -> In b l -> f a = f b -> a = b.
Proof.
  induction l as [|x l IH]; simpl; intros Hnd Ha Hb Hf; [destruct Ha|].
  apply NoDup_cons_iff in Hnd as [Hx Hnd].
  destruct Ha as [->|Ha], Hb as [->|Hb]; auto.
  - exfalso. apply Hx. rewrite Hf. now apply in_map.
  - exfalso. apply Hx. rewrite <- Hf. now apply in_map.
Qed.

(** Among the links of one day, those that point to the catalog row of a
    name are the links of the exercises with that name. *)
Lemma links_to_named (catalog : list ExerciseRow) (day_id : Z) (name : string)
    (push : ExerciseRow) (exs : list (gmap string sqlval)) (links : list WorkoutExerciseRow) :
  List.NoDup (map e_id catalog) ->
  select_exercises_by_name (VText name) catalog = [push] ->
  Forall2 (link_saved catalog day_id) exs links ->
  Forall (fun l => we_workout_day_id l = day_id)
         (List.filter (fun l => we_exercise_id l =? e_id push) links) /\
  length (List.filter (fun l => we_exercise_id l =? e_id push) links) = count_named name exs.
Proof.
  intros Hnd Hpush. unfold count_named.
  assert (Hpin : In push catalog /\ sql_eq (e_name push) (VText name) = true).
  { apply (proj1 (filter_In (fun e => sql_eq (e_name e) (VText name)) push catalog)).
    unfold select_exercises_by_name in Hpush. rewrite Hpush. now left. }
  destruct Hpin as [Hpin Hpname].
  induction 1 as [|ex link exs links Hlink _ IH]; simpl; [split; [constructor | reflexivity]|].
  destruct IH as [IHday IHlen].
  destruct Hlink as (found & Hfound & Hday & Hid & _).
  assert (Hfin : In found catalog /\ sql_eq (e_name found) (dict_get ex "name") = true).
  { apply (proj1 (filter_In (fun e => sql_eq (e_name e) (dict_get ex "name")) found catalog)).
    now apply fetchone_some_in in Hfound. }
  destruct Hfin as [Hfin Hfname].
  assert (Heq : (we_exercise_id link =? e_id push)
                = sql_eq (dict_get ex "name") (VText name)).
  { rewrite Hid. destruct (sql_eq (dict_get ex "name") (VText name)) eqn:E.
    - apply sql_eq_true in E. rewrite E in Hfound.
      rewrite Hpush in Hfound. injection Hfound as <-. apply Z.eqb_refl.
    - apply Z.eqb_neq. intros Hids.
      assert (found = push) by (eapply nodup_map_inj; eauto). subst found.
      apply sql_eq_true in Hfname. apply sql_eq_true in Hpname.
      rewrite <- Hfname, Hpname in E. simpl in E. now rewrite String.eqb_refl in E. }
  rewrite Heq. destruct (sql_eq (dict_get ex "name") (VText name)); simpl.
  - split; [constructor; assumption | now rewrite IHlen].
  - split; assumption.
Qed.

Lemma length_one_forall {A : Type} (P : A -> Prop) (l : list A) :
  length l = 1%nat -> Forall P l -> exists x, l = [x] /\ P x.
Proof.
  destruct l as [|x [|y l]]; simpl; try discriminate.
  intros _ H. exists x. split; [reflexivity|]. now inversion H.
Qed.

Lemma count_named_exists (name : string) (exs : list (gmap string sqlval)) :
  count_named name exs = 1%nat ->
  exists ex, In ex exs /\ dict_get ex "name" = VText name.
Proof.
  unfold count_named. intros H.
  destruct (List.filter _ exs) as [|ex l] eqn:E; [discriminate|].
  assert (Hin : In ex (List.filter (fun ex => sql_eq (dict_get ex "name") (VText name)) exs))
    by (rewrite E; now left).
  apply filter_In in Hin as [Hin Hn%sql_eq_true]. eauto.
Qed.

Lemma Forall2_in_l {A B : Type} (R : A -> B -> Prop) (l : list A) (k : list B) (x : A) :
  Forall2 R l k -> In x l -> exists y, In y k /\ R x y.
Proof.
  induction 1 as [|a b l k Hab _ IH]; simpl; [tauto|].
  intros [->|Hx]; [eauto|]. destruct (IH Hx) as (y & Hy & HR). eauto.
Qed.

(** C1. Let the catalog satisfy its UNIQUE constraints and let the payload
    have two days, each with one exercise named [Push-ups].  When
    [save_workout_plan] returns a plan id, the catalog has exactly one row
    named [Push-ups]; two day rows were appended, with different ids; and
    among the link rows appended exactly two point to that catalog row, the
    first under the first day and the second under the second day.  The
    save does return a plan id when the schema rejects none of its rows and
    every exercise has a name. *)
Theorem save_workout_plan_shares_push_ups (schema : Schema) (now user_id : Z)
    (plan_data : WorkoutPlanData) (d : DB) (day1 day2 : DayData) :
  catalog_wf (exercises d) ->
  plan_days plan_data = [day1; day2] ->
  count_named "Push-ups" (day_exercises day1) = 1%nat ->
  count_named "Push-ups" (day_exercises day2) = 1%nat ->
  (forall plan_id d',
      save_workout_plan schema now user_id plan_data d = (Some plan_id, d') ->
      exists push r1 r2 l1 l2 links,
        select_exercises_by_name (VText "Push-ups") (exercises d') = [push] /\
        workout_days d' = workout_days d ++ [r1; r2] /\
        wd_id r1 <> wd_id r2 /\
        workout_exercises d' = workout_exercises d ++ links /\
        List.filter (fun l => we_exercise_id l =? e_id push) links = [l1; l2] /\
        we_workout_day_id l1 = wd_id r1 /\
        we_workout_day_id l2 = wd_id r2) /\
  (accepts_all schema -> all_named plan_data ->
   exists plan_id d', save_workout_plan schema now user_id plan_data d = (Some plan_id, d')).
Proof.
  intros Hwf Hdays Hc1 Hc2. split; [|intros; now apply save_workout_plan_total].
  intros plan_id d'. unfold save_workout_plan, with_connection.
  destruct (save_workout_plan_body schema now user_id plan_data d) as [r d1|e d1] eqn:E;
    [|discriminate].
  intros [= -> ->].
  apply save_workout_plan_body_returned in E
    as (pid & saved & added & [= <-] & -> & Hsaved & Hsorted & Hwf').
  specialize (Hwf' Hwf). rewrite Hdays in Hsaved.
  inversion Hsaved as [|? [r1 ls1] ? saved1 Hd1 Hrest]; subst.
  inversion Hrest as [|? [r2 ls2] ? saved2 Hd2 Hrest2]; subst.
  inversion Hrest2; subst. clear Hsaved Hrest Hrest2.
  destruct Hd1 as (_ & _ & _ & _ & Hls1). destruct Hd2 as (_ & _ & _ & _ & Hls2).
  simpl in Hls1, Hls2.
  set (catalog := exercises d ++ added) in *.
  destruct (count_named_exists _ _ Hc1) as (ex & Hex & Hname).
  destruct (Forall2_in_l _ _ _ _ Hls1 Hex) as (link & _ & found & Hfound & _).
  rewrite Hname in Hfound.
  assert (Hpush : select_exercises_by_name (VText "Push-ups") catalog = [found]).
  { destruct Hwf' as [_ Hnames]. specialize (Hnames (VText "Push-ups")).
    destruct (select_exercises_by_name (VText "Push-ups") catalog) as [|x [|y l]];
      simpl in *; [discriminate | congruence | lia]. }
  destruct (links_to_named catalog (wd_id r1) "Push-ups" found _ _ (proj1 Hwf') Hpush Hls1)
    as [Hday1 Hlen1].
  destruct (links_to_named catalog (wd_id r2) "Push-ups" found _ _ (proj1 Hwf') Hpush Hls2)
    as [Hday2 Hlen2].
  rewrite Hc1 in Hlen1. rewrite Hc2 in Hlen2.
  destruct (length_one_forall _ _ Hlen1 Hday1) as (l1 & Hl1 & Hl1day).
  destruct (length_one_forall _ _ Hlen2 Hday2) as (l2 & Hl2 & Hl2day).
  exists found, r1, r2, l1, l2, (ls1 ++ ls2).
  simpl. rewrite app_nil_r.
  split; [exact Hpush|]. split; [reflexivity|].
  split.
  { simpl in Hsorted. apply StronglySorted_inv in Hsorted as [_ Hlt].
    apply Forall_inv in Hlt. lia. }
  split; [reflexivity|].
  split; [now rewrite List.filter_app, Hl1, Hl2 | auto].
Qed.

Lemma example_plans_catalog_wf : catalog_wf (exercises example_plans).
Proof.
  split.
  - simpl. repeat constructor. simpl. tauto.
  - intros name. unfold select_exercises_by_name.
    etransitivity; [apply List.filter_length_le | simpl; lia].
Qed.

Lemma save_workout_plan_shares_push_ups_witness :
  let d' := snd (save_workout_plan permissive_schema 0 7 example_plan_data example_plans) in
  exists push r1 r2 l1 l2 links,
    select_exercises_by_name (VText "Push-ups") (exercises d') = [push] /\
    workout_days d' = workout_days example_plans ++ [r1; r2] /\
    wd_id r1 <> wd_id r2 /\
    workout_exercises d' = workout_exercises example_plans ++ links /\
    List.filter (fun l => we_exercise_id l =? e_id push) links = [l1; l2] /\
    we_workout_day_id l1 = wd_id r1 /\
    we_workout_day_id l2 = wd_id r2.
Proof.
  refine (proj1 (save_workout_plan_shares_push_ups permissive_schema 0 7
                   example_plan_data example_plans _ _
                   example_plans_catalog_wf eq_refl eq_refl eq_refl) 3 _ _).
  vm_compute. reflexivity.
Defined.

(** The same payload, computed: the catalog keeps its one [Push-ups] row
    and gains [Squats]; links 3 and 5 point to row 1 from days 3 and 4. *)
Example save_workout_plan_example :
  let d' := snd (save_workout_plan permissive_schema 0 7 example_plan_data example_plans) in
  map (fun e => (e_id e, e_name e)) (exercises d')
    = [(1, VText "Push-ups"); (2, VText "Squats")] /\
  map (fun l => (we_id l, we_workout_day_id l, we_exercise_id l))
      (skipn 2 (workout_exercises d'))
    = [(3, 3, 1); (4, 3, 2); (5, 4, 1)].
Proof. vm_compute. split; reflexivity. Qed.

Section SaveDietPlan.

Variable schema : Schema.

Lemma save_meals_returned (plan_id : Z) (meals : list (gmap string sqlval)) (d d' : DB) :
  for_each (save_meal schema plan_id) meals d = Returned tt d' ->
  exists rows, d' = append_diet [] rows [] d /\ Forall2 (meal_saved plan_id) meals rows.
Proof.
  revert d. induction meals as [|meal meals IH]; intros d H.
  - injection H as <-. exists []. rewrite append_diet_nil. split; [reflexivity | constructor].
  - apply for_each_cons_returned in H as (d1 & H1 & H).
    unfold save_meal in H1. apply bind_returned in H1 as (id & d0 & Hins & Hret).
    injection Hret as <-. unfold insert_meal_plan in Hins.
    destruct (meal_plans_ok schema d _); [|discriminate]. injection Hins as _ <-.
    apply IH in H as (rows & -> & Hrows).
    eexists (_ :: rows). split; [|constructor; [|exact Hrows]].
    + unfold append_diet, set_meal_plans. simpl. rewrite !app_nil_r, <- !app_assoc.
      reflexivity.
    + reflexivity.
Qed.

Lemma save_shopping_items_returned (user_id plan_id : Z)
    (items : list (gmap string sqlval)) (d d' : DB) :
  for_each (save_shopping_item schema user_id plan_id) items d = Returned tt d' ->
  exists rows, d' = append_diet [] [] rows d /\
               Forall2 (shopping_item_saved user_id plan_id) items rows.
Proof.
  revert d. induction items as [|item items IH]; intros d H.
  - injection H as <-. exists []. rewrite append_diet_nil. split; [reflexivity | constructor].
  - apply for_each_cons_returned in H as (d1 & H1 & H).
    unfold save_shopping_item in H1. apply bind_returned in H1 as (id & d0 & Hins & Hret).
    injection Hret as <-. unfold insert_shopping_list in Hins.
    destruct (shopping_lists_ok schema d _); [|discriminate]. injection Hins as _ <-.
    apply IH in H as (rows & -> & Hrows).
    eexists (_ :: rows). split; [|constructor; [|exact Hrows]].
    + unfold append_diet, set_shopping_lists. simpl. rewrite !app_nil_r, <- !app_assoc.
      reflexivity.
    + reflexivity.
Qed.

Lemma save_diet_plan_committed (now user_id : Z) (diet : DietPlanData)
    (d d' : DB) (plan_id : Z) :
  save_diet_plan schema now user_id diet d = (Some plan_id, d') ->
  diet_plan_saved now user_id diet plan_id d d'.
Proof.
  unfold save_diet_plan, with_connection.
  destruct (save_diet_plan_body schema now user_id diet d) as [r d1|e d1] eqn:E;
    [|discriminate].
  intros [= -> ->]. unfold save_diet_plan_body in E.
  apply bind_returned in E as (pid & d0 & Hins & E).
  unfold insert_diet_plan in Hins.
  destruct (diet_plans_ok schema d _); [|discriminate]. injection Hins as <- <-.
  apply bind_returned in E as ([] & d2 & Hmeals & E).
  apply bind_returned in E as ([] & d3 & Hitems & E).
  injection E as <- <-.
  apply save_meals_returned in Hmeals as (meals & -> & Hmeals).
  apply save_shopping_items_returned in Hitems as (items & -> & Hitems).
  exists meals, items. split; [|split; assumption].
  unfold append_diet, set_diet_plans. simpl. now rewrite !app_nil_r.
Qed.

End SaveDietPlan.

(** C2. [save_workout_plan] and [save_diet_plan] are all or nothing.  Each
    either returns [None] with the database exactly as it was before the
    call, or returns a plan id with the database extended by the plan row
    and by a row for every day and exercise link, or for every meal and
    shopping-list item, of the payload. *)
Theorem saves_are_atomic (schema : Schema) (now user_id : Z)
    (plan_data : WorkoutPlanData) (diet_data : DietPlanData) (d : DB) :
  (save_workout_plan schema now user_id plan_data d = (None, d) \/
   exists plan_id d',
     save_workout_plan schema now user_id plan_data d = (Some plan_id, d') /\
     workout_plan_saved now user_id plan_data plan_id d d') /\
  (save_diet_plan schema now user_id diet_data d = (None, d) \/
   exists plan_id d',
     save_diet_plan schema now user_id diet_data d = (Some plan_id, d') /\
     diet_plan_saved now user_id diet_data plan_id d d').
Proof.
  split.
  - destruct (save_workout_plan schema now user_id plan_data d) as [[pid|] d'] eqn:E.
    + right. exists pid, d'. split; [reflexivity|].
      now apply (save_workout_plan_committed schema).
    + left. unfold save_workout_plan, with_connection in E.
      destruct (save_workout_plan_body schema now user_id plan_data d) as [r d1|e d1] eqn:B.
      * apply save_workout_plan_body_returned in B as (? & ? & ? & -> & _). discriminate.
      * now injection E as <-.
  - destruct (save_diet_plan schema now user_id diet_data d) as [[pid|] d'] eqn:E.
    + right. exists pid, d'. split; [reflexivity|].
      now apply (save_diet_plan_committed schema).
    + left. unfold save_diet_plan, with_connection in E.
      destruct (save_diet_plan_body schema now user_id diet_data d) as [r d1|e d1] eqn:B.
      * unfold save_diet_plan_body in B.
        apply bind_returned in B as (? & ? & _ & B).
        apply bind_returned in B as (? & ? & _ & B).
        apply bind_returned in B as (? & ? & _ & B).
        injection B as <- <-. discriminate.
      * now injection E as <-.
Qed.

(** A save that fails partway.  The second day's exercise has no name:
    the block raises after the plan row, both day rows and the first link
    were written to the working copy, and the method returns [None] with
    the database unchanged. *)
Example save_workout_plan_rolls_back :
  (exists working,
      save_workout_plan_body permissive_schema 0 7 example_broken_plan_data example_plans
        = Raised TypeError working /\
      length (workout_plans working) = 3%nat /\
      length (workout_days working) = 4%nat /\
      length (workout_exercises working) = 3%nat) /\
  save_workout_plan permissive_schema 0 7 example_broken_plan_data example_plans
    = (None, example_plans).
Proof. split; [eexists; split; [vm_compute; reflexivity | repeat split] | reflexivity]. Qed.

(** The second meal breaks a constraint of [meal_plans]: the plan row and
    the first meal were written, and nothing of them is kept. *)
Example save_diet_plan_rolls_back :
  (exists working,
      save_diet_plan_body meal_type_required 0 7 example_broken_diet_data example_plans
        = Raised IntegrityError working /\
      length (diet_plans working) = 3%nat /\
      length (meal_plans working) = 3%nat) /\
  save_diet_plan meal_type_required 0 7 example_broken_diet_data example_plans
    = (None, example_plans).
Proof. split; [eexists; split; [vm_compute; reflexivity | repeat split] | reflexivity]. Qed.

Lemma saves_are_atomic_witness :
  (exists plan_id d',
      save_workout_plan permissive_schema 0 7 example_plan_data example_plans
        = (Some plan_id, d') /\
      workout_plan_saved 0 7 example_plan_data plan_id example_plans d') /\
  (exists plan_id d',
      save_diet_plan permissive_schema 0 7 example_diet_data example_plans
        = (Some plan_id, d') /\
      diet_plan_saved 0 7 example_diet_data plan_id example_plans d').
Proof.
  destruct (saves_are_atomic permissive_schema 0 7 example_plan_data example_diet_data
              example_plans) as [[Hw|Hw] [Hd|Hd]];
    try (vm_compute in Hw; discriminate Hw); try (vm_compute in Hd; discriminate Hd).
  split; assumption.
Defined.

(** * Further properties of the persistence layer *)

(** ** Accounts *)

Lemma nodup_snoc {A : Type} (l : list A) (x : A) :
  List.NoDup l -> ~ In x l -> List.NoDup (l ++ [x]).
Proof.
  intros Hl Hx. apply List.NoDup_app; [assumption | repeat constructor; tauto |].
  intros a Ha [<-|[]]. contradiction.
Qed.

(** X1. [create_user] keeps the UNIQUE constraints of [users]: ids,
    usernames and e-mail addresses stay pairwise different.  It appends at
    most one row, changes no existing row and touches no other table. *)
Theorem create_user_keeps_users_unique (sha : string -> string) (salt : string) (now : Z)
    (username email password : string) (user_data : option (gmap string sqlval)) (d : DB) :
  users_wf (users d) ->
  let d' := snd (create_user sha salt now username email password user_data d) in
  users_wf (users d') /\
  exists added, (length added <= 1)%nat /\ d' = set_users (fun us => us ++ added) d.
Proof.
  intros (Hids & Hnames & Hemails) d'. subst d'.
  destruct (select_users_by_username_or_email username email (users d)) as [|u l] eqn:E.
  - assert (Hfresh : forall u, In u (users d) -> u_username u <> username /\ u_email u <> email).
    { intros u Hu. split; intros Heq.
      - assert (H : In u (select_users_by_username_or_email username email (users d)))
          by (apply select_users_in; auto).
        rewrite E in H. destruct H.
      - assert (H : In u (select_users_by_username_or_email username email (users d)))
          by (apply select_users_in; auto).
        rewrite E in H. destruct H. }
    rewrite (create_user_fresh sha salt now username email password user_data d Hfresh).
    cbn [snd]. split.
    + unfold users_wf. simpl. rewrite !map_app. simpl. repeat split.
      * apply nodup_snoc; [assumption | apply next_rowid_fresh].
      * apply nodup_snoc; [assumption|].
        intros (v & Hv & Hin)%in_map_iff. destruct (Hfresh v Hin). contradiction.
      * apply nodup_snoc; [assumption|].
        intros (v & Hv & Hin)%in_map_iff. destruct (Hfresh v Hin). contradiction.
    + eexists [_]. split; [simpl; lia | reflexivity].
  - rewrite create_user_conflict.
    + cbn [snd]. split; [repeat split; assumption|].
      exists []. split; [simpl; lia|].
      destruct d. unfold set_users. simpl. now rewrite app_nil_r.
    + exists u. apply select_users_in. rewrite E. now left.
Qed.

Lemma example_accounts_wf : users_wf (users example_accounts).
Proof. repeat split; simpl; repeat constructor; simpl; tauto. Qed.

Lemma create_user_keeps_users_unique_witness :
  users_wf (users (snd (create_user hex_encode example_salt 0 "alice" "a@x.com" "secret1"
                                     None example_accounts))).
Proof.
  apply (create_user_keeps_users_unique hex_encode example_salt 0 "alice" "a@x.com"
           "secret1" None example_accounts example_accounts_wf).
Defined.

(** ** Sessions *)

Lemma select_session_users_in (d : DB) (session_token : string) (now : Z) (u : UserRow) :
  In u (select_session_users d session_token now) <->
  exists s, In s (user_sessions d) /\ s_session_token s = session_token /\
            now < s_expires_at s /\ In u (users d) /\ u_id u = s_user_id s.
Proof.
  unfold select_session_users. rewrite in_flat_map. split.
  - intros (s & [Hs [Htok Hexp]%andb_prop]%filter_In & [Hu Hid]%filter_In).
    exists s. repeat split; try assumption.
    + now apply String.eqb_eq.
    + now apply Z.ltb_lt.
    + now apply Z.eqb_eq.
  - intros (s & Hs & Htok & Hexp & Hu & Hid). exists s. split.
    + apply filter_In. split; [assumption|]. apply andb_true_intro.
      split; [now apply String.eqb_eq | now apply Z.ltb_lt].
    + apply filter_In. split; [assumption | now apply Z.eqb_eq].
Qed.

(** X3. [validate_session] returns a user only for a stored session with
    that token whose expiry is still ahead and whose [user_id] is the id of
    that user's row; it returns nothing exactly when no stored session
    with the token is both unexpired and owned by an existing user. *)
Theorem validate_session_sound_and_complete (d : DB) (session_token : string) (now : Z) :
  (forall u, validate_session d session_token now = Some u ->
     exists s, In s (user_sessions d) /\ s_session_token s = session_token /\
               now < s_expires_at s /\ In u (users d) /\ u_id u = s_user_id s) /\
  (validate_session d session_token now = None <->
   forall s u, In s (user_sessions d) -> In u (users d) ->
               s_session_token s = session_token -> u_id u = s_user_id s ->
               s_expires_at s <= now).
Proof.
  unfold validate_session. split.
  - intros u Hu. apply select_session_users_in. now apply fetchone_some_in.
  - split.
    + intros Hnone s u Hs Hu Htok Hid.
      destruct (Z.le_gt_cases (s_expires_at s) now) as [|Hlt]; [assumption|].
      assert (Hin : In u (select_session_users d session_token now)).
      { apply select_session_users_in. exists s. repeat split; try assumption; lia. }
      destruct (select_session_users d session_token now); [destruct Hin | discriminate].
    + intros Hall. destruct (select_session_users d session_token now) as [|u l] eqn:E;
        [reflexivity|].
      assert (Hin : In u (select_session_users d session_token now)) by (rewrite E; now left).
      apply select_session_users_in in Hin as (s & Hs & Htok & Hexp & Hu & Hid).
      specialize (Hall s u Hs Hu Htok Hid). lia.
Qed.

(** A session of a user id that has no row validates to nothing. *)
Lemma validate_session_sound_and_complete_witness :
  validate_session
    (set_user_sessions (fun _ => [mkSession 1 99 "orphan" 5000]) example_accounts)
    "orphan" 1000 = None.
Proof.
  apply (proj2 (validate_session_sound_and_complete
                  (set_user_sessions (fun _ => [mkSession 1 99 "orphan" 5000]) example_accounts)
                  "orphan" 1000)).
  intros s u [<-|[]] [<-|[]] _ Hid. discriminate Hid.
Defined.

Lemma create_session_appends (schema : Schema) (session_token : string) (now : Z)
    (user_id : Z) (duration_hours : option Z) (d : DB) :
  exists added,
    snd (create_session schema session_token now user_id duration_hours d)
      = set_user_sessions (fun rs => rs ++ added) d /\
    Forall (fun s => s_session_token s = session_token) added.
Proof.
  unfold create_session, with_connection, mbind, conn_bind, insert_session.
  destruct (user_sessions_ok schema d _).
  - eexists [_]. split; [reflexivity|]. repeat constructor.
  - exists []. split; [|constructor].
    destruct d. unfold set_user_sessions. simpl. now rewrite app_nil_r.
Qed.

(** X4. [create_session] leaves the sessions that exist alone: a token that
    validated to a user before still validates to that user afterwards,
    and for every token other than the new one the result of
    [validate_session] is unchanged.  A user can hold several live
    sessions. *)
Theorem create_session_keeps_sessions (schema : Schema) (session_token : string) (now : Z)
    (user_id : Z) (duration_hours : option Z) (d : DB) :
  let d' := snd (create_session schema session_token now user_id duration_hours d) in
  users d' = users d /\
  (forall other t u,
      validate_session d other t = Some u -> validate_session d' other t = Some u) /\
  (forall other t,
      other <> session_token -> validate_session d' other t = validate_session d other t).
Proof.
  intros d'. subst d'.
  destruct (create_session_appends schema session_token now user_id duration_hours d)
    as (added & -> & Hadded).
  assert (Hsel : forall other t,
             select_session_users (set_user_sessions (fun rs => rs ++ added) d) other t
             = select_session_users d other t
               ++ select_session_users (set_user_sessions (fun _ => added) d) other t).
  { intros other t. unfold select_session_users. simpl.
    now rewrite List.filter_app, flat_map_app. }
  split; [reflexivity|]. split.
  - intros other t u H. unfold validate_session in *. rewrite Hsel. now apply fetchone_app.
  - intros other t Hne. unfold validate_session. rewrite Hsel.
    replace (select_session_users (set_user_sessions (fun _ => added) d) other t) with
      (@nil UserRow); [now rewrite app_nil_r|].
    unfold select_session_users. simpl. rewrite filter_none; [reflexivity|].
    intros s Hs. rewrite List.Forall_forall in Hadded. rewrite (Hadded s Hs).
    destruct (String.eqb_spec session_token other); [congruence | reflexivity].
Qed.

Lemma create_session_keeps_sessions_witness :
  let d := set_user_sessions (fun _ => [mkSession 1 1 "first" 5000]) example_accounts in
  validate_session (snd (create_session permissive_schema "second" 1000 1 None d)) "first" 1000
  = Some (example_user 1 "bob" "alice" "salt:digest").
Proof.
  intros d.
  apply (proj1 (proj2 (create_session_keeps_sessions permissive_schema "second" 1000 1 None d))).
  reflexivity.
Defined.

(** ** Saved workout plans *)

Lemma save_workout_plan_cases (schema : Schema) (now user_id : Z)
    (plan : WorkoutPlanData) (d : DB) :
  save_workout_plan schema now user_id plan d = (None, d) \/
  exists (saved : list (WorkoutDayRow * list WorkoutExerciseRow)) added,
    let plan_id := next_rowid (map wp_id (workout_plans d)) in
    save_workout_plan schema now user_id plan d
      = (Some plan_id,
         append_workout
           [mkWorkoutPlan plan_id user_id
                          (dict_get (plan_fields plan) "name")
                          (dict_get (plan_fields plan) "description")
                          (dict_get (plan_fields plan) "duration_weeks")
                          (dict_get_default (plan_fields plan) "ai_generated" py_True)
                          (dict_get (plan_fields plan) "gemini_prompt")
                          now]
           (map fst saved) added (concat (map snd saved)) d) /\
    Forall2 (day_saved (exercises d ++ added) plan_id) (plan_days plan) saved /\
    Forall (fun s => forall x, In x (map wd_id (workout_days d)) -> x < wd_id (fst s)) saved /\
    (catalog_wf (exercises d) -> catalog_wf (exercises d ++ added)).
Proof.
  unfold save_workout_plan, with_connection.
  destruct (save_workout_plan_body schema now user_id plan d) as [r d1|e d1] eqn:E;
    [right | now left].
  unfold save_workout_plan_body in E.
  apply bind_returned in E as (plan_id & d0 & Hins & E).
  unfold insert_workout_plan in Hins.
  destruct (workout_plans_ok schema d _); [|discriminate].
  injection Hins as <- <-.
  apply bind_returned in E as ([] & d2 & Hdays & E). injection E as <- <-.
  apply save_days_returned in Hdays as (saved & added & -> & Hsaved & _ & Hfresh & Hwf).
  exists saved, added. cbn zeta. split; [|split; [exact Hsaved | split; [exact Hfresh | exact Hwf]]].
  f_equal. unfold append_workout, set_workout_plans. simpl. now rewrite !app_nil_r.
Qed.

(** X5. [save_workout_plan] keeps the UNIQUE constraints of the catalog,
    whether it succeeds or fails.  It only appends to the catalog; the row
    a name selected before the call is the row it selects afterwards. *)
Theorem save_workout_plan_keeps_catalog (schema : Schema) (now user_id : Z)
    (plan_data : WorkoutPlanData) (d : DB) :
  catalog_wf (exercises d) ->
  let d' := snd (save_workout_plan schema now user_id plan_data d) in
  catalog_wf (exercises d') /\
  (exists added, exercises d' = exercises d ++ added) /\
  (forall name old,
      fetchone (select_exercises_by_name name (exercises d)) = Some old ->
      fetchone (select_exercises_by_name name (exercises d')) = Some old).
Proof.
  intros Hwf d'. subst d'.
  destruct (save_workout_plan_cases schema now user_id plan_data d)
    as [->|(saved & added & -> & _ & _ & Hwf')]; cbn [snd].
  - split; [assumption|]. split; [exists []; now rewrite app_nil_r | auto].
  - simpl. split; [auto|]. split; [now exists added|].
    intros name old H. rewrite select_exercises_app. now apply fetchone_app.
Qed.

Lemma save_workout_plan_keeps_catalog_witness :
  catalog_wf (exercises (snd (save_workout_plan permissive_schema 0 7 example_plan_data
                                example_plans))).
Proof.
  apply (save_workout_plan_keeps_catalog permissive_schema 0 7 example_plan_data example_plans
           example_plans_catalog_wf).
Defined.

(** X6. An exercise whose name is in the catalog already is not stored
    again.  When the catalog's UNIQUE constraints hold, after a successful
    save every link row of such an exercise points to the row that was
    there, and that row is still the only catalog row of the name: none of
    the rows the save added carries it, so the category, equipment and
    instructions of the payload are stored nowhere for it. *)
Theorem save_workout_plan_reuses_catalog_rows (schema : Schema) (now user_id : Z)
    (plan_data : WorkoutPlanData) (d d' : DB) (plan_id : Z) :
  catalog_wf (exercises d) ->
  save_workout_plan schema now user_id plan_data d = (Some plan_id, d') ->
  exists (saved : list (WorkoutDayRow * list WorkoutExerciseRow)) (added : list ExerciseRow),
    workout_exercises d' = workout_exercises d ++ concat (map snd saved) /\
    exercises d' = exercises d ++ added /\
    Forall2 (fun day s =>
               Forall2 (fun ex link =>
                          forall old,
                            fetchone (select_exercises_by_name (dict_get ex "name")
                                        (exercises d)) = Some old ->
                            we_exercise_id link = e_id old /\
                            select_exercises_by_name (dict_get ex "name") (exercises d')
                            = [old] /\
                            select_exercises_by_name (dict_get ex "name") added = [])
                       (day_exercises day) (snd s))
            (plan_days plan_data) saved.
Proof.
  intros Hwf Hsave.
  destruct (save_workout_plan_cases schema now user_id plan_data d)
    as [Hnone|(saved & added & Hsome & Hsaved & _ & Hwf')];
    rewrite Hsave in *; [discriminate|].
  injection Hsome as -> ->. exists saved, added.
  split; [reflexivity|]. split; [reflexivity|].
  specialize (Hwf' Hwf). destruct Hwf as [_ Hone], Hwf' as [_ Hone'].
  eapply Forall2_impl; [exact Hsaved|].
  intros day s (_ & _ & _ & _ & Hlinks).
  eapply Forall2_impl; [exact Hlinks|].
  intros ex link (found & Hfound & _ & Hid & _) old Hold.
  cbn [exercises append_workout].
  set (name := dict_get ex "name") in *.
  rewrite select_exercises_app in Hfound.
  rewrite (fetchone_app _ _ _ Hold) in Hfound. injection Hfound as <-.
  assert (Hd : select_exercises_by_name name (exercises d) = [old]).
  { specialize (Hone name). unfold fetchone in Hold.
    destruct (select_exercises_by_name name (exercises d)) as [|x [|y l]];
      [discriminate | now injection Hold as -> | simpl in Hone; lia]. }
  assert (Hadded : select_exercises_by_name name added = []).
  { specialize (Hone' name). rewrite select_exercises_app, Hd in Hone'.
    destruct (select_exercises_by_name name added); [reflexivity | simpl in Hone'; lia]. }
  split; [assumption|]. split; [|exact Hadded].
  now rewrite select_exercises_app, Hd, Hadded.
Qed.

(** [example_plans] has [Push-ups] in its catalog without a category; the
    payload brings a category and instructions, which are not stored. *)
Lemma save_workout_plan_reuses_catalog_rows_witness :
  select_exercises_by_name (VText "Push-ups")
    (exercises (snd (save_workout_plan permissive_schema 0 7 example_detailed_plan_data
                       example_plans)))
  = [mkExercise 1 (VText "Push-ups") VNull VNull VNull VNull VNull].
Proof.
  destruct (save_workout_plan_reuses_catalog_rows permissive_schema 0 7
              example_detailed_plan_data example_plans
              (snd (save_workout_plan permissive_schema 0 7 example_detailed_plan_data
                      example_plans))
              3) as (saved & added & _ & _ & Hdays).
  - exact example_plans_catalog_wf.
  - vm_compute. reflexivity.
  - unfold example_detailed_plan_data in Hdays. cbn [plan_days] in Hdays.
    inversion Hdays as [|day s days ss Hday _]; subst. cbn [day_exercises] in Hday.
    inversion Hday as [|ex link exs links Hex _]; subst.
    destruct (Hex (mkExercise 1 (VText "Push-ups") VNull VNull VNull VNull VNull))
      as (_ & Honly & _); [vm_compute; reflexivity|].
    exact Honly.
Defined.

Lemma existsb_app_l {A : Type} (p : A -> bool) (l k : list A) :
  existsb p l = true -> existsb p (l ++ k) = true.
Proof. rewrite existsb_app. now intros ->. Qed.

Lemma existsb_app_r {A : Type} (p : A -> bool) (l k : list A) :
  existsb p k = true -> existsb p (l ++ k) = true.
Proof. rewrite existsb_app. intros ->. apply orb_true_r. Qed.

Lemma forallb_weaken {A : Type} (p q : A -> bool) (l : list A) :
  (forall x, p x = true -> q x = true) -> forallb p l = true -> forallb q l = true.
Proof.
  intros Hpq. rewrite !forallb_forall. intros H x Hx. apply Hpq. now apply H.
Qed.

Lemma Forall2_in_r {A B : Type} (R : A -> B -> Prop) (l : list A) (k : list B) (y : B) :
  Forall2 R l k -> In y k -> exists x, In x l /\ R x y.
Proof.
  induction 1 as [|a b l k Hab _ IH]; simpl; [tauto|].
  intros [->|Hy]; [eauto|]. destruct (IH Hy) as (x & Hx & HR). eauto.
Qed.

(** What the link rows of a saved plan point to. *)
Lemma saved_links_resolve (catalog : list ExerciseRow) (plan_id : Z) (days : list DayData)
    (saved : list (WorkoutDayRow * list WorkoutExerciseRow)) (link : WorkoutExerciseRow) :
  Forall2 (day_saved catalog plan_id) days saved ->
  In link (concat (map snd saved)) ->
  (exists s, In s saved /\ we_workout_day_id link = wd_id (fst s)) /\
  (exists found, In found catalog /\ we_exercise_id link = e_id found).
Proof.
  intros Hsaved (links & (s & <- & Hs)%in_map_iff & Hlink)%in_concat.
  destruct (Forall2_in_r _ _ _ _ Hsaved Hs) as (day & _ & _ & _ & _ & _ & Hlinks).
  destruct (Forall2_in_r _ _ _ _ Hlinks Hlink) as (ex & _ & found & Hfound & Hday & Hid & _).
  split; [eauto|]. exists found. split; [|assumption].
  apply fetchone_some_in in Hfound. now apply filter_In in Hfound.
Qed.

(** X7. [save_workout_plan] keeps the references among the workout tables
    resolved: when every log, link and day referred to an existing row
    before the call, the same holds afterwards, the new days pointing to
    the new plan and the new links to the new days and to catalog rows. *)
Theorem save_workout_plan_keeps_references (schema : Schema) (now user_id : Z)
    (plan_data : WorkoutPlanData) (d : DB) :
  workout_references_ok d = true ->
  workout_references_ok (snd (save_workout_plan schema now user_id plan_data d)) = true.
Proof.
  intros Hrefs.
  destruct (save_workout_plan_cases schema now user_id plan_data d)
    as [->|(saved & added & -> & Hsaved & _ & _)]; cbn [snd]; [assumption|].
  unfold workout_references_ok in *. rewrite !andb_true_iff in *.
  destruct Hrefs as (((((Hel & Hele) & Hwl) & Hwe) & Hwee) & Hwd).
  cbn [append_workout exercise_logs workout_logs workout_days exercises
       workout_exercises workout_plans].
  repeat split.
  - assumption.
  - eapply forallb_weaken; [|exact Hele]. intros el. apply existsb_app_l.
  - eapply forallb_weaken; [|exact Hwl]. intros wl. apply existsb_app_l.
  - rewrite forallb_app. apply andb_true_intro. split.
    + eapply forallb_weaken; [|exact Hwe]. intros we. apply existsb_app_l.
    + apply forallb_forall. intros link Hlink.
      destruct (saved_links_resolve _ _ _ _ _ Hsaved Hlink) as [(s & Hs & Hday) _].
      apply existsb_app_r, existsb_exists. exists (fst s).
      split; [now apply in_map | now apply Z.eqb_eq].
  - rewrite forallb_app. apply andb_true_intro. split.
    + eapply forallb_weaken; [|exact Hwee]. intros we. apply existsb_app_l.
    + apply forallb_forall. intros link Hlink.
      destruct (saved_links_resolve _ _ _ _ _ Hsaved Hlink) as [_ (found & Hfound & Hid)].
      apply existsb_exists. exists found. split; [assumption | now apply Z.eqb_eq].
  - rewrite forallb_app. apply andb_true_intro. split.
    + eapply forallb_weaken; [|exact Hwd]. intros wd. apply existsb_app_l.
    + apply forallb_forall. intros row (s & <- & Hs)%in_map_iff.
      destruct (Forall2_in_r _ _ _ _ Hsaved Hs) as (day & _ & Hplan & _).
      apply existsb_app_r. simpl. rewrite Hplan, Z.eqb_refl. reflexivity.
Qed.

Lemma save_workout_plan_keeps_references_witness :
  workout_references_ok
    (snd (save_workout_plan permissive_schema 0 7 example_plan_data example_plans)) = true.
Proof.
  apply (save_workout_plan_keeps_references permissive_schema 0 7 example_plan_data
           example_plans).
  reflexivity.
Defined.

(** ** Saving and deleting *)

Lemma filter_all {A : Type} (p : A -> bool) (l : list A) :
  (forall x, In x l -> p x = true) -> List.filter p l = l.
Proof.
  induction l as [|y l IH]; simpl; intros H; [reflexivity|].
  rewrite (H y (or_introl eq_refl)). f_equal. apply IH. intros x Hx. apply H. now right.
Qed.

Lemma references_found {A B : Type} (key : A -> Z) (ref : B -> Z) (parents : list A)
    (children : list B) (c : B) :
  forallb (fun c => existsb (fun p => key p =? ref c) parents) children = true ->
  In c children -> In (ref c) (map key parents).
Proof.
  rewrite forallb_forall. intros H Hc. specialize (H c Hc).
  apply existsb_exists in H as (p & Hp & Heq%Z.eqb_eq). rewrite <- Heq. now apply in_map.
Qed.

Lemma not_in_decide (x : Z) (l : list Z) : ~ In x l -> bool_decide (x ∈ l) = false.
Proof. intros H. apply bool_decide_eq_false. now rewrite list_elem_of_In. Qed.

Lemma in_decide (x : Z) (l : list Z) : In x l -> bool_decide (x ∈ l) = true.
Proof. intros H. apply bool_decide_eq_true. now rewrite list_elem_of_In. Qed.

(** Reading a column of a table out of a database that is written as a
    record: one layer of setters at a time. *)
Ltac db_fields :=
  cbn [users user_sessions workout_plans workout_days exercises workout_exercises
       workout_logs exercise_logs diet_plans meal_plans shopping_lists meal_logs].

(** X8. Deleting a workout plan right after saving it undoes the save on
    the plan, day, link and log tables, provided the references among them
    were resolved before: those tables are back to what they were.  Only
    the catalog keeps the rows the save added. *)
Theorem delete_after_save_workout_plan (schema : Schema) (now user_id : Z)
    (plan_data : WorkoutPlanData) (d d' : DB) (plan_id : Z) :
  workout_references_ok d = true ->
  save_workout_plan schema now user_id plan_data d = (Some plan_id, d') ->
  delete_workout_plan plan_id d' = (true, set_exercises (fun _ => exercises d') d).
Proof.
  intros Hrefs Hsave.
  destruct (save_workout_plan_cases schema now user_id plan_data d)
    as [Hnone|(saved & added & Hsome & Hsaved & Hfresh & _)];
    rewrite Hsave in *; [discriminate|].
  injection Hsome as -> ->.
  unfold workout_references_ok in Hrefs. rewrite !andb_true_iff in Hrefs.
  destruct Hrefs as (((((_ & _) & Hwl) & Hwe) & _) & Hwd).
  set (pid := next_rowid (map wp_id (workout_plans d))) in *.
  set (new_ids := map wd_id (map fst saved)).
  assert (Hold_plan : forall wd, In wd (workout_days d) ->
                        (wd_workout_plan_id wd =? pid) = false).
  { intros wd Hin. apply Z.eqb_neq.
    assert (H := references_found wp_id wd_workout_plan_id _ _ wd Hwd Hin).
    apply next_rowid_gt in H. fold pid in H. lia. }
  assert (Hnew_plan : forall row, In row (map fst saved) ->
                        (wd_workout_plan_id row =? pid) = true).
  { intros row (s & <- & Hs)%in_map_iff.
    destruct (Forall2_in_r _ _ _ _ Hsaved Hs) as (day & _ & Hplan & _).
    now apply Z.eqb_eq. }
  assert (Hold_id : forall x, In x (map wd_id (workout_days d)) -> ~ In x new_ids).
  { intros x Hx (row & <- & (s & <- & Hs)%in_map_iff)%in_map_iff.
    rewrite List.Forall_forall in Hfresh. specialize (Hfresh s Hs _ Hx). lia. }
  assert (Hids : forall D,
             workout_days D = workout_days d ++ map fst saved ->
             plan_day_ids D pid = new_ids).
  { intros D HD. unfold plan_day_ids. rewrite HD, List.filter_app.
    rewrite (filter_none _ _ Hold_plan). simpl.
    now rewrite (filter_all _ _ Hnew_plan). }
  assert (Hlogs : List.filter
                    (fun wl => negb (bool_decide (wl_workout_day_id wl ∈ new_ids)))
                    (workout_logs d) = workout_logs d).
  { apply filter_all. intros wl Hin. rewrite not_in_decide; [reflexivity|].
    apply Hold_id. exact (references_found wd_id wl_workout_day_id _ _ wl Hwl Hin). }
  assert (Hno_logs : forall D,
             workout_days D = workout_days d ++ map fst saved ->
             workout_logs D = workout_logs d ->
             plan_log_ids D pid = []).
  { intros D HD HL. unfold plan_log_ids. rewrite (Hids D HD), HL.
    rewrite filter_none; [reflexivity|].
    intros wl Hin. apply not_in_decide, Hold_id.
    exact (references_found wd_id wl_workout_day_id _ _ wl Hwl Hin). }
  unfold delete_workout_plan, with_connection. simpl.
  unfold mbind, conn_bind, execute, modify_db. simpl.
  rewrite Hno_logs by reflexivity. rewrite !Hids by reflexivity.
  f_equal. unfold append_workout.
  unfold set_exercise_logs; db_fields. unfold set_workout_logs; db_fields.
  unfold set_workout_exercises; db_fields. unfold set_workout_days; db_fields.
  unfold set_workout_plans; db_fields. unfold set_exercises.
  f_equal.
  - rewrite List.filter_app. simpl. rewrite Z.eqb_refl. simpl. rewrite app_nil_r.
    apply filter_all. intros wp Hin. apply negb_true_iff, Z.eqb_neq.
    assert (H : In (wp_id wp) (map wp_id (workout_plans d))) by now apply in_map.
    apply next_rowid_gt in H. fold pid in H. lia.
  - rewrite List.filter_app.
    rewrite (filter_all _ (workout_days d))
      by (intros wd Hin; now rewrite Hold_plan).
    rewrite filter_none by (intros row Hin; now rewrite Hnew_plan).
    apply app_nil_r.
  - rewrite List.filter_app.
    rewrite (filter_all _ (workout_exercises d)).
    2:{ intros we Hin. rewrite not_in_decide; [reflexivity|].
        apply Hold_id. exact (references_found wd_id we_workout_day_id _ _ we Hwe Hin). }
    rewrite filter_none; [apply app_nil_r|].
    intros link Hlink.
    destruct (saved_links_resolve _ _ _ _ _ Hsaved Hlink) as [(s & Hs & Hday) _].
    rewrite in_decide; [reflexivity|].
    rewrite Hday. unfold new_ids. rewrite map_map. now apply (in_map (fun s => wd_id (fst s))).
  - exact Hlogs.
  - apply filter_all. intros el _. reflexivity.
Qed.

Lemma delete_after_save_workout_plan_witness :
  delete_workout_plan 3
    (snd (save_workout_plan permissive_schema 0 7 example_plan_data example_plans))
  = (true,
     set_exercises
       (fun _ => exercises (snd (save_workout_plan permissive_schema 0 7 example_plan_data
                                   example_plans)))
       example_plans).
Proof.
  apply (delete_after_save_workout_plan permissive_schema 0 7 example_plan_data example_plans).
  - reflexivity.
  - vm_compute. reflexivity.
Defined.

Lemma save_diet_plan_cases (schema : Schema) (now user_id : Z)
    (diet : DietPlanData) (d : DB) :
  save_diet_plan schema now user_id diet d = (None, d) \/
  exists meals items,
    let plan_id := next_rowid (map dp_id (diet_plans d)) in
    save_diet_plan schema now user_id diet d
      = (Some plan_id,
         append_diet
           [mkDietPlan plan_id user_id
                       (dict_get (diet_fields diet) "name")
                       (dict_get (diet_fields diet) "calorie_target")
                       (dict_get (diet_fields diet) "protein_target_g")
                       (dict_get (diet_fields diet) "carb_target_g")
                       (dict_get (diet_fields diet) "fat_target_g")
                       (dict_get (diet_fields diet) "dietary_restrictions")
                       (dict_get_default (diet_fields diet) "ai_generated" py_True)
                       (dict_get (diet_fields diet) "gemini_prompt")
                       now]
           meals items d) /\
    Forall2 (meal_saved plan_id) (diet_meals diet) meals /\
    Forall2 (shopping_item_saved user_id plan_id) (diet_shopping_list diet) items.
Proof.
  unfold save_diet_plan, with_connection.
  destruct (save_diet_plan_body schema now user_id diet d) as [r d1|e d1] eqn:E;
    [right | now left].
  unfold save_diet_plan_body in E.
  apply bind_returned in E as (pid & d0 & Hins & E).
  unfold insert_diet_plan in Hins.
  destruct (diet_plans_ok schema d _); [|discriminate]. injection Hins as <- <-.
  apply bind_returned in E as ([] & d2 & Hmeals & E).
  apply bind_returned in E as ([] & d3 & Hitems & E).
  injection E as <- <-.
  apply save_meals_returned in Hmeals as (meals & -> & Hmeals).
  apply save_shopping_items_returned in Hitems as (items & -> & Hitems).
  exists meals, items. cbn zeta. split; [|split; assumption].
  f_equal. unfold append_diet, set_diet_plans. simpl. now rewrite !app_nil_r.
Qed.

(** X9. Deleting a diet plan right after saving it restores the database
    exactly, provided every meal and shopping-list item referred to an
    existing diet plan before. *)
Theorem delete_after_save_diet_plan (schema : Schema) (now user_id : Z)
    (diet_data : DietPlanData) (d d' : DB) (plan_id : Z) :
  diet_references_ok d = true ->
  save_diet_plan schema now user_id diet_data d = (Some plan_id, d') ->
  delete_diet_plan plan_id d' = (true, d).
Proof.
  intros Hrefs Hsave.
  destruct (save_diet_plan_cases schema now user_id diet_data d)
    as [Hnone|(meals & items & Hsome & Hmeals & Hitems)];
    rewrite Hsave in *; [discriminate|].
  injection Hsome as -> ->.
  unfold diet_references_ok in Hrefs. apply andb_true_iff in Hrefs as [Hmp Hsl].
  set (pid := next_rowid (map dp_id (diet_plans d))) in *.
  assert (Hold : forall x, In x (map dp_id (diet_plans d)) -> (x =? pid) = false).
  { intros x Hx. apply Z.eqb_neq. apply next_rowid_gt in Hx. fold pid in Hx. lia. }
  unfold delete_diet_plan, with_connection. simpl.
  unfold mbind, conn_bind, execute, modify_db. simpl. f_equal.
  unfold set_diet_plans, set_meal_plans, set_shopping_lists, append_diet. simpl.
  destruct d as [us ss wps wds es wes wls els dps mps sls mls]. simpl in *. f_equal.
  - rewrite List.filter_app. cbn [List.filter dp_id]. rewrite Z.eqb_refl.
    cbn [negb]. rewrite app_nil_r. apply filter_all.
    intros dp Hin. rewrite Hold; [reflexivity | now apply in_map].
  - rewrite List.filter_app.
    rewrite (filter_all _ mps).
    2:{ intros mp Hin. rewrite Hold; [reflexivity|].
        exact (references_found dp_id mp_diet_plan_id _ _ mp Hmp Hin). }
    rewrite filter_none; [apply app_nil_r|].
    intros row Hrow. destruct (Forall2_in_r _ _ _ _ Hmeals Hrow) as (meal & _ & Hsaved).
    unfold meal_saved in Hsaved. rewrite Hsaved. simpl. now rewrite Z.eqb_refl.
  - rewrite List.filter_app.
    rewrite (filter_all _ sls).
    2:{ intros sl Hin. rewrite Hold; [reflexivity|].
        exact (references_found dp_id sl_diet_plan_id _ _ sl Hsl Hin). }
    rewrite filter_none; [apply app_nil_r|].
    intros row Hrow. destruct (Forall2_in_r _ _ _ _ Hitems Hrow) as (item & _ & Hsaved).
    unfold shopping_item_saved in Hsaved. rewrite Hsaved. simpl. now rewrite Z.eqb_refl.
Qed.

Lemma delete_after_save_diet_plan_witness :
  delete_diet_plan 3
    (snd (save_diet_plan permissive_schema 0 7 example_diet_data example_plans))
  = (true, example_plans).
Proof.
  apply (delete_after_save_diet_plan permissive_schema 0 7 example_diet_data example_plans).
  - reflexivity.
  - vm_compute. reflexivity.
Defined.

(** X10. Deleting a plan id that no plan has changes nothing and still
    returns [True], provided the references were resolved; hence deleting
    the same plan a second time is a no-op.  This holds for workout plans
    and for diet plans. *)
Theorem delete_unknown_plan_is_noop (plan_id : Z) (d : DB) :
  (workout_references_ok d = true ->
   (forall wp, In wp (workout_plans d) -> wp_id wp <> plan_id) ->
   delete_workout_plan plan_id d = (true, d)) /\
  (workout_references_ok d = true ->
   delete_workout_plan plan_id (snd (delete_workout_plan plan_id d))
   = (true, snd (delete_workout_plan plan_id d))) /\
  (diet_references_ok d = true ->
   (forall dp, In dp (diet_plans d) -> dp_id dp <> plan_id) ->
   delete_diet_plan plan_id d = (true, d)) /\
  (diet_references_ok d = true ->
   delete_diet_plan plan_id (snd (delete_diet_plan plan_id d))
   = (true, snd (delete_diet_plan plan_id d))).
Proof.
  assert (Hworkout : forall d0,
             workout_references_ok d0 = true ->
             (forall wp, In wp (workout_plans d0) -> wp_id wp <> plan_id) ->
             delete_workout_plan plan_id d0 = (true, d0)).
  { intros d0 Hrefs Hnone.
    unfold workout_references_ok in Hrefs. rewrite !andb_true_iff in Hrefs.
    destruct Hrefs as (((((_ & _) & _) & _) & _) & Hwd).
    assert (Hdays : forall D, workout_days D = workout_days d0 -> plan_day_ids D plan_id = []).
    { intros D HD. unfold plan_day_ids. rewrite HD, filter_none; [reflexivity|].
      intros wd Hin. apply Z.eqb_neq.
      assert (H := references_found wp_id wd_workout_plan_id _ _ wd Hwd Hin).
      apply in_map_iff in H as (wp & <- & Hwp). now apply Hnone. }
    assert (Hlogs : forall D, workout_days D = workout_days d0 -> plan_log_ids D plan_id = []).
    { intros D HD. unfold plan_log_ids. rewrite (Hdays D HD).
      rewrite filter_none; [reflexivity|]. intros wl _. apply not_in_decide. intros []. }
    unfold delete_workout_plan, with_connection. simpl.
    unfold mbind, conn_bind, execute, modify_db. simpl.
    rewrite Hlogs by reflexivity. rewrite !Hdays by reflexivity. f_equal.
    unfold set_workout_plans, set_workout_days, set_workout_exercises, set_workout_logs,
      set_exercise_logs. simpl.
    destruct d0 as [us ss wps wds es wes wls els dps mps sls mls]. simpl in *. f_equal.
    - apply filter_all. intros wp Hin. apply negb_true_iff, Z.eqb_neq. now apply Hnone.
    - apply filter_all. intros wd Hin. apply negb_true_iff, Z.eqb_neq.
      assert (H := references_found wp_id wd_workout_plan_id _ _ wd Hwd Hin).
      apply in_map_iff in H as (wp & <- & Hwp). now apply Hnone.
    - apply filter_all. intros we _. reflexivity.
    - apply filter_all. intros wl _. reflexivity.
    - apply filter_all. intros el _. reflexivity. }
  assert (Hdiet : forall d0,
             diet_references_ok d0 = true ->
             (forall dp, In dp (diet_plans d0) -> dp_id dp <> plan_id) ->
             delete_diet_plan plan_id d0 = (true, d0)).
  { intros d0 Hrefs Hnone.
    unfold diet_references_ok in Hrefs. apply andb_true_iff in Hrefs as [Hmp Hsl].
    unfold delete_diet_plan, with_connection. simpl.
    unfold mbind, conn_bind, execute, modify_db. simpl. f_equal.
    unfold set_diet_plans, set_meal_plans, set_shopping_lists. simpl.
    destruct d0 as [us ss wps wds es wes wls els dps mps sls mls]. simpl in *. f_equal.
    - apply filter_all. intros dp Hin. apply negb_true_iff, Z.eqb_neq. now apply Hnone.
    - apply filter_all. intros mp Hin. apply negb_true_iff, Z.eqb_neq.
      assert (H := references_found dp_id mp_diet_plan_id _ _ mp Hmp Hin).
      apply in_map_iff in H as (dp & <- & Hdp). now apply Hnone.
    - apply filter_all. intros sl Hin. apply negb_true_iff, Z.eqb_neq.
      assert (H := references_found dp_id sl_diet_plan_id _ _ sl Hsl Hin).
      apply in_map_iff in H as (dp & <- & Hdp). now apply Hnone. }
  split; [apply Hworkout|]. split; [|split; [apply Hdiet|]].
  - intros Hrefs. apply Hworkout.
    + exact (delete_workout_plan_keeps_references plan_id d 5 Hrefs).
    + intros wp [_ Hne]%filter_In. apply negb_true_iff, Z.eqb_neq in Hne. exact Hne.
  - intros Hrefs. apply Hdiet.
    + exact (delete_diet_plan_keeps_references plan_id d 3 Hrefs).
    + intros dp [_ Hne]%filter_In. apply negb_true_iff, Z.eqb_neq in Hne. exact Hne.
Qed.

Lemma delete_unknown_plan_is_noop_witness :
  delete_workout_plan 99 example_plans = (true, example_plans) /\
  delete_diet_plan 99 example_plans = (true, example_plans).
Proof.
  destruct (delete_unknown_plan_is_noop 99 example_plans) as (Hw & _ & Hd & _).
  split.
  - apply Hw; [reflexivity|]. simpl. intros wp [<-|[<-|[]]]; discriminate.
  - apply Hd; [reflexivity|]. simpl. intros dp [<-|[<-|[]]]; discriminate.
Defined.

(** ** Nutrition log queries *)

(** X11. Asking for a longer range only adds days: every row of the
    result for a range is, unchanged, a row of the result for any range
    with at least as many days. *)
Theorem get_nutrition_logs_wider_range (d : DB) (now user_id : Z) (narrow wide : string) :
  window_days narrow <= window_days wide ->
  forall row,
    In row (nf_rows (get_nutrition_logs d now user_id narrow)) ->
    In row (nf_rows (get_nutrition_logs d now user_id wide)).
Proof.
  intros Hdays row. rewrite !get_nutrition_logs_rows, !start_date_trailing.
  set (today := now / microseconds_per_day).
  intros Hrow.
  assert (Hday : In (n_date row) (map n_date (daily_nutrition d user_id
                                                (today - window_days narrow))))
    by now apply in_map.
  apply daily_nutrition_day in Hday as [Hs Hne].
  unfold daily_nutrition in *. apply in_map_iff in Hrow as (day & <- & Hin).
  simpl in Hs, Hne.
  apply in_map_iff. exists day. split.
  - unfold nutrition_row. rewrite !window_group by lia. reflexivity.
  - fold (daily_nutrition d user_id (today - window_days wide)).
    rewrite <- daily_nutrition_dates. apply daily_nutrition_day. split; [lia | assumption].
Qed.

Lemma get_nutrition_logs_wider_range_witness :
  In (mkNutritionRow 20000 (VInt 1100) (VInt 45) (VInt 140) (VInt 25))
     (nf_rows (get_nutrition_logs example_nutrition example_now 7 "1 Year")).
Proof.
  apply (get_nutrition_logs_wider_range example_nutrition example_now 7 "1 Week" "1 Year").
  - vm_compute. discriminate.
  - vm_compute. now left.
Defined.

(** X12. The nutrition report of a user depends on that user's rows only:
    two databases with the same meal logs and diet plans of the user give
    the same report, whatever other users logged. *)
Theorem get_nutrition_logs_per_user (d1 d2 : DB) (now user_id : Z) (date_range : string) :
  List.filter (fun ml => ml_user_id ml =? user_id) (meal_logs d1)
  = List.filter (fun ml => ml_user_id ml =? user_id) (meal_logs d2) ->
  List.filter (fun p => dp_user_id p =? user_id) (diet_plans d1)
  = List.filter (fun p => dp_user_id p =? user_id) (diet_plans d2) ->
  get_nutrition_logs d1 now user_id date_range = get_nutrition_logs d2 now user_id date_range.
Proof.
  intros Hlogs Hplans.
  assert (Hwin : forall start, meal_logs_in_window d1 user_id start
                               = meal_logs_in_window d2 user_id start).
  { intros start. unfold meal_logs_in_window.
    rewrite <- !(filter_filter (fun ml => start <=? sql_date (ml_logged_at ml))
                               (fun ml => ml_user_id ml =? user_id)).
    now rewrite Hlogs. }
  unfold get_nutrition_logs, daily_nutrition, latest_calorie_target.
  now rewrite Hwin, Hplans.
Qed.

Lemma get_nutrition_logs_per_user_witness :
  get_nutrition_logs example_nutrition example_now 7 "1 Week"
  = get_nutrition_logs
      (mkDB [] [] [] [] [] [] [] [] (diet_plans example_nutrition) [] []
            (List.filter (fun ml => ml_user_id ml =? 7) (meal_logs example_nutrition)))
      example_now 7 "1 Week".
Proof.
  apply (get_nutrition_logs_per_user example_nutrition); reflexivity.
Defined.

(** ** Profile updates, continued *)

Lemma user_row_ext (u v : UserRow) :
  (forall column, user_column column u = user_column column v) -> u = v.
Proof.
  intros H.
  assert (H1 := H "id"). assert (H2 := H "username"). assert (H3 := H "email").
  assert (H4 := H "password_hash"). assert (H5 := H "first_name").
  assert (H6 := H "last_name"). assert (H7 := H "age"). assert (H8 := H "gender").
  assert (H9 := H "height_cm"). assert (H10 := H "weight_kg").
  assert (H11 := H "activity_level"). assert (H12 := H "fitness_goals").
  assert (H13 := H "injuries"). assert (H14 := H "experience_level").
  assert (H15 := H "created_at").
  destruct u, v. unfold user_column in *. simpl in *.
  injection H1 as ->. injection H2 as ->. injection H3 as ->. injection H4 as ->.
  injection H5 as ->. injection H6 as ->. injection H7 as ->. injection H8 as ->.
  injection H9 as ->. injection H10 as ->. injection H11 as ->. injection H12 as ->.
  injection H13 as ->. injection H14 as ->. injection H15 as ->. reflexivity.
Qed.

Lemma apply_assignments_twice (profile_data : gmap string sqlval) (u : UserRow) :
  apply_assignments (update_assignments profile_data)
    (apply_assignments (update_assignments profile_data) u)
  = apply_assignments (update_assignments profile_data) u.
Proof.
  apply user_row_ext. intros column.
  destruct (in_dec string_dec column (map fst (update_assignments profile_data)))
    as [Hin|Hnot].
  - apply in_map_iff in Hin as ([c v] & <- & Hin). simpl.
    assert (Hpf := proj1 (assignments_in profile_data profile_fields c v) Hin).
    rewrite !(apply_assignments_same _ c v); try tauto;
      apply assignments_nodup, profile_fields_nodup.
  - now rewrite apply_assignments_other.
Qed.

(** X13. Edge behaviour of [update_user_profile].  It returns [False], and
    changes nothing, exactly when the input has none of the ten profile
    keys.  When it has one it returns [True] even if no row has the id, in
    which case the database is unchanged.  Applying the same update twice
    gives the same database as applying it once. *)
Theorem update_user_profile_edges (user_id : Z) (profile_data : gmap string sqlval) (d : DB) :
  ((forall field, In field profile_fields -> profile_data !! field = None) ->
   update_user_profile user_id profile_data d = (false, d)) /\
  (forall field v, In field profile_fields -> profile_data !! field = Some v ->
   fst (update_user_profile user_id profile_data d) = true) /\
  ((forall u, In u (users d) -> u_id u <> user_id) ->
   snd (update_user_profile user_id profile_data d) = d) /\
  snd (update_user_profile user_id profile_data
         (snd (update_user_profile user_id profile_data d)))
  = snd (update_user_profile user_id profile_data d).
Proof.
  assert (Hrun : forall d0,
             snd (update_user_profile user_id profile_data d0)
             = set_users (map (fun u => if u_id u =? user_id
                                        then apply_assignments
                                               (update_assignments profile_data) u
                                        else u)) d0).
  { intros d0. unfold update_user_profile, with_connection.
    destruct (update_assignments profile_data) as [|a l] eqn:E; [|reflexivity].
    simpl. destruct d0 as [us ? ? ? ? ? ? ? ? ? ? ?]. unfold set_users. simpl. f_equal.
    induction us as [|u us IH]; simpl; [reflexivity|].
    rewrite <- IH. now destruct (u_id u =? user_id). }
  split; [|split; [|split]].
  - intros Hnone. unfold update_user_profile, with_connection.
    destruct (update_assignments profile_data) as [|[c v] l] eqn:E; [reflexivity|].
    exfalso.
    assert (Hin : In (c, v) (update_assignments profile_data)) by (rewrite E; now left).
    apply assignments_in in Hin as [Hc Hv]. rewrite (Hnone c Hc) in Hv. discriminate.
  - intros field v Hin Hv. unfold update_user_profile, with_connection.
    destruct (update_assignments profile_data) as [|a l] eqn:E; [|reflexivity].
    exfalso.
    assert (Hin' : In (field, v) (update_assignments profile_data))
      by (apply assignments_in; auto).
    rewrite E in Hin'. destruct Hin'.
  - intros Hnone. rewrite Hrun.
    destruct d as [us ? ? ? ? ? ? ? ? ? ? ?]. unfold set_users. simpl in *. f_equal.
    induction us as [|u us IH]; simpl; [reflexivity|].
    rewrite IH by (intros v Hv; apply Hnone; now right).
    rewrite (proj2 (Z.eqb_neq _ _) (Hnone u (or_introl eq_refl))). reflexivity.
  - rewrite !Hrun. unfold set_users. simpl. f_equal. rewrite map_map.
    apply map_ext. intros u.
    destruct (u_id u =? user_id) eqn:E; [|now rewrite E].
    assert (Hid : forall asg v, u_id (apply_assignments asg v) = u_id v).
    { intros asg. unfold apply_assignments.
      induction asg as [|a asg IH]; intros v; simpl; [reflexivity|].
      rewrite IH. apply set_user_column_id. }
    rewrite Hid, E. apply apply_assignments_twice.
Qed.

Lemma update_user_profile_edges_witness :
  update_user_profile 7 {[ "username" := VText "mallory" ]} example_profiles
    = (false, example_profiles) /\
  update_user_profile 99 {[ "weight_kg" := VInt 80 ]} example_profiles
    = (true, example_profiles).
Proof.
  destruct (update_user_profile_edges 7 {[ "username" := VText "mallory" ]} example_profiles)
    as (Hfalse & _).
  destruct (update_user_profile_edges 99 {[ "weight_kg" := VInt 80 ]} example_profiles)
    as (_ & Htrue & Hsame & _).
  split.
  - apply Hfalse. intros field Hin. unfold profile_fields in Hin. simpl in Hin.
    repeat (destruct Hin as [<-|Hin]; [reflexivity|]). destruct Hin.
  - apply injective_projections; cbn [fst snd].
    + apply (Htrue "weight_kg" (VInt 80)); [unfold profile_fields; simpl; tauto | reflexivity].
    + apply Hsame. simpl. intros u [<-|[<-|[]]]; discriminate.
Defined.

(** ** Plan lists *)

Lemma insert_sorted_perm {A : Type} (lt : A -> A -> bool) (x : A) (l : list A) :
  Permutation (insert_sorted lt x l) (x :: l).
Proof.
  induction l as [|y l IH]; simpl; [reflexivity|].
  destruct (lt y x); [|reflexivity].
  rewrite IH. apply perm_swap.
Qed.

Lemma order_by_perm {A : Type} (lt : A -> A -> bool) (l : list A) :
  Permutation (order_by lt l) l.
Proof.
  induction l as [|x l IH]; simpl; [reflexivity|].
  rewrite insert_sorted_perm. now constructor.
Qed.

(** A row that sorts strictly before every other row, appended last,
    comes out first. *)
Lemma order_by_snoc_first {A : Type} (lt : A -> A -> bool) (l : list A) (x : A) :
  (forall y, In y l -> lt x y = true) ->
  (forall y, In y l -> lt y x = false) ->
  order_by lt (l ++ [x]) = x :: order_by lt l.
Proof.
  intros Hlt Hnlt. induction l as [|y l IH]; simpl; [reflexivity|].
  rewrite IH; [| intros z Hz; apply Hlt; now right | intros z Hz; apply Hnlt; now right].
  simpl. rewrite (Hlt y (or_introl eq_refl)). reflexivity.
Qed.

Lemma StronglySorted_weaken {A : Type} (R S : A -> A -> Prop) (l : list A) :
  (forall a b, R a b -> S a b) -> StronglySorted R l -> StronglySorted S l.
Proof.
  intros HRS. induction 1 as [|a l Hl IH Ha]; [apply SSorted_nil|].
  apply SSorted_cons; [exact IH|].
  rewrite List.Forall_forall in *. intros b Hb. apply HRS, Ha, Hb.
Qed.

(** X14. [get_user_workout_plans] and [get_user_diet_plans] return the
    plans of the user and no others, each once, with no plan listed before
    a plan that was created later. *)
Theorem get_user_plans_newest_first (d : DB) (user_id : Z) :
  (Permutation (get_user_workout_plans d user_id)
               (List.filter (fun p => wp_user_id p =? user_id) (workout_plans d)) /\
   StronglySorted (fun a b => wp_created_at b <= wp_created_at a)
                  (get_user_workout_plans d user_id) /\
   forall p, In p (get_user_workout_plans d user_id) <->
             In p (workout_plans d) /\ wp_user_id p = user_id) /\
  (Permutation (get_user_diet_plans d user_id)
               (List.filter (fun p => dp_user_id p =? user_id) (diet_plans d)) /\
   StronglySorted (fun a b => dp_created_at b <= dp_created_at a)
                  (get_user_diet_plans d user_id) /\
   forall p, In p (get_user_diet_plans d user_id) <->
             In p (diet_plans d) /\ dp_user_id p = user_id).
Proof.
  split.
  - split; [apply order_by_perm|]. split.
    + unfold get_user_workout_plans.
      apply (StronglySorted_weaken (fun a b => - wp_created_at a <= - wp_created_at b));
        [intros a b; lia|].
      apply (order_by_sorted (fun p => - wp_created_at p)).
      intros a b. destruct (Z.ltb_spec (wp_created_at b) (wp_created_at a));
        destruct (Z.ltb_spec (- wp_created_at a) (- wp_created_at b));
        (reflexivity || lia).
    + intros p. unfold get_user_workout_plans.
      rewrite order_by_in, filter_In, Z.eqb_eq. reflexivity.
  - split; [apply order_by_perm|]. split.
    + unfold get_user_diet_plans.
      apply (StronglySorted_weaken (fun a b => - dp_created_at a <= - dp_created_at b));
        [intros a b; lia|].
      apply (order_by_sorted (fun p => - dp_created_at p)).
      intros a b. destruct (Z.ltb_spec (dp_created_at b) (dp_created_at a));
        destruct (Z.ltb_spec (- dp_created_at a) (- dp_created_at b));
        (reflexivity || lia).
    + intros p. unfold get_user_diet_plans.
      rewrite order_by_in, filter_In, Z.eqb_eq. reflexivity.
Qed.

(** X15. A saved workout plan is listed, a deleted one is not.  After a
    successful save the plan list of the user holds a row with the
    returned id and the save's timestamp, as its first entry when every
    earlier plan of the user is strictly older, and the lists of other
    users are unchanged.  After [delete_workout_plan] no list holds a plan
    with the deleted id, and every other listed plan is still listed. *)
Theorem plan_list_follows_save_and_delete (schema : Schema) (now user_id : Z)
    (plan_data : WorkoutPlanData) (d : DB) :
  (forall plan_id d',
      save_workout_plan schema now user_id plan_data d = (Some plan_id, d') ->
      (exists row, In row (get_user_workout_plans d' user_id) /\
                   wp_id row = plan_id /\ wp_created_at row = now) /\
      (forall other, other <> user_id ->
         get_user_workout_plans d' other = get_user_workout_plans d other) /\
      ((forall p, In p (workout_plans d) -> wp_user_id p = user_id -> wp_created_at p < now) ->
       exists row, wp_id row = plan_id /\
                   get_user_workout_plans d' user_id
                   = row :: get_user_workout_plans d user_id)) /\
  (forall plan_id who p,
      In p (get_user_workout_plans (snd (delete_workout_plan plan_id d)) who) <->
      In p (get_user_workout_plans d who) /\ wp_id p <> plan_id).
Proof.
  split.
  - intros plan_id d' Hsave.
    destruct (save_workout_plan_cases schema now user_id plan_data d)
      as [Hnone|(saved & added & Hsome & _)];
      rewrite Hsave in *; [discriminate|].
    injection Hsome as -> ->.
    set (row := mkWorkoutPlan _ _ _ _ _ _ _ _).
    assert (Hlist : forall who,
               get_user_workout_plans
                 (append_workout [row] (map fst saved) added (concat (map snd saved)) d) who
               = order_by (fun a b => wp_created_at b <? wp_created_at a)
                   (List.filter (fun p => wp_user_id p =? who) (workout_plans d)
                    ++ if user_id =? who then [row] else [])).
    { intros who. unfold get_user_workout_plans. simpl. now rewrite List.filter_app. }
    split; [|split].
    + exists row. split; [|split; reflexivity].
      rewrite Hlist, Z.eqb_refl. apply order_by_in, in_or_app. right. now left.
    + intros other Hne. rewrite Hlist.
      rewrite (proj2 (Z.eqb_neq user_id other)) by congruence.
      now rewrite app_nil_r.
    + intros Holder. exists row. split; [reflexivity|].
      rewrite Hlist, Z.eqb_refl. apply order_by_snoc_first.
      * intros p [Hp Hu%Z.eqb_eq]%filter_In. apply Z.ltb_lt. simpl. now apply Holder.
      * intros p [Hp Hu%Z.eqb_eq]%filter_In. apply Z.ltb_ge. simpl.
        specialize (Holder p Hp Hu). lia.
  - intros plan_id who p. unfold get_user_workout_plans.
    rewrite !order_by_in, !filter_In.
    change (workout_plans (snd (delete_workout_plan plan_id d)))
      with (List.filter (fun wp => negb (wp_id wp =? plan_id)) (workout_plans d)).
    rewrite filter_In, negb_true_iff, Z.eqb_neq. tauto.
Qed.

Lemma plan_list_follows_save_and_delete_witness :
  exists row,
    wp_id row = 3 /\
    get_user_workout_plans
      (snd (save_workout_plan permissive_schema 10 7 example_plan_data example_plans)) 7
    = row :: get_user_workout_plans example_plans 7.
Proof.
  refine (proj2 (proj2 (proj1 (plan_list_follows_save_and_delete permissive_schema 10 7
                                 example_plan_data example_plans) 3 _ _)) _).
  - vm_compute. reflexivity.
  - simpl. intros p [<-|[<-|[]]] _; simpl; lia.
Defined.

(** ** Meal logging *)

Lemma sql_sum_snoc (vals : list sqlval) (z : Z) :
  sql_sum (vals ++ [VInt z])
  = VInt (match sql_sum vals with VInt total => total | _ => 0 end + z).
Proof.
  unfold sql_sum. rewrite omap_app. simpl.
  destruct (omap sql_num vals) as [|x xs]; simpl; [reflexivity|].
  rewrite fold_left_app. reflexivity.
Qed.

(** X16. A meal that [log_meal_consumption] stored shows up in the report:
    when the insert is accepted the method returns [True], and for every
    range whose window reaches the day of the timestamp the report of that
    user has a row for that day whose calories are the day's earlier sum
    plus the calories logged.  When the insert is rejected the method
    returns [False] and the database is unchanged. *)
Theorem logged_meal_is_reported (meal_logs_ok : DB -> MealLogRow -> bool)
    (logged_at now : Z) (user_id : Z) (meal_type description : string)
    (calories protein carbs fat : Z) (date_range : string) (d : DB) :
  let day := sql_date logged_at in
  let result := log_meal_consumption meal_logs_ok logged_at user_id meal_type description
                                     calories protein carbs fat d in
  let new := mkMealLog (next_rowid (map ml_id (meal_logs d))) user_id (VText meal_type)
                       (VText description) (VInt calories) (VInt protein) (VInt carbs)
                       (VInt fat) logged_at in
  (meal_logs_ok d new = false -> result = (false, d)) /\
  (meal_logs_ok d new = true ->
   fst result = true /\
   (now / microseconds_per_day - window_days date_range <= day ->
    exists row,
      In row (nf_rows (get_nutrition_logs (snd result) now user_id date_range)) /\
      n_date row = day /\
      n_calories row
      = VInt (match sql_sum (map ml_calories_consumed (meal_logs_on d user_id day)) with
              | VInt total => total
              | _ => 0
              end + calories))).
Proof.
  intros day result new. subst result.
  unfold log_meal_consumption, with_connection, mbind, conn_bind, insert_meal_log.
  fold new. split; intros Hok; rewrite Hok; [reflexivity|].
  split; [reflexivity|]. cbn [snd]. intros Hwin.
  set (d' := mkDB _ _ _ _ _ _ _ _ _ _ _ _).
  assert (Hon : meal_logs_on d' user_id day = meal_logs_on d user_id day ++ [new]).
  { unfold meal_logs_on, d'. simpl. rewrite List.filter_app. simpl.
    unfold day. now rewrite !Z.eqb_refl. }
  rewrite get_nutrition_logs_rows, start_date_trailing.
  assert (Hin : In day (map n_date (daily_nutrition d' user_id
                          (now / microseconds_per_day - window_days date_range)))).
  { apply daily_nutrition_day. split; [assumption|]. rewrite Hon.
    destruct (meal_logs_on d user_id day); discriminate. }
  apply in_map_iff in Hin as (row & Hdate & Hrow).
  exists row. split; [assumption|]. split; [assumption|].
  destruct (daily_nutrition_row _ _ _ _ Hrow) as (_ & Hcal & _).
  rewrite Hcal, Hdate, Hon, map_app. simpl. apply sql_sum_snoc.
Qed.

Lemma logged_meal_is_reported_witness :
  exists row,
    In row (nf_rows (get_nutrition_logs
                       (snd (log_meal_consumption (fun _ _ => true) (20000 * 86400 + 80000)
                               7 "Snack" "apple" 95 0 25 0 example_nutrition))
                       example_now 7 "1 Week")) /\
    n_date row = 20000 /\ n_calories row = VInt 1195.
Proof.
  refine (proj2 (proj2 (logged_meal_is_reported (fun _ _ => true) (20000 * 86400 + 80000)
                          example_now 7 "Snack" "apple" 95 0 25 0 "1 Week" example_nutrition)
                   eq_refl) _).
  vm_compute. discriminate.
Defined.

(** ** Food inventory and body metrics *)

(** X17. [add_food_to_inventory] returns [True] whether or not a row was
    stored.  In whatever order the food list is read, the foods of the
    user afterwards are the foods listed before when the table skipped the
    row, and those with the new food added when it stored the row; the
    foods of every other user are the same as before.  When the table
    rejects a second row with the same user and name, adding a food that
    is listed changes nothing, and a list without repetitions stays
    without repetitions. *)
Theorem add_food_to_inventory_effect (scan : list FoodRow -> list FoodRow)
    (ok : list FoodRow -> FoodRow -> bool)
    (user_id : Z) (food_name : string) (rows : list FoodRow) :
  (forall l, Permutation (scan l) l) ->
  let result := add_food_to_inventory ok user_id food_name rows in
  let new := mkFood (next_rowid (map f_id rows)) user_id food_name in
  fst result = true /\
  (ok rows new = false -> snd result = rows) /\
  (ok rows new = true ->
   snd result = rows ++ [new] /\
   Permutation (get_user_foods scan (snd result) user_id)
               (food_name :: get_user_foods scan rows user_id)) /\
  (forall other, other <> user_id ->
     Permutation (get_user_foods scan (snd result) other)
                 (get_user_foods scan rows other)) /\
  (rejects_duplicate_foods ok ->
   (In food_name (get_user_foods scan rows user_id) -> snd result = rows) /\
   (List.NoDup (get_user_foods scan rows user_id) ->
    List.NoDup (get_user_foods scan (snd result) user_id))).
Proof.
  intros Hscan result new. subst result.
  unfold add_food_to_inventory, in_transaction. cbn [fst snd]. fold new.
  assert (Hfoods : forall l who,
             Permutation (get_user_foods scan l who)
                         (map f_food_name (List.filter (fun r => f_user_id r =? who) l))).
  { intros l who. unfold get_user_foods. apply Permutation_map, Hscan. }
  assert (Hadd : forall who,
             Permutation (get_user_foods scan (rows ++ [new]) who)
                         ((if user_id =? who then [food_name] else [])
                          ++ get_user_foods scan rows who)).
  { intros who. rewrite !Hfoods, List.filter_app, map_app. cbn [List.filter f_user_id new].
    destruct (user_id =? who); cbn [map f_food_name app].
    - symmetry. apply Permutation_cons_append.
    - now rewrite app_nil_r. }
  split; [reflexivity|]. split; [now intros ->|]. split; [|split].
  - intros ->. split; [reflexivity|]. rewrite Hadd, Z.eqb_refl. reflexivity.
  - intros other Hne. destruct (ok rows new); [|reflexivity].
    rewrite Hadd, (proj2 (Z.eqb_neq user_id other)) by congruence. reflexivity.
  - intros Hdedup.
    assert (Hlisted : In food_name (get_user_foods scan rows user_id) -> ok rows new = false).
    { intros Hin. apply (Permutation_in _ (Hfoods rows user_id)) in Hin.
      apply in_map_iff in Hin as (r & Hname & [Hr Hu]%filter_In). apply Hdedup.
      apply existsb_exists. exists r. split; [assumption|]. cbn [f_user_id f_food_name new].
      now rewrite Hu, Hname, String.eqb_refl. }
    split.
    + intros Hin. now rewrite (Hlisted Hin).
    + intros Hnd. destruct (ok rows new) eqn:E; [|assumption].
      apply (Permutation_NoDup (symmetry (Hadd user_id))). rewrite Z.eqb_refl.
      cbn [app]. apply List.NoDup_cons; [|assumption].
      intros Hin. discriminate (Hlisted Hin).
Qed.

(** With a table that lists a food once per user, [Bread] added last is
    listed first when the list is read through an index on the name, and
    last when the table is read in rowid order. *)
Example get_user_foods_in_name_order :
  let ok := fun rows new =>
              negb (existsb (fun r => (f_user_id r =? f_user_id new) &&
                                      String.eqb (f_food_name r) (f_food_name new)) rows) in
  get_user_foods food_name_order
    (snd (add_food_to_inventory ok 7 "Bread"
            [mkFood 1 7 "Eggs"; mkFood 2 8 "Rice"; mkFood 3 7 "Milk"])) 7
  = ["Bread"; "Eggs"; "Milk"] /\
  get_user_foods rowid_order
    (snd (add_food_to_inventory ok 7 "Bread"
            [mkFood 1 7 "Eggs"; mkFood 2 8 "Rice"; mkFood 3 7 "Milk"])) 7
  = ["Eggs"; "Milk"; "Bread"].
Proof. vm_compute. split; reflexivity. Qed.

Lemma add_food_to_inventory_effect_witness :
  let ok := fun rows new =>
              negb (existsb (fun r => (f_user_id r =? f_user_id new) &&
                                      String.eqb (f_food_name r) (f_food_name new)) rows) in
  let rows := [mkFood 1 7 "Eggs"; mkFood 2 8 "Rice"; mkFood 3 7 "Milk"] in
  snd (add_food_to_inventory ok 7 "Eggs" rows) = rows /\
  Permutation (get_user_foods food_name_order (snd (add_food_to_inventory ok 7 "Bread" rows)) 7)
              ("Bread" :: get_user_foods food_name_order rows 7).
Proof.
  intros ok rows.
  assert (Hscan : forall l, Permutation (food_name_order l) l)
    by (intros l; apply order_by_perm).
  split.
  - refine (proj1 (proj2 (proj2 (proj2 (proj2
              (add_food_to_inventory_effect food_name_order ok 7 "Eggs" rows Hscan)))) _) _).
    + intros l new H. unfold ok. now rewrite H.
    + vm_compute. tauto.
  - exact (proj2 (proj1 (proj2 (proj2 (add_food_to_inventory_effect food_name_order ok 7
                                         "Bread" rows Hscan))) eq_refl)).
Defined.

(** X18. An entry that [add_progress_entry] stored is in the time series:
    when the insert is accepted the method returns [True] and
    [get_body_metrics] of the user is a rearrangement of the earlier series
    with the new measurement, other users' series being unchanged; when it
    is rejected the method returns [False] and nothing changes.  The series
    is always in ascending order of date. *)
Theorem add_progress_entry_effect (ok : list ProgressRow -> ProgressRow -> bool)
    (user_id : Z) (weight_kg height_cm date : Z) (rows : list ProgressRow) :
  let result := add_progress_entry ok user_id weight_kg height_cm date rows in
  let new := mkProgress (next_rowid (map pt_id rows)) user_id weight_kg height_cm date in
  (ok rows new = false -> result = (false, rows)) /\
  (ok rows new = true ->
   fst result = true /\
   Permutation (get_body_metrics (snd result) user_id)
               (mkBodyMetric height_cm weight_kg date :: get_body_metrics rows user_id) /\
   forall other, other <> user_id ->
     get_body_metrics (snd result) other = get_body_metrics rows other) /\
  (forall who, StronglySorted (fun a b => bm_date a <= bm_date b)
                              (get_body_metrics (snd result) who)).
Proof.
  intros result new. subst result. unfold add_progress_entry, in_transaction. fold new.
  split; [|split].
  - now intros ->.
  - intros ->. cbn [fst snd]. split; [reflexivity|]. split.
    + unfold get_body_metrics. rewrite List.filter_app. simpl. rewrite Z.eqb_refl.
      etransitivity; [apply Permutation_map, order_by_perm|].
      rewrite map_app. etransitivity; [symmetry; apply Permutation_cons_append|].
      apply perm_skip, Permutation_map. symmetry. apply order_by_perm.
    + intros other Hne. unfold get_body_metrics. rewrite List.filter_app. simpl.
      rewrite (proj2 (Z.eqb_neq user_id other)) by congruence. now rewrite app_nil_r.
  - intros who. unfold get_body_metrics.
    assert (Hs := order_by_sorted pt_date (fun a b => pt_date a <? pt_date b)
                    (fun a b => eq_refl)
                    (List.filter (fun r => pt_user_id r =? who)
                       (snd (if ok rows new then (true, rows ++ [new]) else (false, rows))))).
    destruct (ok rows new); cbn [snd] in *;
      (induction Hs as [|r l _ IH Hr]; simpl; constructor;
       [exact IH | now apply List.Forall_map]).
Qed.

(** Three measurements, the last one logged for a day in between. *)
Example get_body_metrics_in_date_order :
  get_body_metrics
    (snd (add_progress_entry (fun _ _ => true) 7 80 170 19990
            [mkProgress 1 7 82 170 19980; mkProgress 2 7 81 170 20000])) 7
  = [mkBodyMetric 170 82 19980; mkBodyMetric 170 80 19990; mkBodyMetric 170 81 20000].
Proof. vm_compute. reflexivity. Qed.

Lemma add_progress_entry_effect_witness :
  let rows := [mkProgress 1 7 82 170 19980; mkProgress 2 7 81 170 20000] in
  let result := add_progress_entry (fun _ _ => true) 7 80 170 19990 rows in
  fst result = true /\
  Permutation (get_body_metrics (snd result) 7)
              (mkBodyMetric 170 80 19990 :: get_body_metrics rows 7).
Proof.
  intros rows result.
  destruct (proj1 (proj2 (add_progress_entry_effect (fun _ _ => true) 7 80 170 19990 rows))
              eq_refl) as (Htrue & Hperm & _).
  split; assumption.
Defined.

(** ** Session state and the log-in form *)

Lemma row_dict_lookup (u : UserRow) (column : string) :
  row_dict u !! column = user_column column u.
Proof.
  unfold row_dict. cbn [omap list_omap user_columns].
  unfold user_column at 1 2 3 4 5 6 7 8 9 10 11 12 13 14 15. cbn [String.eqb Ascii.eqb Bool.eqb].
  cbn [fmap option_fmap option_map list_to_map foldr fst snd].
  unfold user_column.
  repeat (rewrite lookup_insert; case_decide as Hc;
          [subst column; reflexivity | apply String.eqb_neq in Hc;
                                       rewrite String.eqb_sym in Hc; rewrite Hc; clear Hc]).
  apply lookup_empty.
Qed.

Lemma row_dict_nonempty (u : UserRow) : row_dict u <> ∅.
Proof.
  intros H. assert (Hid := row_dict_lookup u "id"). rewrite H in Hid. discriminate Hid.
Qed.

Lemma create_session_accepted (schema : Schema) (session_token : string) (now user_id : Z)
    (duration_hours : option Z) (d : DB) :
  let row := mkSession (next_rowid (map s_id (user_sessions d))) user_id session_token
                       (now + default 24 duration_hours * (3600 * 1000000)) in
  user_sessions_ok schema d row = true ->
  create_session schema session_token now user_id duration_hours d
  = (Some session_token, set_user_sessions (fun rs => rs ++ [row]) d).
Proof.
  intros row Hok. unfold create_session, with_connection, mbind, conn_bind, insert_session.
  change (mkSession _ user_id session_token _) with row. now rewrite Hok.
Qed.

Lemma validate_fresh_session (d : DB) (u : UserRow) (id expires now : Z)
    (session_token : string) :
  In u (users d) ->
  List.NoDup (map u_id (users d)) ->
  (forall s, In s (user_sessions d) -> s_session_token s <> session_token) ->
  validate_session
    (set_user_sessions (fun rs => rs ++ [mkSession id (u_id u) session_token expires]) d)
    session_token now
  = if now <? expires then Some u else None.
Proof.
  intros Hin Hnd Hfresh. unfold validate_session, select_session_users. simpl.
  rewrite List.filter_app, filter_none.
  2:{ intros s Hs. apply andb_false_iff. left. apply String.eqb_neq. now apply Hfresh. }
  simpl. rewrite String.eqb_refl. simpl.
  destruct (now <? expires); simpl; [|reflexivity].
  now rewrite (filter_by_id_unique _ _ Hnd Hin).
Qed.

(** X19. A successful log-in ties the session state to a live stored
    session.  For a user found by username whose password verifies, with a
    fresh non-empty token and a session row the schema accepts,
    [login_submit] shows the success notice; the state is then
    authenticated, its user is the dict of that user's row, its user id is
    that row's id, and the token validates to that row at every instant in
    the next 24 hours.  [logout_user] afterwards clears the state but does
    not touch the store: the token keeps validating until it expires. *)
Theorem login_submit_opens_session (sha : string -> string) (schema : Schema)
    (session_token : string) (now : Z) (username password : string)
    (d : DB) (s : SessionState) (u : UserRow) :
  nonempty username = true -> nonempty password = true -> nonempty session_token = true ->
  List.NoDup (map u_id (users d)) -> List.NoDup (map u_username (users d)) ->
  In u (users d) -> u_username u = username ->
  verify_password sha password (u_password_hash u) = true ->
  (forall r, In r (user_sessions d) -> s_session_token r <> session_token) ->
  user_sessions_ok schema d
    (mkSession (next_rowid (map s_id (user_sessions d))) (u_id u) session_token
               (now + 24 * (3600 * 1000000))) = true ->
  exists d' s',
    login_submit sha schema session_token now username password (d, s)
      = ([Success "Login successful!"], (d', s')) /\
    is_authenticated s' = true /\
    get_current_user s' = Some (row_dict u) /\
    get_current_user_id s' = Some (VInt (u_id u)) /\
    (forall t, t < now + 24 * (3600 * 1000000) -> validate_session d' session_token t = Some u) /\
    is_authenticated (logout_user s') = false /\
    get_current_user_id (logout_user s') = None.
Proof.
  intros Hu Hp Ht Hids Hnames Hin Hname Hverify Hfresh Hok.
  unfold login_submit. rewrite Hu, Hp. cbn [negb orb fst snd].
  unfold authenticate_user.
  rewrite (select_users_by_username _ _ _ Hnames Hin Hname), Hverify.
  rewrite (bool_decide_eq_false_2 _ (row_dict_nonempty u)).
  rewrite (create_session_accepted schema session_token now (u_id u) None d Hok).
  cbn [fst snd]. rewrite Ht.
  eexists _, _. split; [reflexivity|].
  split; [reflexivity|]. split; [reflexivity|]. split; [|split; [|split; reflexivity]].
  - unfold get_current_user_id, get_current_user, login_user.
    cbn [ss_user_data default from_option id].
    rewrite (bool_decide_eq_false_2 _ (row_dict_nonempty u)).
    now rewrite row_dict_lookup.
  - intros t Hlt. rewrite (validate_fresh_session d u _ _ t session_token Hin Hids Hfresh).
    match goal with |- (if ?c then _ else _) = _ => replace c with true; [reflexivity|] end.
    symmetry. apply Z.ltb_lt. exact Hlt.
Qed.

Lemma login_submit_opens_session_witness :
  let d := set_users (fun _ => [example_user 1 "bob" "alice"
                                  (hash_password hex_encode example_salt "secret1")]) empty_db in
  exists d' s',
    login_submit hex_encode permissive_schema "tok" 1000 "bob" "secret1"
                 (d, fresh_session_state)
      = ([Success "Login successful!"], (d', s')) /\
    get_current_user_id s' = Some (VInt 1) /\
    validate_session d' "tok" 1000 = Some (example_user 1 "bob" "alice"
                                             (hash_password hex_encode example_salt "secret1")).
Proof.
  intros d.
  destruct (login_submit_opens_session hex_encode permissive_schema "tok" 1000 "bob" "secret1"
              d fresh_session_state
              (example_user 1 "bob" "alice" (hash_password hex_encode example_salt "secret1")))
    as (d' & s' & Hrun & _ & _ & Hid & Hvalid & _); try reflexivity.
  - simpl. repeat constructor. simpl. tauto.
  - simpl. repeat constructor. simpl. tauto.
  - simpl. now left.
  - intros r [].
  - exists d', s'. split; [exact Hrun|]. split; [exact Hid|]. apply Hvalid. lia.
Defined.

(** X20. What the log-in form never does.  Whatever is typed,
    [login_submit] leaves every table but [user_sessions] as it was, adds
    at most one session row, and that row carries the drawn token.  When
    it shows anything but the success notice the session state is
    unchanged; when a field is empty or the credentials are rejected the
    database is unchanged as well. *)
Theorem login_submit_frame (sha : string -> string) (schema : Schema)
    (session_token : string) (now : Z) (username password : string)
    (d : DB) (s : SessionState) :
  let result := login_submit sha schema session_token now username password (d, s) in
  (exists added,
      (length added <= 1)%nat /\
      Forall (fun r => s_session_token r = session_token) added /\
      fst (snd result) = set_user_sessions (fun rs => rs ++ added) d) /\
  (fst result <> [Success "Login successful!"] -> snd (snd result) = s) /\
  (nonempty username = false \/ nonempty password = false \/
   authenticate_user sha d username password = None ->
   snd result = (d, s)).
Proof.
  intros result. subst result. unfold login_submit. cbn [fst snd].
  assert (Hsame : d = set_user_sessions (fun rs => rs ++ []) d).
  { destruct d. unfold set_user_sessions. simpl. now rewrite app_nil_r. }
  destruct (negb (nonempty username) || negb (nonempty password)) eqn:Hempty.
  { cbn [fst snd]. split; [exists []; repeat split; [simpl; lia | constructor | exact Hsame]|].
    split; reflexivity. }
  apply orb_false_iff in Hempty as [Hu%negb_false_iff Hp%negb_false_iff].
  destruct (authenticate_user sha d username password) as [user|] eqn:Hauth.
  2:{ cbn [fst snd]. split; [exists []; repeat split; [simpl; lia | constructor | exact Hsame]|].
      split; reflexivity. }
  rewrite (bool_decide_eq_false_2 _ (row_dict_nonempty user)).
  destruct (create_session_appends schema session_token now (u_id user) None d)
    as (added & Hd' & Hadded).
  assert (Hlen : (length added <= 1)%nat).
  { revert Hd'. unfold create_session, with_connection, mbind, conn_bind, insert_session.
    destruct (user_sessions_ok schema d _); cbn [snd]; intros H;
      apply (f_equal user_sessions) in H; simpl in H;
      apply (f_equal (@length _)) in H; rewrite !length_app in H; simpl in H; lia. }
  destruct (fst (create_session schema session_token now (u_id user) None d)) as [token|];
    [destruct (nonempty token)|]; cbn [fst snd]; rewrite Hd'.
  - split; [exists added; auto|]. split; [congruence|].
    intros [H|[H|H]]; congruence.
  - split; [exists added; auto|]. split; [reflexivity|].
    intros [H|[H|H]]; congruence.
  - split; [exists added; auto|]. split; [reflexivity|].
    intros [H|[H|H]]; congruence.
Qed.

Lemma login_submit_frame_witness :
  snd (login_submit hex_encode permissive_schema "tok" 1000 "bob" "wrong"
                    (example_accounts, fresh_session_state))
  = (example_accounts, fresh_session_state).
Proof.
  apply (proj2 (proj2 (login_submit_frame hex_encode permissive_schema "tok" 1000 "bob" "wrong"
                         example_accounts fresh_session_state))).
  right. right. reflexivity.
Defined.

(** ** The registration form *)

Lemma login_submit_accepts (sha : string -> string) (schema : Schema)
    (session_token : string) (now : Z) (username password : string)
    (d : DB) (s : SessionState) (u : UserRow) :
  nonempty username = true -> nonempty password = true -> nonempty session_token = true ->
  authenticate_user sha d username password = Some u ->
  user_sessions_ok schema d
    (mkSession (next_rowid (map s_id (user_sessions d))) (u_id u) session_token
               (now + 24 * (3600 * 1000000))) = true ->
  login_submit sha schema session_token now username password (d, s)
  = ([Success "Login successful!"],
     (set_user_sessions
        (fun rs => rs ++ [mkSession (next_rowid (map s_id (user_sessions d))) (u_id u)
                                    session_token (now + 24 * (3600 * 1000000))]) d,
      login_user (row_dict u) session_token s)).
Proof.
  intros Hu Hp Ht Hauth Hok. unfold login_submit. rewrite Hu, Hp. cbn [negb orb fst snd].
  rewrite Hauth, (bool_decide_eq_false_2 _ (row_dict_nonempty u)).
  rewrite (create_session_accepted schema session_token now (u_id u) None d Hok).
  cbn [fst snd]. now rewrite Ht.
Qed.

Lemma authenticate_user_appended (sha : string -> string) (d : DB) (row : UserRow)
    (password : string) :
  (forall u, In u (users d) -> u_username u <> u_username row) ->
  verify_password sha password (u_password_hash row) = true ->
  authenticate_user sha (set_users (fun us => us ++ [row]) d) (u_username row) password
  = Some row.
Proof.
  intros Hfresh Hverify. unfold authenticate_user. cbn [users set_users].
  unfold select_users_by_username_or_email.
  rewrite !List.filter_app. cbn [List.filter]. rewrite String.eqb_refl.
  rewrite filter_none by (intros u Hu; apply String.eqb_neq; now apply Hfresh).
  cbn [app fetchone head]. now rewrite Hverify.
Qed.

(** The dict the registration form passes to [create_user]. *)
Lemma form_data_lookup (first_name last_name : string) (age : Z) (gender : string)
    (height_cm weight_kg : Z) (activity_level fitness_goals injuries experience_level : string)
    (field : string) :
  let form : gmap string sqlval :=
    list_to_map [("first_name", VText first_name); ("last_name", VText last_name);
                 ("age", VInt age); ("gender", VText gender);
                 ("height_cm", VInt height_cm); ("weight_kg", VInt weight_kg);
                 ("activity_level", VText activity_level);
                 ("fitness_goals", VText fitness_goals);
                 ("injuries", VText injuries);
                 ("experience_level", VText experience_level)] in
  form !! field
  = if String.eqb field "first_name" then Some (VText first_name)
    else if String.eqb field "last_name" then Some (VText last_name)
    else if String.eqb field "age" then Some (VInt age)
    else if String.eqb field "gender" then Some (VText gender)
    else if String.eqb field "height_cm" then Some (VInt height_cm)
    else if String.eqb field "weight_kg" then Some (VInt weight_kg)
    else if String.eqb field "activity_level" then Some (VText activity_level)
    else if String.eqb field "fitness_goals" then Some (VText fitness_goals)
    else if String.eqb field "injuries" then Some (VText injuries)
    else if String.eqb field "experience_level" then Some (VText experience_level)
    else None.
Proof.
  cbn zeta. cbn [list_to_map foldr fst snd].
  repeat (rewrite lookup_insert; case_decide as Hc;
          [subst field; reflexivity | apply String.eqb_neq in Hc;
                                      rewrite String.eqb_sym in Hc; rewrite Hc; clear Hc]).
  apply lookup_empty.
Qed.

Lemma register_submit_created (sha : string -> string) (salt : string) (now : Z)
    (first_name last_name username email password confirm_password : string)
    (age height_cm weight_kg : Z)
    (gender activity_level experience_level fitness_goals injuries : string) (d : DB) :
  forallb nonempty [first_name; last_name; username; email; password; confirm_password]
    = true ->
  password = confirm_password ->
  (6 <= String.length password)%nat ->
  (forall u, In u (users d) -> u_username u <> username /\ u_email u <> email) ->
  register_submit sha salt now first_name last_name username email password
                  confirm_password age height_cm weight_kg gender
                  activity_level experience_level fitness_goals injuries d
  = ([Success "Account created successfully! Please login."],
     set_users (fun us => us ++
       [mkUser (next_rowid (map u_id (users d))) username email
               (hash_password sha salt password)
               (VText first_name) (VText last_name) (VInt age) (VText gender)
               (VInt height_cm) (VInt weight_kg) (VText activity_level)
               (VText fitness_goals) (VText injuries) (VText experience_level)
               now]) d).
Proof.
  intros Hfilled Hsame Hlong Hfresh. unfold register_submit.
  rewrite Hfilled, (proj2 (String.eqb_eq _ _) Hsame). cbn [negb].
  rewrite (proj2 (Nat.ltb_ge _ _) Hlong).
  rewrite create_user_fresh by exact Hfresh.
  cbn [fst snd u_id].
  assert (Hpos : (next_rowid (map u_id (users d)) =? 0) = false).
  { apply Z.eqb_neq. unfold next_rowid.
    assert (0 <= fold_right Z.max 0 (map u_id (users d))); [|lia].
    induction (map u_id (users d)); simpl; lia. }
  rewrite Hpos. unfold dict_get. cbn [default from_option id].
  rewrite !form_data_lookup. reflexivity.
Qed.

(** X21. What the registration form does.  When a required field is
    empty, the two passwords differ, the password has fewer than six
    characters, or the username or the e-mail address is taken, the form
    shows one error and the database is unchanged.  Otherwise it shows the
    success notice and [users] gains exactly one row: its id is the next
    rowid, its profile columns are the form's values, and its password
    column is the salted record of the password.  The branch for a user id
    of 0 is never reached with success. *)
Theorem register_submit_outcome (sha : string -> string) (salt : string) (now : Z)
    (first_name last_name username email password confirm_password : string)
    (age height_cm weight_kg : Z)
    (gender activity_level experience_level fitness_goals injuries : string) (d : DB) :
  let result := register_submit sha salt now first_name last_name username email password
                                confirm_password age height_cm weight_kg gender
                                activity_level experience_level fitness_goals injuries d in
  let valid := forallb nonempty
                 [first_name; last_name; username; email; password; confirm_password]
               && String.eqb password confirm_password
               && (6 <=? String.length password)%nat in
  let taken := existsb (fun u => String.eqb (u_username u) username ||
                                 String.eqb (u_email u) email) (users d) in
  (valid && negb taken = false ->
   snd result = d /\ exists message, fst result = [Error message]) /\
  (valid && negb taken = true ->
   result = ([Success "Account created successfully! Please login."],
             set_users (fun us => us ++
               [mkUser (next_rowid (map u_id (users d))) username email
                       (hash_password sha salt password)
                       (VText first_name) (VText last_name) (VInt age) (VText gender)
                       (VInt height_cm) (VInt weight_kg) (VText activity_level)
                       (VText fitness_goals) (VText injuries) (VText experience_level)
                       now]) d)).
Proof.
  intros result valid taken. subst result valid taken.
  destruct (forallb nonempty _) eqn:Hfilled; cbn [andb].
  2:{ split; [intros _ | discriminate]. unfold register_submit. rewrite Hfilled.
      split; [reflexivity | eexists; reflexivity]. }
  destruct (String.eqb password confirm_password) eqn:Hsame; cbn [andb].
  2:{ split; [intros _ | discriminate]. unfold register_submit. rewrite Hfilled, Hsame.
      split; [reflexivity | eexists; reflexivity]. }
  destruct (Nat.leb_spec 6 (String.length password)) as [Hlong|Hshort]; cbn [andb].
  2:{ split; [intros _ | discriminate]. unfold register_submit. rewrite Hfilled, Hsame.
      rewrite (proj2 (Nat.ltb_lt _ _) Hshort).
      split; [reflexivity | eexists; reflexivity]. }
  destruct (existsb _ (users d)) eqn:Htaken; cbn [negb].
  - split; [intros _ | discriminate].
    apply existsb_exists in Htaken as (u & Hin & Hm).
    unfold register_submit. rewrite Hfilled, Hsame, (proj2 (Nat.ltb_ge _ _) Hlong).
    rewrite create_user_conflict.
    + split; [reflexivity | eexists; reflexivity].
    + exists u. split; [assumption|].
      apply orb_true_iff in Hm as [H%String.eqb_eq|H%String.eqb_eq]; auto.
  - split; [discriminate | intros _].
    apply register_submit_created.
    + exact Hfilled.
    + now apply String.eqb_eq.
    + exact Hlong.
    + intros u Hu.
      assert (Hm : String.eqb (u_username u) username || String.eqb (u_email u) email
                   = false).
      { destruct (String.eqb (u_username u) username || String.eqb (u_email u) email)
          eqn:E; [|reflexivity].
        rewrite <- Htaken. symmetry. apply existsb_exists. exists u. auto. }
      apply orb_false_iff in Hm as [H1 H2]. split; now apply String.eqb_neq.
Qed.

Lemma register_submit_outcome_witness :
  exists message,
    register_submit hex_encode example_salt 0 "Bo" "Bee" "bob" "bo@x.com" "secret1" "secret1"
                    30 180 75 "Male" "Sedentary" "Beginner" "" "" example_accounts
    = ([Error message], example_accounts).
Proof.
  destruct (proj1 (register_submit_outcome hex_encode example_salt 0 "Bo" "Bee" "bob"
                     "bo@x.com" "secret1" "secret1" 30 180 75 "Male" "Sedentary" "Beginner"
                     "" "" example_accounts) eq_refl) as (Hdb & message & Hnotice).
  exists message. apply injective_projections; assumption.
Defined.

(** X22. An account made through the registration form can log in.  After
    a registration that passes the form's checks with a username and an
    e-mail address nobody has, logging in with the same username and
    password succeeds (the digest being hexadecimal and the salt a 16-byte
    token, as [hashlib] and [secrets] give them): the session state is
    authenticated as the new user, its user data carries the form's
    values, and the stored session validates to the new row.  Logging in
    with the e-mail address works as well when no username equals it. *)
Theorem register_then_login (sha : string -> string) (schema : Schema)
    (salt : string) (registered : Z)
    (first_name last_name username email password confirm_password : string)
    (age height_cm weight_kg : Z)
    (gender activity_level experience_level fitness_goals injuries : string)
    (session_token : string) (now : Z) (d : DB) (s : SessionState) :
  let d1 := snd (register_submit sha salt registered first_name last_name username email
                                 password confirm_password age height_cm weight_kg gender
                                 activity_level experience_level fitness_goals injuries d) in
  let user_id := next_rowid (map u_id (users d)) in
  (forall text, is_hex (sha text) = true) ->
  is_token_hex 16 salt = true ->
  forallb nonempty [first_name; last_name; username; email; password; confirm_password]
    = true ->
  password = confirm_password ->
  (6 <= String.length password)%nat ->
  users_wf (users d) ->
  (forall u, In u (users d) -> u_username u <> username /\ u_email u <> email) ->
  nonempty session_token = true ->
  (forall r, In r (user_sessions d) -> s_session_token r <> session_token) ->
  user_sessions_ok schema d1
    (mkSession (next_rowid (map s_id (user_sessions d))) user_id session_token
               (now + 24 * (3600 * 1000000))) = true ->
  exists d2 s2 row,
    login_submit sha schema session_token now username password (d1, s)
      = ([Success "Login successful!"], (d2, s2)) /\
    is_authenticated s2 = true /\
    get_current_user_id s2 = Some (VInt user_id) /\
    get_current_user s2 = Some (row_dict row) /\
    row_dict row !! "username" = Some (VText username) /\
    row_dict row !! "first_name" = Some (VText first_name) /\
    row_dict row !! "weight_kg" = Some (VInt weight_kg) /\
    validate_session d2 session_token now = Some row /\
    ((forall u, In u (users d) -> u_username u <> email) -> username <> email ->
     fst (login_submit sha schema session_token now email password (d1, s))
     = [Success "Login successful!"]).
Proof.
  intros d1 user_id Hhex Hsalt Hfilled Hsame Hlong (Hids & Hnames & Hemails) Hfresh Ht
         Htokens Hok.
  assert (Hreg := register_submit_created sha salt registered first_name last_name
                    username email password confirm_password age height_cm weight_kg
                    gender activity_level experience_level fitness_goals injuries d
                    Hfilled Hsame Hlong Hfresh).
  subst d1. rewrite Hreg in *. cbn [snd] in *.
  set (row := mkUser _ username email _ _ _ _ _ _ _ _ _ _ _ _) in *.
  set (d1 := set_users _ d) in *.
  simpl in Hfilled. rewrite !andb_true_iff in Hfilled.
  destruct Hfilled as (_ & _ & Hu & He & Hp & _).
  assert (Hverify : verify_password sha password (u_password_hash row) = true)
    by now apply hash_password_verifies.
  assert (Hauth : authenticate_user sha d1 username password = Some row).
  { apply (authenticate_user_appended sha d row password); [|assumption].
    intros u Hin. now apply Hfresh. }
  exists (set_user_sessions
            (fun rs => rs ++ [mkSession (next_rowid (map s_id (user_sessions d))) user_id
                                        session_token (now + 24 * (3600 * 1000000))]) d1),
         (login_user (row_dict row) session_token s), row.
  split; [now apply (login_submit_accepts sha schema session_token now username password
                       d1 s row)|].
  split; [reflexivity|].
  split.
  { unfold get_current_user_id, get_current_user, login_user.
    cbn [ss_user_data default from_option id].
    rewrite (bool_decide_eq_false_2 _ (row_dict_nonempty row)). now rewrite row_dict_lookup. }
  split; [reflexivity|].
  rewrite !row_dict_lookup. split; [reflexivity|]. split; [reflexivity|].
  split; [reflexivity|]. split.
  - rewrite (validate_fresh_session d1 row _ _ now session_token).
    + replace (now <? now + 24 * (3600 * 1000000)) with true; [reflexivity|].
      symmetry. apply Z.ltb_lt. lia.
    + apply in_or_app. right. now left.
    + unfold d1. cbn [users set_users]. rewrite map_app. apply nodup_snoc; [assumption|].
      intros Hin%next_rowid_gt. cbn in Hin. fold user_id in Hin. lia.
    + exact Htokens.
  - intros Hnone Hne.
    assert (Hauth' : authenticate_user sha d1 email password = Some row).
    { unfold authenticate_user.
      rewrite (select_users_by_email email (users d1) row); [now rewrite Hverify| | | |].
      - unfold d1. cbn [users set_users]. rewrite map_app. apply nodup_snoc; [assumption|].
        intros (u & Hue & Hin)%in_map_iff. now destruct (Hfresh u Hin).
      - apply in_or_app. right. now left.
      - reflexivity.
      - intros v [Hv|[<-|[]]]%in_app_iff; [now apply Hnone | exact Hne]. }
    now rewrite (login_submit_accepts sha schema session_token now email password d1 s row).
Qed.

Lemma register_then_login_witness :
  exists d2 s2,
    login_submit hex_encode permissive_schema "tok" 1000 "alice" "secret1"
      (snd (register_submit hex_encode example_salt 0 "Al" "Lee" "alice" "a@x.com"
              "secret1" "secret1" 30 165 60 "Female" "Sedentary" "Beginner"
              EmptyString EmptyString example_accounts),
       fresh_session_state)
    = ([Success "Login successful!"], (d2, s2)) /\
    get_current_user_id s2 = Some (VInt 2).
Proof.
  destruct (register_then_login hex_encode permissive_schema example_salt 0
              "Al" "Lee" "alice" "a@x.com" "secret1" "secret1" 30 165 60
              "Female" "Sedentary" "Beginner" EmptyString EmptyString "tok" 1000
              example_accounts fresh_session_state)
    as (d2 & s2 & row & Hlogin & _ & Hid & _).
  - exact hex_encode_is_hex.
  - reflexivity.
  - reflexivity.
  - reflexivity.
  - simpl. lia.
  - exact example_accounts_wf.
  - intros u [<-|[]]. split; discriminate.
  - reflexivity.
  - intros r [].
  - reflexivity.
  - exists d2, s2. split; [exact Hlogin | exact Hid].
Defined.

(** ** The profile form *)

(** X23. The profile form keeps the session's copy of the user in step
    with the stored row.  When the session's user data is the dict of a
    row of [users] whose id no other row has, submitting the form shows
    the success notice, leaves every other table and every other user's
    row alone, and the user data of the session afterwards is again the
    dict of the stored row with that id; the username, the e-mail
    address, the password record and the creation time are as before and
    the ten profile columns hold the form's values. *)
Theorem profile_submit_keeps_session_in_step
    (first_name last_name : string) (age : Z) (gender : string) (height_cm weight_kg : Z)
    (activity_level fitness_goals injuries experience_level : string)
    (d : DB) (s : SessionState) (u : UserRow) :
  In u (users d) ->
  List.NoDup (map u_id (users d)) ->
  let stored := mkUser (u_id u) (u_username u) (u_email u) (u_password_hash u)
                       (VText first_name) (VText last_name) (VInt age) (VText gender)
                       (VInt height_cm) (VInt weight_kg) (VText activity_level)
                       (VText fitness_goals) (VText injuries) (VText experience_level)
                       (u_created_at u) in
  exists d' s',
    profile_submit first_name last_name age gender height_cm weight_kg activity_level
                   fitness_goals injuries experience_level (row_dict u) (d, s)
      = ([Success "Profile updated successfully!"], (d', s')) /\
    get_current_user s' = Some (row_dict stored) /\
    is_authenticated s' = is_authenticated s /\
    d' = set_users (fun _ => users d') d /\
    List.filter (fun v => u_id v =? u_id u) (users d') = [stored] /\
    List.filter (fun v => negb (u_id v =? u_id u)) (users d')
    = List.filter (fun v => negb (u_id v =? u_id u)) (users d).
Proof.
  intros Hin Hnd stored. unfold profile_submit.
  set (profile_data := list_to_map _ : gmap string sqlval).
  assert (Hform : forall field, profile_data !! field = _)
    by (intros field; apply (form_data_lookup first_name last_name age gender height_cm
                               weight_kg activity_level fitness_goals injuries
                               experience_level field)).
  rewrite row_dict_lookup. change (user_column "id" u) with (Some (VInt (u_id u))).
  cbn [fst snd].
  assert (Hassign : update_assignments profile_data
                    = [("first_name", VText first_name); ("last_name", VText last_name);
                       ("age", VInt age); ("gender", VText gender);
                       ("height_cm", VInt height_cm); ("weight_kg", VInt weight_kg);
                       ("activity_level", VText activity_level);
                       ("fitness_goals", VText fitness_goals);
                       ("injuries", VText injuries);
                       ("experience_level", VText experience_level)]).
  { unfold update_assignments, profile_fields. cbn [omap list_omap].
    rewrite !Hform. reflexivity. }
  assert (Hrow : forall v, u_id v = u_id u -> In v (users d) ->
                           apply_assignments (update_assignments profile_data) v = stored).
  { intros v Hid Hv. assert (v = u) as ->.
    { clear -Hnd Hin Hid Hv. induction (users d) as [|w l IH]; [destruct Hin|].
      simpl in Hnd. apply NoDup_cons_iff in Hnd as [Hw Hnd].
      destruct Hin as [->|Hin], Hv as [->|Hv]; auto.
      - exfalso. apply Hw. rewrite <- Hid. now apply in_map.
      - exfalso. apply Hw. rewrite Hid. now apply in_map. }
    rewrite Hassign. reflexivity. }
  unfold update_user_profile, with_connection. rewrite Hassign.
  unfold mbind, conn_bind, update_users, modify_db, mret, conn_ret. cbn [fst snd].
  rewrite <- Hassign.
  eexists _, _. split; [reflexivity|].
  split; [|split; [reflexivity|split; [|split]]].
  - unfold get_current_user. cbn [ss_user_data default from_option id].
    apply (f_equal Some).
    apply map_eq. intros field. rewrite lookup_union, Hform, !row_dict_lookup.
    unfold user_column. cbn [u_id u_username u_email u_password_hash u_first_name
      u_last_name u_age u_gender u_height_cm u_weight_kg u_activity_level u_fitness_goals
      u_injuries u_experience_level u_created_at stored].
    repeat match goal with
           | |- context [String.eqb field ?c] => destruct (String.eqb_spec field c);
                                                 [subst field; reflexivity|]
           end.
    reflexivity.
  - destruct d. reflexivity.
  - cbn [users set_users].
    clear -Hnd Hin Hrow. induction (users d) as [|w l IH]; [destruct Hin|].
    simpl in Hnd. apply NoDup_cons_iff in Hnd as [Hw Hnd]. cbn [map List.filter].
    destruct (Z.eqb_spec (u_id w) (u_id u)) as [Heq|Hne].
    + rewrite (Hrow w Heq (or_introl eq_refl)). cbn [u_id stored].
      rewrite Z.eqb_refl. f_equal. apply filter_none. intros x (y & <- & Hy)%in_map_iff.
      destruct (Z.eqb_spec (u_id y) (u_id u)) as [Hy'|Hy'].
      * exfalso. apply Hw. rewrite Heq, <- Hy'. now apply in_map.
      * now apply Z.eqb_neq.
    + rewrite (proj2 (Z.eqb_neq _ _) Hne). destruct Hin as [->|Hin]; [congruence|].
      apply IH; auto. intros v Hv Hl. apply Hrow; auto. now right.
  - cbn [users set_users]. clear. induction (users d) as [|w l IH]; [reflexivity|].
    cbn [map List.filter].
    destruct (Z.eqb_spec (u_id w) (u_id u)) as [Heq|Hne].
    + assert (Hid : forall asg v, u_id (apply_assignments asg v) = u_id v).
      { intros asg. unfold apply_assignments.
        induction asg as [|a asg IHa]; intros v; simpl; [reflexivity|].
        rewrite IHa. apply set_user_column_id. }
      rewrite Hid, (proj2 (Z.eqb_eq _ _) Heq). exact IH.
    + rewrite (proj2 (Z.eqb_neq _ _) Hne). cbn [negb]. now rewrite IH.
Qed.

Lemma profile_submit_keeps_session_in_step_witness :
  exists d' s',
    profile_submit "Carol" "Diaz" 31 "Female" 170 72 "Very Active" "run a marathon"
                   EmptyString "Advanced" (row_dict example_profile_row)
                   (example_profiles, fresh_session_state)
      = ([Success "Profile updated successfully!"], (d', s')) /\
    (get_current_user s' ≫= (.!! "weight_kg")) = Some (VInt 72) /\
    (get_current_user s' ≫= (.!! "username")) = Some (VText "carol").
Proof.
  destruct (profile_submit_keeps_session_in_step "Carol" "Diaz" 31 "Female" 170 72
              "Very Active" "run a marathon" EmptyString "Advanced"
              example_profiles fresh_session_state example_profile_row)
    as (d' & s' & Hrun & Huser & _).
  - simpl. tauto.
  - simpl. repeat constructor; simpl; intuition discriminate.
  - exists d', s'. split; [exact Hrun|]. rewrite Huser. cbn [mbind option_bind].
    rewrite !row_dict_lookup. split; reflexivity.
Defined.

(** ** The Gemini client *)

Lemma find_from_range (c : ascii) (s : string) (i : Z) :
  GeminiClient.find_from c s i = -1 \/
  i <= GeminiClient.find_from c s i < i + Z.of_nat (String.length s).
Proof.
  revert i. induction s as [|d s IH]; intros i; simpl; [now left|].
  destruct (Ascii.eqb d c); [right; lia|].
  destruct (IH (i + 1)) as [->|Hr]; [now left | right; lia].
Qed.

Lemma rfind_from_range (c : ascii) (s : string) (i last : Z) :
  -1 <= last < i ->
  -1 <= GeminiClient.rfind_from c s i last < i + Z.of_nat (String.length s).
Proof.
  revert i last. induction s as [|d s IH]; intros i last Hl; simpl; [lia|].
  destruct (Ascii.eqb d c).
  - specialize (IH (i + 1) i). lia.
  - specialize (IH (i + 1) last). lia.
Qed.

(** The first occurrence splits the text. *)
Lemma find_from_split (c : ascii) (s : string) (i : Z) :
  GeminiClient.find_from c s i <> -1 -> 0 <= i ->
  exists before after,
    s = before +:+ String c after /\
    GeminiClient.find_from c s i = i + Z.of_nat (String.length before).
Proof.
  revert i. induction s as [|d s IH]; intros i Hfound Hi; simpl in *; [congruence|].
  destruct (Ascii.eqb_spec d c) as [->|Hne].
  - exists EmptyString, s. split; [reflexivity | simpl; lia].
  - destruct (IH (i + 1) Hfound) as (before & after & -> & Hidx); [lia|].
    exists (String d before), after. split; [reflexivity|]. rewrite Hidx. simpl String.length. lia.
Qed.

Lemma substring_skip (before rest : string) (m : nat) :
  substring (String.length before) m (before +:+ rest) = substring 0 m rest.
Proof. induction before as [|d before IH]; simpl; [reflexivity | exact IH]. Qed.

Lemma append_length (a b : string) :
  String.length (a +:+ b) = (String.length a + String.length b)%nat.
Proof. induction a as [|d a IH]; simpl; [reflexivity | now rewrite IH]. Qed.

Lemma json_str_end (response_text : string) :
  (GeminiClient.rfind "}" response_text + 1 =? -1) = false /\
  negb (GeminiClient.rfind "}" response_text + 1 =? -1) = true.
Proof.
  assert (Hr := rfind_from_range "}" response_text 0 (-1)).
  assert (H : (GeminiClient.rfind "}" response_text + 1 =? -1) = false)
    by (apply Z.eqb_neq; unfold GeminiClient.rfind; lia).
  now rewrite H.
Qed.

(** X24. What [json.loads] is given.  Whenever the text has an opening
    brace, the slice from the first opening brace to the last closing
    brace is empty (no closing brace follows) or starts with that opening
    brace; and the test on [end_idx] never fails, so whether the decoder
    runs depends on the opening brace alone. *)
Theorem json_str_starts_with_brace (response_text : string) :
  (GeminiClient.rfind "}" response_text + 1 =? -1) = false /\
  (GeminiClient.find "{" response_text <> -1 ->
   GeminiClient.json_str response_text = EmptyString \/
   exists rest, GeminiClient.json_str response_text = String "{" rest).
Proof.
  split.
  - apply json_str_end.
  - intros Hfound. unfold GeminiClient.json_str, GeminiClient.slice.
    unfold GeminiClient.find in *.
    destruct (find_from_split "{" response_text 0 Hfound) as (before & after & Htext & Hidx);
      [lia|].
    rewrite Hidx. cbn zeta. clear Hidx Hfound. subst response_text.
    set (len := Z.of_nat (String.length (before +:+ String "{" after))).
    assert (Hlen : len = Z.of_nat (String.length before) + 1 + Z.of_nat (String.length after)).
    { unfold len. rewrite append_length. simpl String.length. lia. }
    assert (Hlo : GeminiClient.slice_bound len (0 + Z.of_nat (String.length before))
                  = Z.of_nat (String.length before)).
    { unfold GeminiClient.slice_bound.
      destruct (Z.ltb_spec (0 + Z.of_nat (String.length before)) 0); lia. }
    rewrite Hlo, Nat2Z.id, substring_skip.
    destruct (Z.to_nat _) as [|m]; [now left | right].
    simpl. eexists. reflexivity.
Qed.

Lemma json_str_starts_with_brace_witness :
  GeminiClient.json_str "Here is your plan: {} Enjoy!" = EmptyString \/
  exists rest, GeminiClient.json_str "Here is your plan: {} Enjoy!" = String "{" rest.
Proof.
  apply (proj2 (json_str_starts_with_brace "Here is your plan: {} Enjoy!")).
  vm_compute. discriminate.
Defined.

Section GeminiFacts.

Context {value : Type} `{GeminiClient.PyValue value}.
Variable handle : Type.
Variable new_client : string -> option handle.
Variable generate_content : handle -> string -> GeminiClient.exception + option string.
Variable json_loads : string -> option (gmap string value).
Variable workout_prompt : gmap string value -> option (gmap string value) -> string.
Variable diet_prompt : gmap string value -> list string -> gmap string value -> string.

Local Abbreviation parse_workout := (GeminiClient._parse_workout_response json_loads).
Local Abbreviation parse_diet := (GeminiClient._parse_diet_response json_loads).
Local Abbreviation generate_workout :=
  (GeminiClient.generate_workout_plan handle generate_content json_loads workout_prompt).
Local Abbreviation generate_diet :=
  (GeminiClient.generate_diet_plan handle generate_content json_loads diet_prompt).

Lemma fallback_workout_has_fields (response_text : string) :
  GeminiClient.has_fields ["name"; "description"; "days"]
    (GeminiClient._create_fallback_workout_plan response_text) = true.
Proof. reflexivity. Qed.

Lemma fallback_diet_has_fields (response_text : string) :
  GeminiClient.has_fields ["name"; "meals"]
    (GeminiClient._create_fallback_diet_plan response_text) = true.
Proof. reflexivity. Qed.

Lemma parse_workout_some (response_text : string) (plan : gmap string value) :
  parse_workout response_text = inr (Some plan) ->
  GeminiClient.has_fields ["name"; "description"; "days"] plan = true.
Proof.
  unfold GeminiClient._parse_workout_response.
  destruct (negb _ && negb _); [|discriminate].
  destruct (json_loads _) as [parsed|]; [|discriminate].
  destruct (GeminiClient.has_fields _ parsed) eqn:E; intros [= <-];
    [exact E | apply fallback_workout_has_fields].
Qed.

Lemma parse_diet_some (response_text : string) (plan : gmap string value) :
  parse_diet response_text = inr (Some plan) ->
  GeminiClient.has_fields ["name"; "meals"] plan = true.
Proof.
  unfold GeminiClient._parse_diet_response, GeminiClient.try_except.
  destruct (negb _ && negb _).
  - destruct (json_loads _) as [parsed|]; [|discriminate].
    destruct (GeminiClient.has_fields _ parsed) eqn:E; intros [= <-];
      [exact E | apply fallback_diet_has_fields].
  - intros [= <-]. apply fallback_diet_has_fields.
Qed.

(** X25. The two response parsers differ where the response has no
    usable JSON.  On a text without an opening brace the workout parser
    returns [None] while the diet parser returns its fallback plan; on a
    text whose slice does not decode the workout parser raises
    [JSONDecodeError] while the diet parser returns [None], and the diet
    parser raises on no text at all.  A plan that either parser returns
    has the parser's required fields. *)
Theorem parse_response_cases (response_text : string) :
  (GeminiClient.find "{" response_text = -1 ->
   parse_workout response_text = inr None /\
   parse_diet response_text
   = inr (Some (GeminiClient._create_fallback_diet_plan response_text))) /\
  (GeminiClient.find "{" response_text <> -1 ->
   json_loads (GeminiClient.json_str response_text) = None ->
   parse_workout response_text = inl GeminiClient.JSONDecodeError /\
   parse_diet response_text = inr None) /\
  (forall plan, parse_workout response_text = inr (Some plan) ->
     GeminiClient.has_fields ["name"; "description"; "days"] plan = true) /\
  (forall plan, parse_diet response_text = inr (Some plan) ->
     GeminiClient.has_fields ["name"; "meals"] plan = true) /\
  (forall e, parse_diet response_text <> inl e).
Proof.
  assert (Hend := proj1 (json_str_end response_text)).
  split; [|split; [|split; [|split]]].
  - intros Hnone. unfold GeminiClient._parse_workout_response,
      GeminiClient._parse_diet_response. now rewrite Hnone.
  - intros Hsome Hbad. apply Z.eqb_neq in Hsome.
    unfold GeminiClient._parse_workout_response, GeminiClient._parse_diet_response.
    fold (GeminiClient.json_str response_text).
    now rewrite Hsome, Hend, Hbad.
  - apply parse_workout_some.
  - apply parse_diet_some.
  - intros e. unfold GeminiClient._parse_diet_response, GeminiClient.try_except.
    destruct (negb _ && negb _); [|discriminate].
    destruct (json_loads _) as [parsed|]; [|discriminate].
    destruct (GeminiClient.has_fields _ parsed); discriminate.
Qed.

(** X26. A client made without an API key is never reported as
    unavailable: [__init__] returns before it sets [client], so
    [is_available], and with it both generators, raise [AttributeError].
    With a key, [is_available] tells whether the client could be made. *)
Theorem unconfigured_client_raises (env_key : option string)
    (user_profile : gmap string value) (preferences : option (gmap string value))
    (available_foods : list string) (dietary_goals : gmap string value) :
  let self := GeminiClient.__init__ handle new_client env_key in
  ((forall key, env_key = Some key -> nonempty key = false) ->
   GeminiClient.is_available handle self = inl GeminiClient.AttributeError /\
   generate_workout self user_profile preferences = inl GeminiClient.AttributeError /\
   generate_diet self user_profile available_foods dietary_goals
   = inl GeminiClient.AttributeError) /\
  (forall key, env_key = Some key -> nonempty key = true ->
   GeminiClient.is_available handle self = inr (bool_decide (is_Some (new_client key)))).
Proof.
  intros self. subst self. split.
  - intros Hkey.
    assert (Hself : GeminiClient.client handle (GeminiClient.__init__ handle new_client env_key)
                    = None).
    { unfold GeminiClient.__init__. destruct env_key as [key|]; [|reflexivity].
      now rewrite (Hkey key eq_refl). }
    unfold GeminiClient.generate_workout_plan, GeminiClient.generate_diet_plan,
      GeminiClient.is_available. now rewrite Hself.
  - intros key -> Hkey. unfold GeminiClient.__init__, GeminiClient.is_available.
    rewrite Hkey. cbn. now destruct (new_client key).
Qed.

Lemma truthy_some (plan : option (gmap string value)) :
  GeminiClient.truthy plan = true -> exists p, plan = Some p.
Proof. destruct plan as [p|]; [eauto | discriminate]. Qed.

Lemma has_fields_lookup (fields : list string) (plan : gmap string value) (field : string) :
  GeminiClient.has_fields fields plan = true -> In field fields -> is_Some (plan !! field).
Proof.
  unfold GeminiClient.has_fields. rewrite forallb_forall. intros Hall Hin.
  exact (bool_decide_eq_true_1 _ (Hall field Hin)).
Qed.

(** X27. A generated plan is named by the caller.  When
    [generate_workout_plan] returns a plan, [preferences] is a dict with a
    [name], the plan's [name] is that value whatever the model answered,
    its [gemini_prompt] is the first 500 characters of the prompt, and it
    has a [description] and [days]; so a call that leaves [preferences]
    out never returns a plan.  [generate_diet_plan] does the same with
    [dietary_goals], and its plan has [meals]. *)
Theorem generated_plan_is_named_by_caller (self : GeminiClient.GeminiClient handle)
    (user_profile : gmap string value) (plan : gmap string value) :
  (forall preferences,
     generate_workout self user_profile preferences = inr (Some plan) ->
     exists prefs name,
       preferences = Some prefs /\ prefs !! "name" = Some name /\
       plan !! "name" = Some name /\
       plan !! "gemini_prompt"
       = Some (GeminiClient.py_str
                 (GeminiClient.slice (workout_prompt user_profile preferences) 0 500)) /\
       is_Some (plan !! "description") /\ is_Some (plan !! "days")) /\
  generate_workout self user_profile None <> inr (Some plan) /\
  (forall available_foods dietary_goals,
     generate_diet self user_profile available_foods dietary_goals = inr (Some plan) ->
     exists name,
       dietary_goals !! "name" = Some name /\
       plan !! "name" = Some name /\
       plan !! "gemini_prompt"
       = Some (GeminiClient.py_str
                 (GeminiClient.slice
                    (diet_prompt user_profile available_foods dietary_goals) 0 500)) /\
       is_Some (plan !! "meals")).
Proof.
  assert (Hworkout : forall preferences,
             generate_workout self user_profile preferences = inr (Some plan) ->
             exists prefs name,
               preferences = Some prefs /\ prefs !! "name" = Some name /\
               plan !! "name" = Some name /\
               plan !! "gemini_prompt"
               = Some (GeminiClient.py_str
                         (GeminiClient.slice (workout_prompt user_profile preferences) 0 500)) /\
               is_Some (plan !! "description") /\ is_Some (plan !! "days")).
  { intros preferences. unfold GeminiClient.generate_workout_plan, GeminiClient.try_except.
    destruct (GeminiClient.is_available handle self) as [e|[|]]; [discriminate| |discriminate].
    destruct (GeminiClient.request handle generate_content self _) as [e|text];
      [discriminate|].
    destruct text as [response_text|]; cbn [GeminiClient.on_text]; [|discriminate].
    destruct (parse_workout response_text) as [e|parsed] eqn:Hparse; [discriminate|].
    destruct (GeminiClient.truthy parsed) eqn:Htruthy; [|discriminate].
    apply truthy_some in Htruthy as (p & ->). apply parse_workout_some in Hparse.
    destruct preferences as [prefs|]; cbn [GeminiClient.subscript]; [|discriminate].
    destruct (prefs !! "name") as [name|] eqn:Hname; [|discriminate].
    intros [= <-]. exists prefs, name. cbn [default from_option id].
    split; [reflexivity|]. split; [exact Hname|].
    split; [apply lookup_insert_eq|].
    split; [rewrite lookup_insert_ne by discriminate; apply lookup_insert_eq|].
    split; rewrite !lookup_insert_ne by discriminate.
    - apply (has_fields_lookup _ _ "description" Hparse). right. now left.
    - apply (has_fields_lookup _ _ "days" Hparse). right. right. now left. }
  split; [exact Hworkout|]. split.
  - intros Hsome. destruct (Hworkout None Hsome) as (prefs & name & Hp & _). discriminate.
  - intros available_foods dietary_goals.
    unfold GeminiClient.generate_diet_plan, GeminiClient.try_except.
    destruct (GeminiClient.is_available handle self) as [e|[|]]; [discriminate| |discriminate].
    destruct (GeminiClient.request handle generate_content self _) as [e|text];
      [discriminate|].
    destruct text as [response_text|]; cbn [GeminiClient.on_text]; [|discriminate].
    destruct (parse_diet response_text) as [e|parsed] eqn:Hparse; [discriminate|].
    destruct (GeminiClient.truthy parsed) eqn:Htruthy; [|discriminate].
    apply truthy_some in Htruthy as (p & ->). apply parse_diet_some in Hparse.
    cbn [GeminiClient.subscript].
    destruct (dietary_goals !! "name") as [name|] eqn:Hname; [|discriminate].
    intros [= <-]. exists name. cbn [default from_option id].
    split; [reflexivity|].
    split; [apply lookup_insert_eq|].
    split; [rewrite lookup_insert_ne by discriminate; apply lookup_insert_eq|].
    rewrite !lookup_insert_ne by discriminate.
    apply (has_fields_lookup _ _ "meals" Hparse). right. now left.
Qed.

End GeminiFacts.

Lemma parse_response_cases_witness :
  GeminiClient._parse_workout_response example_json_loads "no plan today" = inr None /\
  GeminiClient._parse_diet_response example_json_loads "no plan today"
  = inr (Some (GeminiClient._create_fallback_diet_plan "no plan today")).
Proof.
  apply (proj1 (parse_response_cases example_json_loads "no plan today")). reflexivity.
Defined.

Lemma unconfigured_client_raises_witness :
  GeminiClient.generate_workout_plan unit example_generate_content example_json_loads
    (fun _ _ => "prompt") (GeminiClient.__init__ unit (fun _ => Some tt) (Some EmptyString))
    ∅ None
  = inl GeminiClient.AttributeError.
Proof.
  apply (proj1 (unconfigured_client_raises unit (fun _ => Some tt) example_generate_content
                  example_json_loads (fun _ _ => "prompt") (fun _ _ _ => "prompt")
                  (Some EmptyString) ∅ None [] ∅)).
  intros key [= <-]. reflexivity.
Defined.

(** The model answers with an empty object: the fallback plan comes back
    under the caller's name. *)
Lemma generated_plan_is_named_by_caller_witness :
  exists plan,
    GeminiClient.generate_workout_plan unit example_generate_content example_json_loads
      (fun _ _ => "prompt") (GeminiClient.__init__ unit (fun _ => Some tt) (Some "key"))
      ∅ (Some {[ "name" := JStr "Spring" ]})
    = inr (Some plan) /\
    plan !! "name" = Some (JStr "Spring") /\
    is_Some (plan !! "days").
Proof.
  assert (Hgen : exists plan,
             GeminiClient.generate_workout_plan unit example_generate_content
               example_json_loads (fun _ _ => "prompt")
               (GeminiClient.__init__ unit (fun _ => Some tt) (Some "key"))
               ∅ (Some {[ "name" := JStr "Spring" ]}) = inr (Some plan))
    by (vm_compute; eexists; reflexivity).
  destruct Hgen as (plan & Hgen). exists plan. split; [exact Hgen|].
  destruct (proj1 (generated_plan_is_named_by_caller unit example_generate_content
                     example_json_loads (fun _ _ => "prompt") (fun _ _ _ => "prompt")
                     _ ∅ plan) _ Hgen)
    as (prefs & name & [= <-] & Hname & Hplan & _ & _ & Hdays).
  rewrite Hplan. split; [|exact Hdays].
  rewrite lookup_singleton_eq in Hname. exact (eq_sym Hname).
Defined.

(** ** Workout history *)

(** X28. What the workout history reports.  Every row stands for at
    least one session and has completion rate 1; it stems from a workout
    log of the user inside the window that has an exercise log and whose
    workout day still exists, and it carries that log's plan name and
    that day's number.  Hence a user whose workout logs have no exercise
    logs, or whose logged days are gone, has an empty history. *)
Theorem get_workout_history_rows (d : DB) (now user_id : Z) (date_range : string) :
  (forall row, In row (get_workout_history d now user_id date_range) ->
     (1 <= h_sessions row)%nat /\ h_completion_rate row = 1 /\
     exists wl el wd,
       In wl (workout_logs d) /\ wl_user_id wl = user_id /\
       start_date now (window_days date_range) <= sql_date (wl_completed_at wl) /\
       In el (exercise_logs d) /\ el_workout_log_id el = wl_id wl /\
       In wd (workout_days d) /\ wd_id wd = wl_workout_day_id wl /\
       h_name row = wl_plan_name wl /\ h_day_number row = wd_day_number wd) /\
  ((forall wl el, In wl (workout_logs d) -> wl_user_id wl = user_id ->
                  In el (exercise_logs d) -> el_workout_log_id el <> wl_id wl) ->
   get_workout_history d now user_id date_range = []) /\
  ((forall wl wd, In wl (workout_logs d) -> wl_user_id wl = user_id ->
                  In wd (workout_days d) -> wd_id wd <> wl_workout_day_id wl) ->
   get_workout_history d now user_id date_range = []).
Proof.
  set (start := start_date now (window_days date_range)).
  assert (Hrows : forall row, In row (get_workout_history d now user_id date_range) ->
            (1 <= h_sessions row)%nat /\ h_completion_rate row = 1 /\
            exists wl el wd,
              In (wl, el, wd) (history_join d user_id start) /\
              h_name row = wl_plan_name wl /\ h_day_number row = wd_day_number wd).
  { intros row. unfold get_workout_history. fold start.
    set (rows := history_join d user_id start).
    intros (key & <- & Hkey)%in_map_iff.
    rewrite <- list_elem_of_In, elem_of_remove_dups, list_elem_of_In, order_by_in in Hkey. apply in_map_iff in Hkey as ([[wl el] wd] & Hk & Hin).
    assert (Hgroup : In (wl, el, wd)
                       (List.filter (fun r => bool_decide (history_key r = key)) rows)).
    { apply filter_In. split; [assumption|]. now apply bool_decide_eq_true. }
    split; [|split; [reflexivity|]].
    - unfold history_row. cbn [h_sessions].
      destruct (remove_dups _) as [|x l] eqn:E; [|simpl; lia].
      exfalso. apply (in_map (fun r => let '(wl0, _, _) := r in wl_id wl0)) in Hgroup.
      rewrite <- list_elem_of_In, <- elem_of_remove_dups, E in Hgroup.
      now apply elem_of_nil in Hgroup.
    - exists wl, el, wd. split; [assumption|]. subst key. split; reflexivity. }
  split; [|split].
  - intros row Hrow. destruct (Hrows row Hrow) as (Hs & Hc & wl & el & wd & Hin & Hn & Hd).
    apply history_join_in in Hin as ((? & ? & ?) & (? & ?) & (? & ?)).
    split; [assumption|]. split; [assumption|]. exists wl, el, wd. auto 12.
  - intros Hnone. destruct (get_workout_history d now user_id date_range) as [|row l] eqn:E;
      [reflexivity|].
    destruct (Hrows row) as (_ & _ & wl & el & wd & Hin & _); [now left|].
    apply history_join_in in Hin as ((Hwl & Hu & _) & (Hel & He) & _).
    destruct (Hnone wl el Hwl Hu Hel He).
  - intros Hnone. destruct (get_workout_history d now user_id date_range) as [|row l] eqn:E;
      [reflexivity|].
    destruct (Hrows row) as (_ & _ & wl & el & wd & Hin & _); [now left|].
    apply history_join_in in Hin as ((Hwl & Hu & _) & _ & (Hwd & Hd)).
    destruct (Hnone wl wd Hwl Hu Hwd Hd).
Qed.

(** The logged workout of [example_plans], its exercise log removed. *)
Lemma get_workout_history_rows_witness :
  get_workout_history (set_exercise_logs (fun _ => []) example_plans) example_now 7 "1 Year"
  = [].
Proof.
  apply (proj1 (proj2 (get_workout_history_rows
                         (set_exercise_logs (fun _ => []) example_plans)
                         example_now 7 "1 Year"))).
  intros wl el _ _ [].
Defined.

(** ** Session state, continued *)

(** X29. Initialising the session state never logs anybody out.
    [initialize_session_state] sets only the keys that are missing: what
    [is_authenticated], [get_current_user] and [get_current_user_id]
    return is unchanged, a state that [login_user] or [logout_user] wrote
    keeps its three authentication keys, and running it again changes
    nothing.  On a state with no keys it gives an unauthenticated session
    on the profile page. *)
Theorem initialize_session_state_keeps_login (s : SessionState) :
  is_authenticated (initialize_session_state s) = is_authenticated s /\
  get_current_user (initialize_session_state s) = get_current_user s /\
  get_current_user_id (initialize_session_state s) = get_current_user_id s /\
  initialize_session_state (initialize_session_state s) = initialize_session_state s /\
  (forall user_data session_token,
     let s' := initialize_session_state (login_user user_data session_token s) in
     ss_authenticated s' = Some true /\ ss_user_data s' = Some (Some user_data) /\
     ss_session_token s' = Some (Some session_token) /\
     ss_current_page s' = ss_current_page (initialize_session_state s)) /\
  initialize_session_state (logout_user s) = logout_user s /\
  initialize_session_state fresh_session_state
  = mkSessionState (Some false) (Some None) (Some None) (Some "profile").
Proof.
  destruct s as [[a|] [u|] [t|] [p|]]; repeat split; reflexivity.
Qed.

(** ** Saved diet plans *)

(** X30. A saved diet plan takes effect.  After a successful
    [save_diet_plan] the references of meals and shopping-list items to
    their diet plans are still resolved, and nothing changes for other
    users: their plan lists and calorie targets are as before.  When every
    earlier plan of the user is strictly older, the new plan heads the
    user's plan list and its calorie target is the one
    [get_nutrition_logs] reports, or none when the payload has none. *)
Theorem saved_diet_plan_takes_effect (schema : Schema) (now user_id : Z)
    (diet_data : DietPlanData) (d d' : DB) (plan_id : Z) :
  save_diet_plan schema now user_id diet_data d = (Some plan_id, d') ->
  (diet_references_ok d = true -> diet_references_ok d' = true) /\
  (forall other, other <> user_id ->
     get_user_diet_plans d' other = get_user_diet_plans d other /\
     latest_calorie_target d' other = latest_calorie_target d other) /\
  ((forall p, In p (diet_plans d) -> dp_user_id p = user_id -> dp_created_at p < now) ->
   (exists row, dp_id row = plan_id /\
                get_user_diet_plans d' user_id = row :: get_user_diet_plans d user_id) /\
   latest_calorie_target d' user_id
   = match dict_get (diet_fields diet_data) "calorie_target" with
     | VNull => None
     | target => Some target
     end /\
   forall t range,
     nf_rows (get_nutrition_logs d' t user_id range) <> [] ->
     nf_target_calories (get_nutrition_logs d' t user_id range)
     = match dict_get (diet_fields diet_data) "calorie_target" with
       | VNull => None
       | target => Some target
       end).
Proof.
  intros Hsave.
  destruct (save_diet_plan_cases schema now user_id diet_data d)
    as [Hnone|(meals & items & Hsome & Hmeals & Hitems)];
    rewrite Hsave in *; [discriminate|].
  injection Hsome as -> ->.
  set (pid := next_rowid (map dp_id (diet_plans d))) in *.
  set (row := mkDietPlan pid user_id _ _ _ _ _ _ _ _ now).
  set (d' := append_diet [row] meals items d).
  assert (Hlist : forall who,
             List.filter (fun p => dp_user_id p =? who) (diet_plans d')
             = List.filter (fun p => dp_user_id p =? who) (diet_plans d)
               ++ if user_id =? who then [row] else []).
  { intros who. unfold d'. cbn [diet_plans append_diet]. now rewrite List.filter_app. }
  split; [|split].
  - unfold diet_references_ok. rewrite !andb_true_iff, !forallb_forall.
    intros [Hmp Hsl]. unfold d'. cbn [append_diet diet_plans meal_plans shopping_lists].
    split.
    + intros mp [Hin|Hin]%in_app_iff.
      * apply existsb_app_l. now apply Hmp.
      * destruct (Forall2_in_r _ _ _ _ Hmeals Hin) as (meal & _ & Hsaved).
        apply existsb_app_r. unfold meal_saved in Hsaved. rewrite Hsaved. simpl.
        now rewrite Z.eqb_refl.
    + intros sl [Hin|Hin]%in_app_iff.
      * apply existsb_app_l. now apply Hsl.
      * destruct (Forall2_in_r _ _ _ _ Hitems Hin) as (item & _ & Hsaved).
        apply existsb_app_r. unfold shopping_item_saved in Hsaved. rewrite Hsaved. simpl.
        now rewrite Z.eqb_refl.
  - intros other Hne. unfold get_user_diet_plans, latest_calorie_target.
    rewrite Hlist, (proj2 (Z.eqb_neq user_id other)) by congruence.
    now rewrite app_nil_r.
  - intros Holder.
    assert (Hfirst : get_user_diet_plans d' user_id = row :: get_user_diet_plans d user_id).
    { unfold get_user_diet_plans. rewrite Hlist, Z.eqb_refl. apply order_by_snoc_first.
      - intros p [Hp Hu%Z.eqb_eq]%filter_In. apply Z.ltb_lt. simpl. now apply Holder.
      - intros p [Hp Hu%Z.eqb_eq]%filter_In. apply Z.ltb_ge. simpl.
        specialize (Holder p Hp Hu). lia. }
    assert (Htarget : latest_calorie_target d' user_id
                      = match dict_get (diet_fields diet_data) "calorie_target" with
                        | VNull => None
                        | target => Some target
                        end).
    { unfold latest_calorie_target. fold (get_user_diet_plans d' user_id).
      rewrite Hfirst. reflexivity. }
    split; [exists row; split; [reflexivity | exact Hfirst]|].
    split; [exact Htarget|].
    intros t range Hrows. unfold get_nutrition_logs in *. cbn zeta in *.
    rewrite Htarget.
    destruct (daily_nutrition d' user_id _) as [|r rs]; [now destruct Hrows|].
    now destruct (dict_get (diet_fields diet_data) "calorie_target").
Qed.

Lemma saved_diet_plan_takes_effect_witness :
  let d' := snd (save_diet_plan permissive_schema 10 7 example_diet_data example_plans) in
  exists row,
    dp_id row = 3 /\
    get_user_diet_plans d' 7 = row :: get_user_diet_plans example_plans 7.
Proof.
  intros d'.
  refine (proj1 (proj2 (proj2 (saved_diet_plan_takes_effect permissive_schema 10 7
                                 example_diet_data example_plans d' 3 _)) _)).
  - vm_compute. reflexivity.
  - simpl. intros p [<-|[<-|[]]] _; simpl; lia.
Defined.
